(** * LMFuser: the reactive configuration tree of [lmfuser]

    A shallow embedding of [src/lmfuser/dataloader_config.py] and
    [src/lmfuser/task.py], and the properties of the count-driven list
    resizing, the polymorphic task selector and the data-loader assembly.

    Python objects that are mutated in place while shared (the inner lists
    of [worker_indexes]) live in an explicit object store; every method is a
    computation in a state-and-exception monad over its [self], so that the
    state left behind by a raised exception is part of the model. *)

From Stdlib Require Import ZArith List String PrimFloat Lia.
From stdpp Require Import base option list strings numbers gmap.

Local Open Scope string_scope.
Local Open Scope list_scope.
Local Open Scope Z_scope.

#[local] Set Warnings "-inexact-float".

(** ** Python values, exceptions and list primitives *)

Module Py.

(** The exceptions the modelled code can raise.  [ValidationError] is the
    rejection of a value by a field ([hyperargs] raises on a value outside
    the declared constraints). *)
Inductive exn : Type :=
| AssertionError (msg : option string)
| AttributeError (attr : string)
| KeyError (key : string)
| IndexError
| ValidationError (field : string).

Inductive outcome (A : Type) : Type :=
| Ret (a : A)
| Raise (e : exn).
Arguments Ret {A} a.
Arguments Raise {A} e.

Definition is_ret {A} (o : outcome A) : bool :=
  match o with Ret _ => true | Raise _ => false end.

(** A method body: it reads and writes a state [S] and either returns or
    raises; the state reached when it raises is kept. *)
Definition M (S A : Type) : Type := S -> outcome A * S.

Definition ret {S A} (a : A) : M S A := fun s => (Ret a, s).
Definition raise {S A} (e : exn) : M S A := fun s => (Raise e, s).
Definition bind {S A B} (m : M S A) (k : A -> M S B) : M S B :=
  fun s => match m s with
           | (Ret a, s') => k a s'
           | (Raise e, s') => (Raise e, s')
           end.
Definition gets {S A} (f : S -> A) : M S A := fun s => (Ret (f s), s).
Definition modify {S} (f : S -> S) : M S unit := fun s => (Ret tt, f s).
Definition lift {S A} (o : outcome A) : M S A := fun s => (o, s).

(** [len(l)] *)
Definition len {A} (l : list A) : Z := Z.of_nat (length l).

(** [l[:n]]: a negative bound counts from the end. *)
Definition slice_to {A} (n : Z) (l : list A) : list A :=
  if 0 <=? n then take (Z.to_nat n) l
  else take (Z.to_nat (len l + n)) l.

(** [[e for _ in range(k)]] for a constructor call [e] that builds equal
    values: [range(k)] is empty when [k <= 0]. *)
Definition comprehension {A} (e : A) (k : Z) : list A :=
  replicate (Z.to_nat k) e.

(** [[e] * k]: the empty list when [k <= 0] (all slots alias one object;
    only its value is kept here). *)
Definition list_mul {A} (e : A) (k : Z) : list A :=
  replicate (Z.to_nat k) e.

(** [str(v)] of an optional string. *)
Definition str (v : option string) : string :=
  match v with Some s => s | None => "None" end.

(** [assert v is not None] (without a message, or with one). *)
Definition assert_not_none {A} (msg : option string) (v : option A) : outcome A :=
  match v with Some a => Ret a | None => Raise (AssertionError msg) end.

End Py.
Export Py.

#[global] Instance M_ret {S} : MRet (Py.M S) := fun A a => Py.ret a.
#[global] Instance M_bind {S} : MBind (Py.M S) := fun A B k m => Py.bind m k.

(** ** Fields ([hyperargs]) *)

Module hyperargs.

(** Modelled from the spec: the [hyperargs] package is not part of the
    sources.  A field holds a current value (or [None]) and its
    constraints; [set] rejects a value outside the constraints with
    [ValidationError] and leaves the field as it was (spec 4.1). *)
Record IntArg : Type := mkIntArg {
  int_value : option Z;
  int_min_value : option Z;
  int_max_value : option Z;
  int_allow_none : bool }.

Record FloatArg : Type := mkFloatArg {
  float_value : option float;
  float_min_value : option float;
  float_max_value : option float;
  float_allow_none : bool }.

Record StrArg : Type := mkStrArg { str_value : option string }.

Record BoolArg : Type := mkBoolArg { bool_value : option bool }.

(** The option set of an [OptionArg] is a fixed list ([options=...]) or
    is computed when needed by a named function ([option_fn=...]). *)
Inductive option_fn : Type := scanner_type_list | task_list.

Inductive option_source : Type :=
| options (l : list string)
| by_fn (f : option_fn).

Record OptionArg : Type := mkOptionArg {
  opt_value : option string;
  opt_source : option_source }.

Definition in_range_Z (lo hi : option Z) (n : Z) : bool :=
  match lo with Some a => a <=? n | None => true end &&
  match hi with Some b => n <=? b | None => true end.

Definition in_range_float (lo hi : option float) (x : float) : bool :=
  match lo with Some a => PrimFloat.leb a x | None => true end &&
  match hi with Some b => PrimFloat.leb x b | None => true end.

Definition IntArg_accepts (a : IntArg) (v : option Z) : bool :=
  match v with
  | None => int_allow_none a
  | Some n => in_range_Z (int_min_value a) (int_max_value a) n
  end.

Definition FloatArg_accepts (a : FloatArg) (v : option float) : bool :=
  match v with
  | None => float_allow_none a
  | Some x => in_range_float (float_min_value a) (float_max_value a) x
  end.

Definition IntArg_set (name : string) (v : option Z) (a : IntArg) : outcome IntArg :=
  if IntArg_accepts a v
  then Ret (mkIntArg v (int_min_value a) (int_max_value a) (int_allow_none a))
  else Raise (ValidationError name).

Definition FloatArg_set (name : string) (v : option float) (a : FloatArg) : outcome FloatArg :=
  if FloatArg_accepts a v
  then Ret (mkFloatArg v (float_min_value a) (float_max_value a) (float_allow_none a))
  else Raise (ValidationError name).

(** [StrArg] and [BoolArg] carry no constraint beyond a value being there. *)
Definition StrArg_set (name : string) (v : option string) (a : StrArg) : outcome StrArg :=
  match v with
  | Some _ => Ret (mkStrArg v)
  | None => Raise (ValidationError name)
  end.

Definition BoolArg_set (name : string) (v : option bool) (a : BoolArg) : outcome BoolArg :=
  match v with
  | Some _ => Ret (mkBoolArg v)
  | None => Raise (ValidationError name)
  end.

(** The option set at the time of the edit: [names f] is what the function
    named [f] returns now. *)
Definition option_set (names : option_fn -> list string) (a : OptionArg) : list string :=
  match opt_source a with
  | options l => l
  | by_fn f => names f
  end.

Definition OptionArg_accepts (names : option_fn -> list string) (a : OptionArg)
    (v : option string) : bool :=
  match v with
  | None => false
  | Some s => bool_decide (s ∈ option_set names a)
  end.

Definition OptionArg_set (names : option_fn -> list string) (name : string)
    (v : option string) (a : OptionArg) : outcome OptionArg :=
  if OptionArg_accepts names a v
  then Ret (mkOptionArg v (opt_source a))
  else Raise (ValidationError name).

End hyperargs.
Export hyperargs.

(** ** The data-loader package ([lmfuser_data]), at its interface *)

Module lmfuser_data.

(** [Index(epoch, part, row)] *)
Record Index : Type := mkIndex {
  idx_epoch : option Z;
  idx_part : option Z;
  idx_row : option Z }.

(** A transform hook: an opaque callable, known by name only. *)
Inductive callable : Type := hook (name : string).

(** A scanner class, as [Scanner.get_subclass] returns it. *)
Inductive ScannerClass : Type := scanner_class (name : string).

(** Modelled from the spec: the [lmfuser_data] package is not part of the
    sources.  [Scanner.get_subclass(name)] resolves the name against the
    open registry of scanners (spec 6), here the registered names
    [Scanner.all_subclass_names()]; a name that is not registered is taken
    to raise [KeyError]. *)
Definition get_subclass (registered : list string) (name : string) : outcome ScannerClass :=
  if bool_decide (name ∈ registered) then Ret (scanner_class name)
  else Raise (KeyError name).

(** A keyword argument that a call site may leave out. *)
Inductive kwarg (A : Type) : Type :=
| omitted
| given (a : A).
Arguments omitted {A}.
Arguments given {A} a.

(** Modelled from the spec: the [lmfuser_data] package is not part of the
    sources.  A [DataLoader] is known by the keyword arguments its
    constructor was called with (the request of spec 4.5 and 6); what the
    loader does with them is outside this development. *)
Record DataLoader : Type := mkDataLoader {
  batch_size : Z;
  path_list : list (option string);
  scanner_type : ScannerClass;
  seed : option Z;
  shuffle : option bool;
  pre_fetch_factor : option Z;
  indexes : kwarg (list (list Index));
  infinite : kwarg bool;
  map_fn : option callable;
  flow_fn : option callable;
  ignore_error : option bool;
  qps : option float;
  instruct_timeout : option float;
  worker_timeout : option float;
  restart_cnt : kwarg (option Z);
  num_workers : option Z;
  num_ranks : option Z;
  rank_idx : option Z;
  batch_map_fn : option callable;
  distributor_weights : list (option float) }.

End lmfuser_data.

(** ** [dataloader_config.py] *)

Module dataloader_config.
Import lmfuser_data.

Record IndexConf : Type := mkIndexConf {
  epoch : IntArg;
  part : IntArg;
  row : IntArg }.

(** [IndexConf()] *)
Definition IndexConf_new : IndexConf :=
  mkIndexConf (mkIntArg (Some 0) (Some 0) None false)
              (mkIntArg (Some 0) (Some 0) None false)
              (mkIntArg (Some 0) (Some 0) None false).

Definition to_index (self : IndexConf) : Index :=
  mkIndex (int_value (epoch self)) (int_value (part self)) (int_value (row self)).

(** The element constructors the class body and the monitors call. *)
Definition path_prompt : string := "Enther the path to the data file.".
Definition StrArg_path : StrArg := mkStrArg (Some path_prompt).
Definition FloatArg_weight : FloatArg :=
  mkFloatArg (Some 1.0%float) (Some 0.0%float) (Some 1.0%float) false.

(** A reference to a list object in the store. *)
Definition ref : Type := nat.

(** [worker_indexes] is a list of references to its inner lists: the loop
    of [set_worker_indexes] binds a variable to an inner list, and what it
    does through that variable is seen through [self.worker_indexes] only
    when it mutates the object. *)
Record DataLoaderConf : Type := mkDataLoaderConf {
  batch_size : IntArg;
  num_path : IntArg;
  path_list : list StrArg;
  path_weight : list FloatArg;
  scanner_type : OptionArg;
  seed : IntArg;
  shuffle : BoolArg;
  prefetch_factor : IntArg;
  ignore_error : BoolArg;
  qps : FloatArg;
  instruct_timeout : FloatArg;
  worker_timeout : FloatArg;
  num_workers : IntArg;
  num_ranks : IntArg;
  rank_idx : IntArg;
  worker_indexes : list ref }.

(** The store of inner-list objects, and the instance. *)
Record Mem : Type := mkMem {
  objs : list (list IndexConf);
  self : DataLoaderConf }.

(** A fresh [DataLoaderConf()]: the class-level defaults.  The inner list
    of the class-level [worker_indexes] is an object of the class, at
    reference 0 here; this is the instance of a program that has built and
    edited no other [DataLoaderConf]. *)
Definition DataLoaderConf_new : Mem :=
  mkMem [[IndexConf_new]]
    (mkDataLoaderConf
       (mkIntArg (Some 128) (Some 1) None false)
       (mkIntArg (Some 1) (Some 1) None false)
       [StrArg_path]
       [FloatArg_weight]
       (mkOptionArg (Some "C4Scanner") (options ["C4Scanner"]))
       (mkIntArg (Some 42) None None false)
       (mkBoolArg (Some true))
       (mkIntArg (Some 2) (Some 0) None false)
       (mkBoolArg (Some true))
       (mkFloatArg None (Some 0.1%float) None true)
       (mkFloatArg None (Some 0.1%float) None true)
       (mkFloatArg None (Some 0.1%float) None true)
       (mkIntArg (Some 1) (Some 1) None false)
       (mkIntArg (Some 1) (Some 1) None false)
       (mkIntArg (Some 0) (Some 0) None false)
       [0%nat]).

(** *** Store operations *)

(** A new list object; its reference is returned. *)
Definition alloc (l : list IndexConf) : M Mem ref :=
  fun m => (Ret (length (objs m)), mkMem (objs m ++ [l]) (self m)).

Definition read (r : ref) : M Mem (list IndexConf) :=
  gets (fun m => default [] (objs m !! r)).

(** In-place update of the list object at [r]. *)
Definition write (r : ref) (l : list IndexConf) : M Mem unit :=
  modify (fun m => mkMem (<[r := l]> (objs m)) (self m)).

(** [[e for _ in range(k)]] where [e] builds a new list object each time. *)
Fixpoint alloc_each (l : list IndexConf) (k : nat) : M Mem (list ref) :=
  match k with
  | O => mret []
  | S k' => r ← alloc l; rs ← alloc_each l k'; mret (r :: rs)
  end.

(** *** Attribute assignment on [self] *)

Definition assign_path_list (v : list StrArg) : M Mem unit :=
  modify (fun m => let c := self m in
    mkMem (objs m)
      (mkDataLoaderConf (batch_size c) (num_path c) v (path_weight c)
         (scanner_type c) (seed c) (shuffle c) (prefetch_factor c)
         (ignore_error c) (qps c) (instruct_timeout c) (worker_timeout c)
         (num_workers c) (num_ranks c) (rank_idx c) (worker_indexes c))).

Definition assign_path_weight (v : list FloatArg) : M Mem unit :=
  modify (fun m => let c := self m in
    mkMem (objs m)
      (mkDataLoaderConf (batch_size c) (num_path c) (path_list c) v
         (scanner_type c) (seed c) (shuffle c) (prefetch_factor c)
         (ignore_error c) (qps c) (instruct_timeout c) (worker_timeout c)
         (num_workers c) (num_ranks c) (rank_idx c) (worker_indexes c))).

Definition assign_worker_indexes (v : list ref) : M Mem unit :=
  modify (fun m => let c := self m in
    mkMem (objs m)
      (mkDataLoaderConf (batch_size c) (num_path c) (path_list c) (path_weight c)
         (scanner_type c) (seed c) (shuffle c) (prefetch_factor c)
         (ignore_error c) (qps c) (instruct_timeout c) (worker_timeout c)
         (num_workers c) (num_ranks c) (rank_idx c) v)).

(** *** The monitors *)

(** [@monitor_on('num_path') def set_path_weight(self)] *)
Definition set_path_weight : M Mem unit :=
  num ← gets (fun m => int_value (num_path (self m)));
  num ← lift (assert_not_none None num);
  pw ← gets (fun m => path_weight (self m));
  (if len pw >? num then
     assign_path_weight (slice_to num pw)
   else if len pw <? num then
     assign_path_weight (pw ++ comprehension FloatArg_weight (num - len pw))
   else mret tt);;
  pl ← gets (fun m => path_list (self m));
  (if len pl >? num then
     assign_path_list (slice_to num pl)
   else if len pl <? num then
     assign_path_list (pl ++ comprehension StrArg_path (num - len pl))
   else mret tt).

(** The body of [for worker_indexes in self.worker_indexes]: the loop
    variable holds a reference.  [worker_indexes = worker_indexes[:n]]
    builds a new list object and rebinds the variable to it;
    [worker_indexes += [...]] extends the object the variable refers to. *)
Fixpoint for_worker_indexes (num_worker_per_path : Z) (it : list ref) : M Mem unit :=
  match it with
  | [] => mret tt
  | worker_indexes :: rest =>
      cur ← read worker_indexes;
      (if len cur >? num_worker_per_path then
         rebound ← alloc (slice_to num_worker_per_path cur);
         mret tt
       else if len cur <? num_worker_per_path then
         write worker_indexes
           (cur ++ comprehension IndexConf_new (num_worker_per_path - len cur))
       else mret tt);;
      for_worker_indexes num_worker_per_path rest
  end.

(** [@monitor_on('num_workers') @monitor_on('num_path')
     def set_worker_indexes(self)] *)
Definition set_worker_indexes : M Mem unit :=
  num_path ← gets (fun m => int_value (num_path (self m)));
  num_worker_per_path ← gets (fun m => int_value (num_workers (self m)));
  num_path ← lift (assert_not_none None num_path);
  num_worker_per_path ← lift (assert_not_none None num_worker_per_path);
  wi ← gets (fun m => worker_indexes (self m));
  (if len wi >? num_path then
     assign_worker_indexes (slice_to num_path wi)
   else if len wi <? num_path then
     fresh ← alloc_each [IndexConf_new] (Z.to_nat (num_path - len wi));
     assign_worker_indexes (wi ++ fresh)
   else mret tt);;
  wi ← gets (fun m => worker_indexes (self m));
  for_worker_indexes num_worker_per_path wi.

(** [self.worker_indexes] as a list of lists: each reference followed. *)
Definition worker_indexes_value (m : Mem) : list (list IndexConf) :=
  map (fun r => default [] (objs m !! r)) (worker_indexes (self m)).

(** *** Assembly *)

(** [init_dataloader(self, row_map_fn, row_flow_fn, batch_map_fn)];
    [registered] are the scanner names [Scanner.get_subclass] knows. *)
Definition init_dataloader (registered : list string)
    (row_map_fn row_flow_fn batch_map_fn : option callable) : M Mem DataLoader :=
  bs ← gets (fun m => int_value (batch_size (self m)));
  bs ← lift (assert_not_none None bs);
  c ← gets self;
  wi ← gets worker_indexes_value;
  scanner ← lift (get_subclass registered (str (opt_value (scanner_type c))));
  mret (mkDataLoader
    bs
    (map (fun path => Some (str (str_value path))) (path_list c))
    scanner
    (int_value (seed c))
    (bool_value (shuffle c))
    (int_value (prefetch_factor c))
    (given (map (fun idx_seq => map to_index idx_seq) wi))
    (given false)
    row_map_fn
    row_flow_fn
    (bool_value (ignore_error c))
    (float_value (qps c))
    (float_value (instruct_timeout c))
    (float_value (worker_timeout c))
    (given None)
    (int_value (num_workers c))
    (int_value (num_ranks c))
    (int_value (rank_idx c))
    batch_map_fn
    (map float_value (path_weight c))).

(** *** Field edits *)

Inductive index_field : Type := at_epoch | at_part | at_row.

(** One edit of one field of the tree, by an editor (command line, file
    loader): the field, and the value offered. *)
Inductive edit : Type :=
| edit_batch_size (v : option Z)
| edit_num_path (v : option Z)
| edit_path_list (i : nat) (v : option string)
| edit_path_weight (i : nat) (v : option float)
| edit_scanner_type (v : option string)
| edit_seed (v : option Z)
| edit_shuffle (v : option bool)
| edit_prefetch_factor (v : option Z)
| edit_ignore_error (v : option bool)
| edit_qps (v : option float)
| edit_instruct_timeout (v : option float)
| edit_worker_timeout (v : option float)
| edit_num_workers (v : option Z)
| edit_num_ranks (v : option Z)
| edit_rank_idx (v : option Z)
| edit_worker_index (i j : nat) (f : index_field) (v : option Z).

Definition IndexConf_set (f : index_field) (v : option Z) (ic : IndexConf) : outcome IndexConf :=
  match f with
  | at_epoch =>
      match IntArg_set "epoch" v (epoch ic) with
      | Ret a => Ret (mkIndexConf a (part ic) (row ic))
      | Raise e => Raise e
      end
  | at_part =>
      match IntArg_set "part" v (part ic) with
      | Ret a => Ret (mkIndexConf (epoch ic) a (row ic))
      | Raise e => Raise e
      end
  | at_row =>
      match IntArg_set "row" v (row ic) with
      | Ret a => Ret (mkIndexConf (epoch ic) (part ic) a)
      | Raise e => Raise e
      end
  end.

(** The outcome of a field's [set], stored into the tree when accepted;
    a rejected value leaves the tree as it was. *)
Definition stored {A} (m : Mem) (o : outcome A) (k : A -> Mem) : outcome unit * Mem :=
  match o with
  | Ret a => (Ret tt, k a)
  | Raise e => (Raise e, m)
  end.

(** Modelled from the spec: the editing entry point of [hyperargs.Conf] is
    not part of the sources.  Validation and storing of the value offered
    (spec 4.1); an index outside a list raises [IndexError]. *)
Definition store_field (e : edit) : M Mem unit := fun m =>
  let '(mkDataLoaderConf bs np pl pw sc sd sh pf ie q it wt nw nr ri wi) := self m in
  let o := objs m in
  match e with
  | edit_batch_size v => stored m (IntArg_set "batch_size" v bs) (fun a =>
      mkMem o (mkDataLoaderConf a np pl pw sc sd sh pf ie q it wt nw nr ri wi))
  | edit_num_path v => stored m (IntArg_set "num_path" v np) (fun a =>
      mkMem o (mkDataLoaderConf bs a pl pw sc sd sh pf ie q it wt nw nr ri wi))
  | edit_path_list i v =>
      match pl !! i with
      | Some x => stored m (StrArg_set "path_list" v x) (fun a =>
          mkMem o (mkDataLoaderConf bs np (<[i := a]> pl) pw sc sd sh pf ie q it wt nw nr ri wi))
      | None => (Raise IndexError, m)
      end
  | edit_path_weight i v =>
      match pw !! i with
      | Some x => stored m (FloatArg_set "path_weight" v x) (fun a =>
          mkMem o (mkDataLoaderConf bs np pl (<[i := a]> pw) sc sd sh pf ie q it wt nw nr ri wi))
      | None => (Raise IndexError, m)
      end
  | edit_scanner_type v =>
      stored m (OptionArg_set (fun _ => []) "scanner_type" v sc) (fun a =>
        mkMem o (mkDataLoaderConf bs np pl pw a sd sh pf ie q it wt nw nr ri wi))
  | edit_seed v => stored m (IntArg_set "seed" v sd) (fun a =>
      mkMem o (mkDataLoaderConf bs np pl pw sc a sh pf ie q it wt nw nr ri wi))
  | edit_shuffle v => stored m (BoolArg_set "shuffle" v sh) (fun a =>
      mkMem o (mkDataLoaderConf bs np pl pw sc sd a pf ie q it wt nw nr ri wi))
  | edit_prefetch_factor v => stored m (IntArg_set "prefetch_factor" v pf) (fun a =>
      mkMem o (mkDataLoaderConf bs np pl pw sc sd sh a ie q it wt nw nr ri wi))
  | edit_ignore_error v => stored m (BoolArg_set "ignore_error" v ie) (fun a =>
      mkMem o (mkDataLoaderConf bs np pl pw sc sd sh pf a q it wt nw nr ri wi))
  | edit_qps v => stored m (FloatArg_set "qps" v q) (fun a =>
      mkMem o (mkDataLoaderConf bs np pl pw sc sd sh pf ie a it wt nw nr ri wi))
  | edit_instruct_timeout v => stored m (FloatArg_set "instruct_timeout" v it) (fun a =>
      mkMem o (mkDataLoaderConf bs np pl pw sc sd sh pf ie q a wt nw nr ri wi))
  | edit_worker_timeout v => stored m (FloatArg_set "worker_timeout" v wt) (fun a =>
      mkMem o (mkDataLoaderConf bs np pl pw sc sd sh pf ie q it a nw nr ri wi))
  | edit_num_workers v => stored m (IntArg_set "num_workers" v nw) (fun a =>
      mkMem o (mkDataLoaderConf bs np pl pw sc sd sh pf ie q it wt a nr ri wi))
  | edit_num_ranks v => stored m (IntArg_set "num_ranks" v nr) (fun a =>
      mkMem o (mkDataLoaderConf bs np pl pw sc sd sh pf ie q it wt nw a ri wi))
  | edit_rank_idx v => stored m (IntArg_set "rank_idx" v ri) (fun a =>
      mkMem o (mkDataLoaderConf bs np pl pw sc sd sh pf ie q it wt nw nr a wi))
  | edit_worker_index i j f v =>
      match wi !! i with
      | Some r =>
          let inner := default [] (o !! r) in
          match inner !! j with
          | Some ic => stored m (IndexConf_set f v ic) (fun a =>
              mkMem (<[r := <[j := a]> inner]> o) (self m))
          | None => (Raise IndexError, m)
          end
      | None => (Raise IndexError, m)
      end
  end.

(** The monitors that run after an edit of a field.  [hyperargs] keeps
    one monitored field per method: of the two [monitor_on] decorators
    stacked on [set_worker_indexes] (lines 58-59) the outer one, applied
    last, is the one in force.  The method runs after an edit of
    [num_workers] and not after an edit of [num_path], whose only monitor
    is [set_path_weight]: on a fresh tree, [num_path = 3] leaves
    [worker_indexes] with its one inner list. *)
Definition monitors (e : edit) : M Mem unit :=
  match e with
  | edit_num_path _ => set_path_weight
  | edit_num_workers _ => set_worker_indexes
  | _ => mret tt
  end.

(** An edit: the value is validated and stored, then the monitors of the
    field run (spec 2, control flow). *)
Definition apply_edit (e : edit) : M Mem unit :=
  store_field e;; monitors e.

(** The trees an editor can reach from a fresh one; an edit that raises
    leaves whatever state it reached. *)
Inductive reachable : Mem -> Prop :=
| reachable_new : reachable DataLoaderConf_new
| reachable_edit m e : reachable m -> reachable (snd (apply_edit e m)).

(** Edits in sequence, each on the state the previous one left. *)
Definition apply_edits (es : list edit) (m : Mem) : Mem :=
  fold_left (fun m e => snd (apply_edit e m)) es m.

End dataloader_config.

(** ** [task.py] *)

Module task.
Import lmfuser_data.
Import dataloader_config (path_prompt, StrArg_path, FloatArg_weight).

(** An instance of [TaskBase] or of a subclass; [class_name] is
    [self.__class__.__name__].  The two cache slots are the attributes
    [_train_dataloader] and [_eval_dataloader]. *)
Record TaskBase : Type := mkTaskBase {
  class_name : string;
  num_train_data_path : IntArg;
  train_data_path_list : list StrArg;
  train_data_weights : list FloatArg;
  num_eval_data_path : IntArg;
  eval_data_path_list : list StrArg;
  eval_data_weights : list FloatArg;
  scanner_type : OptionArg;
  _train_dataloader : option DataLoader;
  _eval_dataloader : option DataLoader }.

(** The class-level defaults, for the class named [cls]. *)
Definition TaskBase_new (cls : string) : TaskBase :=
  mkTaskBase cls
    (mkIntArg (Some 1) (Some 0) None false)
    [StrArg_path]
    [FloatArg_weight]
    (mkIntArg (Some 1) (Some 0) None false)
    [StrArg_path]
    [FloatArg_weight]
    (mkOptionArg (Some "C4Scanner") (by_fn scanner_type_list))
    None
    None.

(** [class Task(TaskBase): pass], and [Task()] *)
Definition Task_new : TaskBase := TaskBase_new "Task".

(** The two open registries: the scanner names
    ([Scanner.all_subclass_names()]) and the task classes by name
    ([TaskBase.all_subclass_map()]); a class is given by the instance its
    constructor returns. *)
Record Registry : Type := mkRegistry {
  scanner_names : list string;
  all_subclass_map : gmap string TaskBase }.

(** [TaskBase.all_subclass_names()] *)
Definition all_subclass_names (reg : Registry) : list string :=
  elements (dom (all_subclass_map reg)).

(** What the two option functions return. *)
Definition option_names (reg : Registry) (f : option_fn) : list string :=
  match f with
  | scanner_type_list => scanner_names reg
  | task_list => all_subclass_names reg
  end.

(** *** Attribute assignment on a [TaskBase] *)

Definition assign_train_data_path_list (v : list StrArg) : M TaskBase unit :=
  modify (fun t => mkTaskBase (class_name t) (num_train_data_path t) v
    (train_data_weights t) (num_eval_data_path t) (eval_data_path_list t)
    (eval_data_weights t) (scanner_type t) (_train_dataloader t) (_eval_dataloader t)).

Definition assign_train_data_weights (v : list FloatArg) : M TaskBase unit :=
  modify (fun t => mkTaskBase (class_name t) (num_train_data_path t)
    (train_data_path_list t) v (num_eval_data_path t) (eval_data_path_list t)
    (eval_data_weights t) (scanner_type t) (_train_dataloader t) (_eval_dataloader t)).

Definition assign_eval_data_path_list (v : list StrArg) : M TaskBase unit :=
  modify (fun t => mkTaskBase (class_name t) (num_train_data_path t)
    (train_data_path_list t) (train_data_weights t) (num_eval_data_path t) v
    (eval_data_weights t) (scanner_type t) (_train_dataloader t) (_eval_dataloader t)).

Definition assign_eval_data_weights (v : list FloatArg) : M TaskBase unit :=
  modify (fun t => mkTaskBase (class_name t) (num_train_data_path t)
    (train_data_path_list t) (train_data_weights t) (num_eval_data_path t)
    (eval_data_path_list t) v (scanner_type t) (_train_dataloader t) (_eval_dataloader t)).

Definition assign__train_dataloader (v : option DataLoader) : M TaskBase unit :=
  modify (fun t => mkTaskBase (class_name t) (num_train_data_path t)
    (train_data_path_list t) (train_data_weights t) (num_eval_data_path t)
    (eval_data_path_list t) (eval_data_weights t) (scanner_type t) v (_eval_dataloader t)).

Definition assign__eval_dataloader (v : option DataLoader) : M TaskBase unit :=
  modify (fun t => mkTaskBase (class_name t) (num_train_data_path t)
    (train_data_path_list t) (train_data_weights t) (num_eval_data_path t)
    (eval_data_path_list t) (eval_data_weights t) (scanner_type t) (_train_dataloader t) v).

(** *** The monitors of [TaskBase] *)

(** [assert isinstance(num, int)] *)
Definition assert_isinstance_int (v : option Z) : outcome Z :=
  assert_not_none None v.

(** [@monitor_on('num_train_data_path') def set_train_path_list(self)] *)
Definition set_train_path_list : M TaskBase unit :=
  num ← gets (fun t => int_value (num_train_data_path t));
  num ← lift (assert_isinstance_int num);
  tpl ← gets train_data_path_list;
  if len tpl >? num then
    assign_train_data_path_list (slice_to num tpl);;
    tw ← gets train_data_weights;
    assign_train_data_weights (slice_to num tw)
  else if len tpl <? num then
    assign_train_data_path_list (tpl ++ list_mul StrArg_path (num - len tpl));;
    tw ← gets train_data_weights;
    assign_train_data_weights (tw ++ list_mul FloatArg_weight (num - len tw))
  else mret tt.

(** [@monitor_on('num_eval_data_path') def set_eval_path_list(self)]: the
    growth branch subtracts the lengths of the two train lists. *)
Definition set_eval_path_list : M TaskBase unit :=
  num ← gets (fun t => int_value (num_eval_data_path t));
  num ← lift (assert_isinstance_int num);
  epl ← gets eval_data_path_list;
  if len epl >? num then
    assign_eval_data_path_list (slice_to num epl);;
    ew ← gets eval_data_weights;
    assign_eval_data_weights (slice_to num ew)
  else if len epl <? num then
    tpl ← gets train_data_path_list;
    assign_eval_data_path_list (epl ++ list_mul StrArg_path (num - len tpl));;
    ew ← gets eval_data_weights;
    tw ← gets train_data_weights;
    assign_eval_data_weights (ew ++ list_mul FloatArg_weight (num - len tw))
  else mret tt.

(** *** The data loaders of a task *)

(** The parameters of [_get_train_dataloader] and [_get_eval_dataloader]. *)
Record loader_args : Type := mkLoaderArgs {
  arg_batch_size : Z;
  arg_seed : Z;
  arg_shuffle : bool;
  arg_prefetch_factor : Z;
  arg_ignore_error : bool;
  arg_qps : option float;
  arg_instruct_timeout : float;
  arg_worker_timeout : float;
  arg_num_workers : Z;
  arg_rank : Z;
  arg_world_size : Z }.

(** [get_row_processor], [get_flow_processor], [get_batch_processor] *)
Definition get_row_processor (self : TaskBase) : option callable := None.
Definition get_flow_processor (self : TaskBase) : option callable := None.
Definition get_batch_processor (self : TaskBase) : option callable := None.

(** The [DataLoader(...)] call both getters make. *)
Definition new_DataLoader (self : TaskBase) (a : loader_args)
    (path_list : list (option string)) (weight_list : list (option float))
    (scanner : ScannerClass) : DataLoader :=
  mkDataLoader
    (arg_batch_size a)
    path_list
    scanner
    (Some (arg_seed a))
    (Some (arg_shuffle a))
    (Some (arg_prefetch_factor a))
    omitted
    omitted
    (get_row_processor self)
    (get_flow_processor self)
    (Some (arg_ignore_error a))
    (arg_qps a)
    (Some (arg_instruct_timeout a))
    (Some (arg_worker_timeout a))
    omitted
    (Some (arg_num_workers a))
    (Some (arg_world_size a))
    (Some (arg_rank a))
    (get_batch_processor self)
    weight_list.

Definition _get_train_dataloader (reg : Registry) (a : loader_args)
    : M TaskBase (option DataLoader) :=
  num ← gets (fun t => int_value (num_train_data_path t));
  if bool_decide (num = Some 0) then mret None else
  cached ← gets _train_dataloader;
  match cached with
  | Some dl => mret (Some dl)
  | None =>
      path_list ← gets (fun t => map str_value (train_data_path_list t));
      weight_list ← gets (fun t => map float_value (train_data_weights t));
      scanner_type ← gets (fun t => opt_value (scanner_type t));
      scanner_type ← lift (assert_not_none (Some "scanner_type is None") scanner_type);
      scanner ← lift (get_subclass (scanner_names reg) scanner_type);
      self ← gets (fun t => t);
      assign__train_dataloader
        (Some (new_DataLoader self a path_list weight_list scanner));;
      gets _train_dataloader
  end.

Definition _get_eval_dataloader (reg : Registry) (a : loader_args)
    : M TaskBase (option DataLoader) :=
  num ← gets (fun t => int_value (num_eval_data_path t));
  if bool_decide (num = Some 0) then mret None else
  cached ← gets _eval_dataloader;
  match cached with
  | Some dl => mret (Some dl)
  | None =>
      path_list ← gets (fun t => map str_value (eval_data_path_list t));
      weight_list ← gets (fun t => map float_value (eval_data_weights t));
      scanner_type ← gets (fun t => opt_value (scanner_type t));
      scanner_type ← lift (assert_not_none (Some "scanner_type is None") scanner_type);
      scanner ← lift (get_subclass (scanner_names reg) scanner_type);
      self ← gets (fun t => t);
      assign__eval_dataloader
        (Some (new_DataLoader self a path_list weight_list scanner));;
      gets _eval_dataloader
  end.

(** *** [TaskSelector] *)

Record TaskSelector : Type := mkTaskSelector {
  task_name : OptionArg;
  conf : TaskBase }.

(** [TaskSelector()] *)
Definition TaskSelector_new : TaskSelector :=
  mkTaskSelector (mkOptionArg (Some "Task") (by_fn task_list)) Task_new.

Definition assign_conf (v : TaskBase) : M TaskSelector unit :=
  modify (fun s => mkTaskSelector (task_name s) v).

(** [TaskBase.all_subclass_map()[name]()]: the subscript raises [KeyError]
    on a name that is not in the map. *)
Definition construct (reg : Registry) (name : string) : outcome TaskBase :=
  match all_subclass_map reg !! name with
  | Some instance => Ret instance
  | None => Raise (KeyError name)
  end.

(** [@monitor_on('task_name') def change_conf(self)] *)
Definition change_conf (reg : Registry) : M TaskSelector unit :=
  name ← gets (fun s => opt_value (task_name s));
  match name with
  | None => assign_conf Task_new
  | Some name =>
      cls ← gets (fun s => class_name (conf s));
      if bool_decide (name ≠ cls) then
        instance ← lift (construct reg name);
        assign_conf instance
      else mret tt
  end.

(** Modelled from the spec: the editing entry point of [hyperargs.Conf] is
    not part of the sources.  Setting [task_name]: the name is checked
    against the option set [task_list()] and stored (spec 4.1), then the
    monitor [change_conf] runs. *)
Definition store_task_name (reg : Registry) (v : option string) : M TaskSelector unit :=
  fun s =>
    match OptionArg_set (option_names reg) "task_name" v (task_name s) with
    | Ret a => (Ret tt, mkTaskSelector a (conf s))
    | Raise e => (Raise e, s)
    end.

Definition set_task_name (reg : Registry) (v : option string) : M TaskSelector unit :=
  store_task_name reg v;; change_conf reg.

(** *** [Tasks] *)

(** The class declares [num_tasks], [tasks] and [task_weights].
    [task_weight] is the instance attribute of that name, when one was
    ever assigned: the class declares none. *)
Record Tasks : Type := mkTasks {
  num_tasks : IntArg;
  tasks : list TaskSelector;
  task_weights : list FloatArg;
  task_weight : option (list FloatArg) }.

(** [Tasks()] *)
Definition Tasks_new : Tasks :=
  mkTasks (mkIntArg (Some 1) (Some 1) None false)
    [TaskSelector_new]
    [FloatArg_weight]
    None.

Definition assign_tasks (v : list TaskSelector) : M Tasks unit :=
  modify (fun s => mkTasks (num_tasks s) v (task_weights s) (task_weight s)).

(** [self.task_weight = v] *)
Definition assign_task_weight (v : list FloatArg) : M Tasks unit :=
  modify (fun s => mkTasks (num_tasks s) (tasks s) (task_weights s) (Some v)).

(** Reading [self.task_weight]: [AttributeError] while the instance has
    no such attribute. *)
Definition get_task_weight : M Tasks (list FloatArg) :=
  fun s => match task_weight s with
           | Some v => (Ret v, s)
           | None => (Raise (AttributeError "task_weight"), s)
           end.

(** [@monitor_on('num_tasks') def change_task_list(self)] *)
Definition change_task_list : M Tasks unit :=
  num ← gets (fun s => int_value (num_tasks s));
  num ← lift (assert_not_none (Some "num_tasks is None") num);
  ts ← gets tasks;
  if len ts >? num then
    assign_tasks (slice_to num ts);;
    tw ← get_task_weight;
    assign_task_weight (slice_to num tw)
  else if len ts <? num then
    assign_tasks (ts ++ comprehension TaskSelector_new (num - len ts));;
    tw ← get_task_weight;
    assign_task_weight (tw ++ comprehension FloatArg_weight (num - len tw))
  else mret tt.

(** Modelled from the spec: the editing entry point of [hyperargs.Conf] is
    not part of the sources.  Setting [num_tasks]: validation and storing
    (spec 4.1), then the monitor [change_task_list]. *)
Definition store_num_tasks (v : option Z) : M Tasks unit :=
  fun s =>
    match IntArg_set "num_tasks" v (num_tasks s) with
    | Ret a => (Ret tt, mkTasks a (tasks s) (task_weights s) (task_weight s))
    | Raise e => (Raise e, s)
    end.

Definition set_num_tasks (v : option Z) : M Tasks unit :=
  store_num_tasks v;; change_task_list.

(** *** Edits of a [TaskBase] *)

Inductive edit : Type :=
| edit_num_train_data_path (v : option Z)
| edit_train_data_path_list (i : nat) (v : option string)
| edit_train_data_weights (i : nat) (v : option float)
| edit_num_eval_data_path (v : option Z)
| edit_eval_data_path_list (i : nat) (v : option string)
| edit_eval_data_weights (i : nat) (v : option float)
| edit_scanner_type (v : option string).

Definition stored {A} (t : TaskBase) (o : outcome A) (k : A -> TaskBase)
    : outcome unit * TaskBase :=
  match o with
  | Ret a => (Ret tt, k a)
  | Raise e => (Raise e, t)
  end.

(** Modelled from the spec: the editing entry point of [hyperargs.Conf] is
    not part of the sources.  Validation and storing of the value offered
    (spec 4.1); an index outside a list raises [IndexError]. *)
Definition store_field (reg : Registry) (e : edit) : M TaskBase unit := fun t =>
  let '(mkTaskBase cls nt tpl tw ne epl ew sc tdl edl) := t in
  match e with
  | edit_num_train_data_path v =>
      stored t (IntArg_set "num_train_data_path" v nt) (fun a =>
        mkTaskBase cls a tpl tw ne epl ew sc tdl edl)
  | edit_train_data_path_list i v =>
      match tpl !! i with
      | Some x => stored t (StrArg_set "train_data_path_list" v x) (fun a =>
          mkTaskBase cls nt (<[i := a]> tpl) tw ne epl ew sc tdl edl)
      | None => (Raise IndexError, t)
      end
  | edit_train_data_weights i v =>
      match tw !! i with
      | Some x => stored t (FloatArg_set "train_data_weights" v x) (fun a =>
          mkTaskBase cls nt tpl (<[i := a]> tw) ne epl ew sc tdl edl)
      | None => (Raise IndexError, t)
      end
  | edit_num_eval_data_path v =>
      stored t (IntArg_set "num_eval_data_path" v ne) (fun a =>
        mkTaskBase cls nt tpl tw a epl ew sc tdl edl)
  | edit_eval_data_path_list i v =>
      match epl !! i with
      | Some x => stored t (StrArg_set "eval_data_path_list" v x) (fun a =>
          mkTaskBase cls nt tpl tw ne (<[i := a]> epl) ew sc tdl edl)
      | None => (Raise IndexError, t)
      end
  | edit_eval_data_weights i v =>
      match ew !! i with
      | Some x => stored t (FloatArg_set "eval_data_weights" v x) (fun a =>
          mkTaskBase cls nt tpl tw ne epl (<[i := a]> ew) sc tdl edl)
      | None => (Raise IndexError, t)
      end
  | edit_scanner_type v =>
      stored t (OptionArg_set (option_names reg) "scanner_type" v sc) (fun a =>
        mkTaskBase cls nt tpl tw ne epl ew a tdl edl)
  end.

Definition monitors (e : edit) : M TaskBase unit :=
  match e with
  | edit_num_train_data_path _ => set_train_path_list
  | edit_num_eval_data_path _ => set_eval_path_list
  | _ => mret tt
  end.

Definition apply_edit (reg : Registry) (e : edit) : M TaskBase unit :=
  store_field reg e;; monitors e.

(** The instances an editor can reach from the defaults of a class. *)
Inductive reachable (reg : Registry) : TaskBase -> Prop :=
| reachable_new cls : reachable reg (TaskBase_new cls)
| reachable_edit t e : reachable reg t -> reachable reg (snd (apply_edit reg e t)).

End task.

(** ** The resize rule, as the specification words it *)

Module Spec.

(** Spec 4.3: given the count [n] and a list of length [m]: if [m > n],
    the first [n] elements; if [m < n], [n - m] default elements appended;
    if [m = n], the list itself. *)
Definition resize {A} (n : nat) (d : A) (l : list A) : list A :=
  if decide (n < length l)%nat then take n l
  else if decide (length l < n)%nat then l ++ replicate (n - length l) d
  else l.

End Spec.

(** ** Reasoning about method bodies *)

Ltac unfold_M :=
  unfold mbind, M_bind, Py.bind, mret, M_ret, Py.ret, Py.gets, Py.modify,
    Py.lift, Py.raise in *.

(** Running a sequence: the continuation runs on the state the first
    part returned in. *)
Lemma run_bind {S A B} (c : M S A) (k : A -> M S B) (s : S) :
  (c ≫= k) s = match c s with
               | (Ret a, s') => k a s'
               | (Raise e, s') => (Raise e, s')
               end.
Proof. reflexivity. Qed.

Section PyFacts.
Context {A : Type}.
Implicit Types (l : list A) (n : Z) (d : A).

Lemma len_nonneg l : 0 <= len l.
Proof. unfold len. lia. Qed.

Lemma slice_to_take n l : 0 <= n -> slice_to n l = take (Z.to_nat n) l.
Proof. intros Hn. unfold slice_to. destruct (Z.leb_spec 0 n); [done | lia]. Qed.

Lemma length_slice_to n l :
  0 <= n -> n <= len l -> len (slice_to n l) = n.
Proof.
  intros H0 Hle. rewrite slice_to_take by done. unfold len in *.
  rewrite length_take. lia.
Qed.

Lemma length_comprehension d k : length (comprehension d k) = Z.to_nat k.
Proof. unfold comprehension. apply length_replicate. Qed.

Lemma length_list_mul d k : length (list_mul d k) = Z.to_nat k.
Proof. unfold list_mul. apply length_replicate. Qed.

(** The three-way branch of the monitors computes the rule of the
    specification, for a count that is not negative. *)
Lemma resize_branches n d l :
  0 <= n ->
  (if len l >? n then slice_to n l
   else if len l <? n then l ++ comprehension d (n - len l)
   else l) = Spec.resize (Z.to_nat n) d l.
Proof.
  intros Hn. unfold Spec.resize, len, comprehension.
  destruct (Z.gtb_spec (Z.of_nat (length l)) n).
  - rewrite decide_True by lia. by apply slice_to_take.
  - rewrite decide_False by lia.
    destruct (Z.ltb_spec (Z.of_nat (length l)) n).
    + rewrite decide_True by lia. do 2 f_equal. lia.
    + by rewrite decide_False by lia.
Qed.

Lemma resize_longer (k : nat) d l : (k < length l)%nat -> Spec.resize k d l = take k l.
Proof. intros Hk. unfold Spec.resize. by rewrite decide_True. Qed.

Lemma resize_shorter (k : nat) d l :
  (length l < k)%nat -> Spec.resize k d l = l ++ replicate (k - length l) d.
Proof.
  intros Hk. unfold Spec.resize.
  rewrite decide_False by lia. by rewrite decide_True.
Qed.

Lemma resize_same (k : nat) d l : length l = k -> Spec.resize k d l = l.
Proof. intros Hk. unfold Spec.resize. by rewrite !decide_False by lia. Qed.

Lemma length_resize (k : nat) d l : length (Spec.resize k d l) = k.
Proof.
  unfold Spec.resize. repeat case_decide.
  - rewrite length_take. lia.
  - rewrite length_app, length_replicate. lia.
  - lia.
Qed.

End PyFacts.

(** ** [DataLoaderConf]: what the monitors do to the store and to [self] *)

Section DataLoaderConfFacts.
Import dataloader_config.

(** Every list object of [o] is still there in [o'], possibly extended at
    its end: no object was shortened or dropped. *)
Definition extends (o o' : list (list IndexConf)) : Prop :=
  forall r l, o !! r = Some l -> exists l', o' !! r = Some l' /\ l `prefix_of` l'.

Lemma extends_refl o : extends o o.
Proof. intros r l Hl. by exists l. Qed.

Lemma extends_trans o1 o2 o3 : extends o1 o2 -> extends o2 o3 -> extends o1 o3.
Proof.
  intros H12 H23 r l Hl.
  destruct (H12 r l Hl) as (l2 & Hl2 & Hp2).
  destruct (H23 r l2 Hl2) as (l3 & Hl3 & Hp3).
  exists l3. split; [done | by etrans].
Qed.

Lemma extends_alloc o l : extends o (o ++ [l]).
Proof.
  intros r x Hx. exists x. split; [| done].
  by apply lookup_app_l_Some.
Qed.

Lemma extends_app o k : extends o (o ++ k).
Proof.
  intros r x Hx. exists x. split; [| done].
  by apply lookup_app_l_Some.
Qed.

Lemma extends_write o r tail :
  extends o (<[r := default [] (o !! r) ++ tail]> o).
Proof.
  intros r' x Hx. destruct (decide (r = r')) as [-> | Hne].
  - rewrite Hx. simpl. exists (x ++ tail). split.
    + apply list_lookup_insert_eq. by eapply lookup_lt_Some.
    + by apply prefix_app_r.
  - exists x. split; [| done]. by rewrite list_lookup_insert_ne.
Qed.

(** The loop over the inner lists never raises, leaves [self] alone, and
    only ever extends list objects. *)
Lemma for_worker_indexes_spec n it m :
  exists o', for_worker_indexes n it m = (Ret tt, mkMem o' (self m))
             /\ extends (objs m) o'.
Proof.
  revert m. induction it as [| r it IH]; intros m.
  - exists (objs m). split; [by destruct m | apply extends_refl].
  - cbn [for_worker_indexes]. unfold_M. unfold read, write, alloc. unfold_M.
    set (cur := default [] (objs m !! r)).
    destruct (len cur >? n).
    + destruct (IH (mkMem (objs m ++ [slice_to n cur]) (self m))) as (o' & -> & Hext).
      exists o'. split; [done |]. cbn in Hext.
      eapply extends_trans; [apply extends_alloc | exact Hext].
    + destruct (len cur <? n).
      * destruct (IH (mkMem (<[r := cur ++ comprehension IndexConf_new (n - len cur)]> (objs m))
                            (self m))) as (o' & -> & Hext).
        exists o'. split; [done |]. cbn in Hext.
        eapply extends_trans; [apply extends_write | exact Hext].
      * destruct (IH m) as (o' & -> & Hext). by exists o'.
Qed.

(** [k] new list objects, at the end of the store. *)
Lemma alloc_each_spec l k m :
  alloc_each l k m =
    (Ret (seq (length (objs m)) k), mkMem (objs m ++ replicate k l) (self m)).
Proof.
  revert m. induction k as [| k IH]; intros m.
  - cbn. unfold_M. rewrite app_nil_r. by destruct m.
  - cbn [alloc_each]. unfold_M. unfold alloc at 1. rewrite IH. cbn.
    rewrite length_app. cbn. rewrite Nat.add_1_r.
    by rewrite <- app_assoc.
Qed.

(** [self] with its three list attributes replaced. *)
Definition with_lists (c : DataLoaderConf) (pl : list StrArg) (pw : list FloatArg)
    (wi : list ref) : DataLoaderConf :=
  mkDataLoaderConf (batch_size c) (num_path c) pl pw (scanner_type c) (seed c)
    (shuffle c) (prefetch_factor c) (ignore_error c) (qps c) (instruct_timeout c)
    (worker_timeout c) (num_workers c) (num_ranks c) (rank_idx c) wi.

Lemma with_lists_id c : with_lists c (path_list c) (path_weight c) (worker_indexes c) = c.
Proof. by destruct c. Qed.

(** [set_path_weight], for a count that is there and not negative: both
    lists resized by the rule of the specification, nothing else touched. *)
Lemma set_path_weight_spec m n :
  int_value (num_path (self m)) = Some n -> 0 <= n ->
  set_path_weight m =
    (Ret tt, mkMem (objs m)
       (with_lists (self m)
          (Spec.resize (Z.to_nat n) StrArg_path (path_list (self m)))
          (Spec.resize (Z.to_nat n) FloatArg_weight (path_weight (self m)))
          (worker_indexes (self m)))).
Proof.
  intros Hnum Hn.
  rewrite <- (resize_branches n StrArg_path) by done.
  rewrite <- (resize_branches n FloatArg_weight) by done.
  unfold set_path_weight, assign_path_list, assign_path_weight. unfold_M.
  rewrite Hnum. cbn.
  destruct m as [o c]; destruct c; cbn.
  repeat (match goal with |- context [if ?b then _ else _] => destruct b end; cbn);
    reflexivity.
Qed.

(** The outer list after [set_worker_indexes]: cut, or extended by
    references to the new list objects. *)
Definition outer_resized (num_path : Z) (m : Mem) : list ref :=
  let wi := worker_indexes (self m) in
  if len wi >? num_path then slice_to num_path wi
  else if len wi <? num_path then
    wi ++ seq (length (objs m)) (Z.to_nat (num_path - len wi))
  else wi.

Lemma set_worker_indexes_spec m np nw :
  int_value (num_path (self m)) = Some np ->
  int_value (num_workers (self m)) = Some nw ->
  exists o',
    set_worker_indexes m =
      (Ret tt, mkMem o' (with_lists (self m) (path_list (self m))
                           (path_weight (self m)) (outer_resized np m)))
    /\ extends (objs m) o'.
Proof.
  intros Hnp Hnw.
  unfold set_worker_indexes, outer_resized, assign_worker_indexes. unfold_M.
  rewrite Hnp, Hnw. cbn.
  destruct (len (worker_indexes (self m)) >? np).
  - cbn. edestruct for_worker_indexes_spec as (o' & -> & Hext).
    exists o'. split; [| exact Hext]. by destruct m as [o c]; destruct c.
  - destruct (len (worker_indexes (self m)) <? np).
    + rewrite alloc_each_spec. cbn.
      edestruct for_worker_indexes_spec as (o' & -> & Hext).
      exists o'. split; [by destruct m as [o c]; destruct c |].
      cbn in Hext. eapply extends_trans; [apply extends_app | exact Hext].
    + cbn. edestruct for_worker_indexes_spec as (o' & -> & Hext).
      exists o'. split; [| exact Hext]. destruct m as [o c]; destruct c; done.
Qed.

(** *** The invariant of the reachable trees *)

(** A field as the class declares it ([IntArg(_, min_value=lo)]), holding
    an admissible value. *)
Definition IntArg_declared (lo : Z) (a : IntArg) : Prop :=
  int_min_value a = Some lo /\ int_max_value a = None /\ int_allow_none a = false
  /\ exists n, int_value a = Some n /\ lo <= n.

Lemma IntArg_set_declared lo name v a a' :
  IntArg_declared lo a -> IntArg_set name v a = Ret a' ->
  IntArg_declared lo a' /\ int_value a' = v.
Proof.
  intros (Hmin & Hmax & Hnone & _). unfold IntArg_set, IntArg_accepts.
  destruct v as [n |].
  - rewrite Hmin, Hmax. unfold in_range_Z.
    destruct (Z.leb_spec lo n); cbn; [| done].
    intros [= <-]. cbn. repeat split; eauto.
  - rewrite Hnone. done.
Qed.

(** [IntArg_set] on a declared field: accepted exactly from the bound up. *)
Lemma IntArg_set_accepts lo name n a :
  IntArg_declared lo a ->
  IntArg_set name (Some n) a =
    if lo <=? n then Ret (mkIntArg (Some n) (Some lo) None false)
    else Raise (ValidationError name).
Proof.
  intros (Hmin & Hmax & Hnone & _). unfold IntArg_set, IntArg_accepts, in_range_Z.
  rewrite Hmin, Hmax, Hnone. by destruct (lo <=? n).
Qed.

Record valid (c : DataLoaderConf) : Prop := mkValid {
  valid_batch_size : IntArg_declared 1 (batch_size c);
  valid_num_path : IntArg_declared 1 (num_path c);
  valid_prefetch_factor : IntArg_declared 0 (prefetch_factor c);
  valid_num_workers : IntArg_declared 1 (num_workers c);
  valid_num_ranks : IntArg_declared 1 (num_ranks c);
  valid_rank_idx : IntArg_declared 0 (rank_idx c);
  valid_scanner_type :
    scanner_type c = mkOptionArg (Some "C4Scanner") (options ["C4Scanner"]);
  valid_path_list : Forall (fun p => is_Some (str_value p)) (path_list c) }.

Lemma valid_new : valid (self DataLoaderConf_new).
Proof.
  split; cbn; try done;
    try (repeat split; try done; eexists; split; [reflexivity | lia]).
  repeat constructor. by eexists.
Qed.

Lemma valid_with_lists c pl pw wi :
  valid c -> Forall (fun p => is_Some (str_value p)) pl -> valid (with_lists c pl pw wi).
Proof. intros [] Hpl. by split. Qed.

Lemma Forall_resize {A} (P : A -> Prop) k d (l : list A) :
  P d -> Forall P l -> Forall P (Spec.resize k d l).
Proof.
  intros Hd Hl. unfold Spec.resize. repeat case_decide; [| | done].
  - by apply Forall_take.
  - apply Forall_app. split; [done |]. by apply Forall_replicate.
Qed.

Lemma OptionArg_set_C4 name v a :
  OptionArg_set (fun _ => []) name v
    (mkOptionArg (Some "C4Scanner") (options ["C4Scanner"])) = Ret a ->
  a = mkOptionArg (Some "C4Scanner") (options ["C4Scanner"]).
Proof.
  unfold OptionArg_set, OptionArg_accepts, option_set. cbn.
  destruct v as [s |]; [| done]. case_bool_decide as Hin; [| done].
  apply list_elem_of_singleton in Hin as ->. by intros [= <-].
Qed.

Lemma store_field_valid e m :
  valid (self m) -> valid (self (snd (store_field e m))).
Proof.
  intros Hv. pose proof Hv as [Hbs Hnp Hpf Hnw Hnr Hri Hsc Hpl].
  destruct m as [o c]. destruct c. cbn in *.
  destruct e; cbn;
    repeat match goal with
    | |- context [stored _ ?x _] => destruct x eqn:?; cbn
    | |- context [match ?x !! ?i with _ => _ end] => destruct (x !! i) eqn:?; cbn
    end; try exact Hv.
  all: try (split; cbn; try done;
            match goal with
            | H : IntArg_set _ _ _ = Ret _ |- _ =>
                eapply IntArg_set_declared in H; [apply H | done]
            end).
  - (* path_list[i] *)
    split; cbn; try done.
    unfold StrArg_set in *. destruct v; [| done].
    match goal with H : Ret _ = Ret _ |- _ => injection H as <- end.
    apply Forall_insert; [done | by eexists].
  - (* scanner_type *)
    split; cbn; try done. subst. by eapply OptionArg_set_C4.
Qed.

Lemma monitors_valid e m :
  valid (self m) ->
  exists o' c', monitors e m = (Ret tt, mkMem o' c') /\ valid c' /\ extends (objs m) o'.
Proof.
  intros Hv.
  assert (Hsame : exists o' c', (Ret tt, m) = (Ret tt, mkMem o' c') /\ valid c'
                                /\ extends (objs m) o').
  { exists (objs m), (self m). split; [by destruct m |]. split; [done | apply extends_refl]. }
  destruct (valid_num_path _ Hv) as (_ & _ & _ & n & Hn & Hle).
  destruct (valid_num_workers _ Hv) as (_ & _ & _ & nw & Hnw & _).
  destruct e; try exact Hsame; cbn [monitors].
  - rewrite (set_path_weight_spec m n) by (done || lia).
    eexists _, _. split; [reflexivity |]. split; [| apply extends_refl].
    apply valid_with_lists; [done |].
    apply Forall_resize; [by eexists | by apply valid_path_list].
  - destruct (set_worker_indexes_spec m n nw) as (o' & -> & Hext); [done | done |].
    eexists _, _. split; [reflexivity |]. split; [| exact Hext].
    apply valid_with_lists; [done | by apply valid_path_list].
Qed.

Lemma apply_edit_valid e m :
  valid (self m) -> valid (self (snd (apply_edit e m))).
Proof.
  intros Hv. unfold apply_edit, mbind, M_bind, Py.bind.
  pose proof (store_field_valid e m Hv) as Hv1.
  destruct (store_field e m) as [[[] | err] m1]; cbn in *; [| done].
  destruct (monitors_valid e m1 Hv1) as (o' & c' & -> & Hv' & _). done.
Qed.

Lemma reachable_valid m : reachable m -> valid (self m).
Proof.
  induction 1 as [| m e _ IH]; [apply valid_new | by apply apply_edit_valid].
Qed.

(** *** Editing [num_path] *)

(** The tree after an accepted [num_path = n]: the count stored, the two
    path lists resized by [set_path_weight], [worker_indexes] as it was. *)
Definition after_num_path (n : Z) (m : Mem) : DataLoaderConf :=
  let c := self m in
  mkDataLoaderConf (batch_size c) (mkIntArg (Some n) (Some 1) None false)
    (Spec.resize (Z.to_nat n) StrArg_path (path_list c))
    (Spec.resize (Z.to_nat n) FloatArg_weight (path_weight c))
    (scanner_type c) (seed c) (shuffle c) (prefetch_factor c) (ignore_error c)
    (qps c) (instruct_timeout c) (worker_timeout c) (num_workers c) (num_ranks c)
    (rank_idx c) (worker_indexes c).

Lemma store_field_num_path m n :
  valid (self m) ->
  store_field (edit_num_path (Some n)) m =
    if 1 <=? n then
      (Ret tt, mkMem (objs m)
         (let c := self m in
          mkDataLoaderConf (batch_size c) (mkIntArg (Some n) (Some 1) None false)
            (path_list c) (path_weight c) (scanner_type c) (seed c) (shuffle c)
            (prefetch_factor c) (ignore_error c) (qps c) (instruct_timeout c)
            (worker_timeout c) (num_workers c) (num_ranks c) (rank_idx c)
            (worker_indexes c)))
    else (Raise (ValidationError "num_path"), m).
Proof.
  intros Hv. pose proof (valid_num_path _ Hv) as Hnp.
  destruct m as [o c]; destruct c; cbn in *.
  rewrite (IntArg_set_accepts 1) by done. by destruct (1 <=? n).
Qed.

Lemma apply_edit_num_path_accepted m n :
  valid (self m) -> 1 <= n ->
  exists o', apply_edit (edit_num_path (Some n)) m = (Ret tt, mkMem o' (after_num_path n m))
             /\ extends (objs m) o'.
Proof.
  intros Hv Hn.
  unfold apply_edit. rewrite run_bind, store_field_num_path by done.
  destruct (Z.leb_spec 1 n); [| lia]. cbn [monitors].
  rewrite (set_path_weight_spec _ n) by (reflexivity || lia).
  exists (objs m). split; [reflexivity | apply extends_refl].
Qed.

Lemma apply_edit_num_path_rejected m n :
  valid (self m) -> n < 1 ->
  apply_edit (edit_num_path (Some n)) m = (Raise (ValidationError "num_path"), m).
Proof.
  intros Hv Hn.
  unfold apply_edit. rewrite run_bind, store_field_num_path by done.
  destruct (Z.leb_spec 1 n); [lia | done].
Qed.

(** *** The inner lists are never shortened *)

Lemma worker_indexes_value_lookup m i l :
  worker_indexes_value m !! i = Some l <->
  exists r, worker_indexes (self m) !! i = Some r /\ l = default [] (objs m !! r).
Proof.
  unfold worker_indexes_value. rewrite list_lookup_fmap.
  destruct (worker_indexes (self m) !! i) as [r |]; cbn.
  - split; [intros [= <-]; by exists r | intros (r' & [= <-] & ->); done].
  - split; [done | intros (r' & [=] & _)].
Qed.

Lemma outer_resized_lookup np m i r r' :
  worker_indexes (self m) !! i = Some r -> outer_resized np m !! i = Some r' -> r' = r.
Proof.
  intros Hr. unfold outer_resized, slice_to.
  repeat match goal with |- context [if ?b then _ else _] => destruct b end.
  - intros [H _]%lookup_take_Some. congruence.
  - intros [H _]%lookup_take_Some. congruence.
  - rewrite (lookup_app_l_Some _ _ _ _ Hr). congruence.
  - congruence.
Qed.

Lemma extends_default o o' r : extends o o' -> default [] (o !! r) `prefix_of` default [] (o' !! r).
Proof.
  intros Hext. destruct (o !! r) as [l |] eqn:Hl; cbn; [| apply prefix_nil].
  destruct (Hext r l Hl) as (l' & -> & Hp). done.
Qed.

Lemma set_worker_indexes_never_truncates m i l l' :
  worker_indexes_value m !! i = Some l ->
  worker_indexes_value (snd (set_worker_indexes m)) !! i = Some l' ->
  l `prefix_of` l'.
Proof.
  destruct (int_value (num_path (self m))) as [np |] eqn:Hnp;
    [destruct (int_value (num_workers (self m))) as [nw |] eqn:Hnw |].
  - destruct (set_worker_indexes_spec m np nw Hnp Hnw) as (o' & -> & Hext).
    cbn [snd]. rewrite !worker_indexes_value_lookup. cbn [self objs with_lists worker_indexes].
    intros (r & Hr & ->) (r' & Hr' & ->).
    rewrite (outer_resized_lookup _ _ _ _ _ Hr Hr'). by apply extends_default.
  - unfold set_worker_indexes. unfold_M. rewrite Hnp, Hnw. cbn.
    intros H1 H2. rewrite H1 in H2. by injection H2 as ->.
  - unfold set_worker_indexes. unfold_M. rewrite Hnp. cbn.
    intros H1 H2. rewrite H1 in H2. by injection H2 as ->.
Qed.

Lemma store_field_num_workers_keeps_lists v m :
  worker_indexes_value (snd (store_field (edit_num_workers v) m)) = worker_indexes_value m.
Proof.
  destruct m as [o c]; destruct c; cbn.
  by destruct (IntArg_set "num_workers" v _).
Qed.

(** Whatever value [num_workers] is edited to, an inner list of
    [worker_indexes] is afterwards what it was, or longer. *)
Lemma edit_num_workers_never_truncates v m i l l' :
  worker_indexes_value m !! i = Some l ->
  worker_indexes_value (snd (apply_edit (edit_num_workers v) m)) !! i = Some l' ->
  l `prefix_of` l'.
Proof.
  unfold apply_edit. rewrite run_bind.
  pose proof (store_field_num_workers_keeps_lists v m) as Hsame.
  destruct (store_field (edit_num_workers v) m) as [[[] | err] m1]; cbn [snd monitors] in *.
  - rewrite <- Hsame. apply set_worker_indexes_never_truncates.
  - rewrite <- Hsame. intros H1 H2. rewrite H1 in H2. by injection H2 as ->.
Qed.

End DataLoaderConfFacts.

(** ** [DataLoaderConf]: the claims *)

Section DataLoaderConfClaims.
Import dataloader_config.

(** C1 (the code departs from the claim).  On a fresh tree, [num_path = 3]
    and then [num_workers = 2] give three inner lists of two default
    [IndexConf] each.  Lowering [num_workers] to 1 afterwards is accepted,
    and the three inner lists still have two elements: in the loop of
    [set_worker_indexes], the slice is assigned to the loop variable, and
    the list inside [worker_indexes] is not shortened. *)
Theorem C1_inner_lists_not_truncated :
  worker_indexes_value
    (apply_edits [edit_num_path (Some 3); edit_num_workers (Some 2)] DataLoaderConf_new)
  = replicate 3 (replicate 2 IndexConf_new)
  /\ fst (apply_edit (edit_num_workers (Some 1))
          (apply_edits [edit_num_path (Some 3); edit_num_workers (Some 2)]
             DataLoaderConf_new)) = Ret tt
  /\ worker_indexes_value
       (apply_edits [edit_num_path (Some 3); edit_num_workers (Some 2);
                     edit_num_workers (Some 1)] DataLoaderConf_new)
     = replicate 3 (replicate 2 IndexConf_new).
Proof. vm_compute. repeat split. Qed.

(** C3, as stated, fails at [n = 0]: [num_path] is declared with
    [min_value=1], so the edit is rejected and the tree keeps its one path
    and one weight. *)
Lemma C3_num_path_zero_is_rejected :
  apply_edit (edit_num_path (Some 0)) DataLoaderConf_new
  = (Raise (ValidationError "num_path"), DataLoaderConf_new).
Proof. reflexivity. Qed.

(** C3, amended.  On every reachable tree, setting [num_path] to an
    integer [n >= 1] succeeds, and afterwards [path_list] and [path_weight]
    both have length [n]; an integer below 1 is rejected and the tree is
    left as it was. *)
Theorem C3_num_path_governs_both_lists (m : Mem) (n : Z) :
  reachable m ->
  (1 <= n ->
   exists m', apply_edit (edit_num_path (Some n)) m = (Ret tt, m')
              /\ int_value (num_path (self m')) = Some n
              /\ len (path_list (self m')) = n
              /\ len (path_weight (self m')) = n)
  /\ (n < 1 ->
      apply_edit (edit_num_path (Some n)) m = (Raise (ValidationError "num_path"), m)).
Proof.
  intros Hv%reachable_valid. split; intros Hn.
  - destruct (apply_edit_num_path_accepted m n Hv Hn) as (o' & -> & _).
    eexists. split; [reflexivity |]. cbn. unfold len.
    rewrite !length_resize. repeat split; lia.
  - by apply apply_edit_num_path_rejected.
Qed.

Lemma C3_num_path_three_on_a_fresh_tree :
  exists m', apply_edit (edit_num_path (Some 3)) DataLoaderConf_new = (Ret tt, m')
             /\ int_value (num_path (self m')) = Some 3
             /\ len (path_list (self m')) = 3
             /\ len (path_weight (self m')) = 3.
Proof.
  apply (proj1 (C3_num_path_governs_both_lists DataLoaderConf_new 3 reachable_new)).
  lia.
Defined.

(** C4.  When an edit of [num_path] to [n] is accepted on a reachable
    tree: a list longer than [n] becomes its first [n] elements; a list
    shorter than [n] keeps its elements where they were and gets
    [n - m] further elements, each the default of its type (the prompt
    string for [path_list], the weight 1.0 within [0.0, 1.0] for
    [path_weight]). *)
Theorem C4_resize_keeps_prefix_and_appends_defaults (m m' : Mem) (n : Z) :
  reachable m ->
  apply_edit (edit_num_path (Some n)) m = (Ret tt, m') ->
  (n < len (path_list (self m)) ->
     path_list (self m') = take (Z.to_nat n) (path_list (self m)))
  /\ (len (path_list (self m)) < n ->
     path_list (self m') =
       path_list (self m) ++
       replicate (Z.to_nat (n - len (path_list (self m))))
         (mkStrArg (Some "Enther the path to the data file.")))
  /\ (n < len (path_weight (self m)) ->
     path_weight (self m') = take (Z.to_nat n) (path_weight (self m)))
  /\ (len (path_weight (self m)) < n ->
     path_weight (self m') =
       path_weight (self m) ++
       replicate (Z.to_nat (n - len (path_weight (self m))))
         (mkFloatArg (Some 1.0%float) (Some 0.0%float) (Some 1.0%float) false)).
Proof.
  intros Hv%reachable_valid Hrun.
  destruct (Z.lt_ge_cases n 1) as [Hlt | Hge].
  { rewrite apply_edit_num_path_rejected in Hrun by done. done. }
  destruct (apply_edit_num_path_accepted m n Hv Hge) as (o' & Hacc & _).
  rewrite Hacc in Hrun. injection Hrun as <-. cbn [self after_num_path path_list path_weight].
  unfold Spec.resize, len.
  repeat split; intros Hcmp; repeat case_decide; try lia; try done.
  all: do 2 f_equal; lia.
Qed.

Lemma C4_growing_a_fresh_tree_to_three :
  path_list (self (snd (apply_edit (edit_num_path (Some 3)) DataLoaderConf_new)))
  = [StrArg_path] ++ replicate 2 StrArg_path
  /\ path_weight (self (snd (apply_edit (edit_num_path (Some 3)) DataLoaderConf_new)))
    = [FloatArg_weight] ++ replicate 2 FloatArg_weight.
Proof.
  pose proof (C4_resize_keeps_prefix_and_appends_defaults DataLoaderConf_new
                (snd (apply_edit (edit_num_path (Some 3)) DataLoaderConf_new)) 3
                reachable_new eq_refl) as (_ & Hl & _ & Hw).
  split; [apply Hl | apply Hw]; vm_compute; reflexivity.
Defined.

(** C8, as stated, fails: on a fresh tree ([num_ranks = 1]) the edit
    [rank_idx = 1] is accepted, and the tree reached has
    [rank_idx >= num_ranks].  The two fields are validated each on its
    own. *)
Lemma C8_rank_idx_can_reach_num_ranks :
  apply_edit (edit_rank_idx (Some 1)) DataLoaderConf_new
  = (Ret tt, snd (apply_edit (edit_rank_idx (Some 1)) DataLoaderConf_new))
  /\ reachable (snd (apply_edit (edit_rank_idx (Some 1)) DataLoaderConf_new))
  /\ int_value (rank_idx (self (snd (apply_edit (edit_rank_idx (Some 1))
                                       DataLoaderConf_new)))) = Some 1
  /\ int_value (num_ranks (self (snd (apply_edit (edit_rank_idx (Some 1))
                                        DataLoaderConf_new)))) = Some 1.
Proof.
  split; [reflexivity |]. split; [apply reachable_edit, reachable_new |].
  split; reflexivity.
Qed.

(** C8, amended.  In every tree reachable by field edits, [num_workers],
    [num_ranks] and [rank_idx] hold integers, with [num_workers >= 1],
    [num_ranks >= 1] and [rank_idx >= 0]. *)
Theorem C8_worker_and_rank_fields_bounded (m : Mem) :
  reachable m ->
  exists nw nr ri : Z,
    int_value (num_workers (self m)) = Some nw
    /\ int_value (num_ranks (self m)) = Some nr
    /\ int_value (rank_idx (self m)) = Some ri
    /\ 1 <= nw /\ 1 <= nr /\ 0 <= ri.
Proof.
  intros Hv%reachable_valid.
  destruct (valid_num_workers _ Hv) as (_ & _ & _ & nw & Hnw & ?).
  destruct (valid_num_ranks _ Hv) as (_ & _ & _ & nr & Hnr & ?).
  destruct (valid_rank_idx _ Hv) as (_ & _ & _ & ri & Hri & ?).
  by exists nw, nr, ri.
Qed.

Lemma C8_bounds_after_two_edits :
  exists nw nr ri : Z,
    int_value (num_workers (self (apply_edits
      [edit_num_ranks (Some 4); edit_rank_idx (Some 2)] DataLoaderConf_new))) = Some nw
    /\ int_value (num_ranks (self (apply_edits
      [edit_num_ranks (Some 4); edit_rank_idx (Some 2)] DataLoaderConf_new))) = Some nr
    /\ int_value (rank_idx (self (apply_edits
      [edit_num_ranks (Some 4); edit_rank_idx (Some 2)] DataLoaderConf_new))) = Some ri
    /\ 1 <= nw /\ 1 <= nr /\ 0 <= ri.
Proof.
  apply (C8_worker_and_rank_fields_bounded
           (apply_edits [edit_num_ranks (Some 4); edit_rank_idx (Some 2)] DataLoaderConf_new)).
  apply (reachable_edit _ (edit_rank_idx (Some 2))).
  apply (reachable_edit _ (edit_num_ranks (Some 4))).
  apply reachable_new.
Defined.

(** C9.  On every reachable tree, with the scanner class registered,
    [init_dataloader] returns a [DataLoader] built with the values of the
    fields, each as it is: [batch_size], the paths, the weights (as
    [distributor_weights]), [seed], [shuffle], [prefetch_factor],
    [ignore_error], [qps], [instruct_timeout], [worker_timeout],
    [num_workers], [num_ranks], [rank_idx], and the three hooks; every
    entry of every inner list of [worker_indexes] is passed, in place, as
    the [Index] of the values of its own [epoch], [part] and [row], in
    that order; the tree is not changed.  On a fresh tree whose one path
    is set to a.jsonl, the loader has batch size 128, that path, weight
    1.0, the index (0, 0, 0) and the declared defaults elsewhere; with the
    entry edited to epoch 2, part 5 and row 7, the index passed is
    (2, 5, 7). *)
Theorem C9_init_dataloader_forwards_the_fields :
  (forall (registered : list string) (m : Mem) (f g h : option lmfuser_data.callable),
     reachable m -> "C4Scanner" ∈ registered ->
     exists dl,
       init_dataloader registered f g h m = (Ret dl, m)
       /\ Some (lmfuser_data.batch_size dl) = int_value (batch_size (self m))
       /\ lmfuser_data.path_list dl = map str_value (path_list (self m))
       /\ lmfuser_data.distributor_weights dl = map float_value (path_weight (self m))
       /\ lmfuser_data.seed dl = int_value (seed (self m))
       /\ lmfuser_data.shuffle dl = bool_value (shuffle (self m))
       /\ lmfuser_data.pre_fetch_factor dl = int_value (prefetch_factor (self m))
       /\ lmfuser_data.ignore_error dl = bool_value (ignore_error (self m))
       /\ lmfuser_data.qps dl = float_value (qps (self m))
       /\ lmfuser_data.instruct_timeout dl = float_value (instruct_timeout (self m))
       /\ lmfuser_data.worker_timeout dl = float_value (worker_timeout (self m))
       /\ lmfuser_data.num_workers dl = int_value (num_workers (self m))
       /\ lmfuser_data.num_ranks dl = int_value (num_ranks (self m))
       /\ lmfuser_data.rank_idx dl = int_value (rank_idx (self m))
       /\ lmfuser_data.indexes dl =
            lmfuser_data.given
              (map (map (fun ic => lmfuser_data.mkIndex (int_value (epoch ic))
                                     (int_value (part ic)) (int_value (row ic))))
                 (worker_indexes_value m))
       /\ lmfuser_data.infinite dl = lmfuser_data.given false
       /\ lmfuser_data.restart_cnt dl = lmfuser_data.given None
       /\ lmfuser_data.map_fn dl = f
       /\ lmfuser_data.flow_fn dl = g
       /\ lmfuser_data.batch_map_fn dl = h)
  /\ fst (init_dataloader ["C4Scanner"] None None None
            (snd (apply_edit (edit_path_list 0 (Some "a.jsonl")) DataLoaderConf_new)))
     = Ret (lmfuser_data.mkDataLoader
              128
              [Some "a.jsonl"]
              (lmfuser_data.scanner_class "C4Scanner")
              (Some 42)
              (Some true)
              (Some 2)
              (lmfuser_data.given [[lmfuser_data.mkIndex (Some 0) (Some 0) (Some 0)]])
              (lmfuser_data.given false)
              None
              None
              (Some true)
              None
              None
              None
              (lmfuser_data.given None)
              (Some 1)
              (Some 1)
              (Some 0)
              None
              [Some 1.0%float])
  /\ fst (init_dataloader ["C4Scanner"] None None None
            (apply_edits [edit_path_list 0 (Some "a.jsonl");
                          edit_worker_index 0 0 at_epoch (Some 2);
                          edit_worker_index 0 0 at_part (Some 5);
                          edit_worker_index 0 0 at_row (Some 7)] DataLoaderConf_new))
     = Ret (lmfuser_data.mkDataLoader
              128
              [Some "a.jsonl"]
              (lmfuser_data.scanner_class "C4Scanner")
              (Some 42)
              (Some true)
              (Some 2)
              (lmfuser_data.given [[lmfuser_data.mkIndex (Some 2) (Some 5) (Some 7)]])
              (lmfuser_data.given false)
              None
              None
              (Some true)
              None
              None
              None
              (lmfuser_data.given None)
              (Some 1)
              (Some 1)
              (Some 0)
              None
              [Some 1.0%float]).
Proof.
  split; [| split; reflexivity].
  intros registered m f g h Hv%reachable_valid Hreg.
  destruct (valid_batch_size _ Hv) as (_ & _ & _ & bs & Hbs & _).
  pose proof (valid_scanner_type _ Hv) as Hsc.
  pose proof (valid_path_list _ Hv) as Hpl.
  unfold init_dataloader. unfold_M. rewrite Hbs, Hsc. cbn.
  unfold lmfuser_data.get_subclass. rewrite bool_decide_true by done.
  eexists. split; [reflexivity |]. cbn. repeat split.
  induction Hpl as [| p pl [x Hx] _ IH]; [done |]. cbn. by rewrite Hx, IH.
Qed.

Lemma C9_an_edited_index_is_forwarded :
  exists dl,
    init_dataloader ["C4Scanner"] None None None
      (apply_edits [edit_worker_index 0 0 at_epoch (Some 2);
                    edit_worker_index 0 0 at_part (Some 5);
                    edit_worker_index 0 0 at_row (Some 7)] DataLoaderConf_new)
    = (Ret dl,
       apply_edits [edit_worker_index 0 0 at_epoch (Some 2);
                    edit_worker_index 0 0 at_part (Some 5);
                    edit_worker_index 0 0 at_row (Some 7)] DataLoaderConf_new)
    /\ Some (lmfuser_data.batch_size dl) = Some 128
    /\ lmfuser_data.distributor_weights dl = [Some 1.0%float]
    /\ lmfuser_data.qps dl = None
    /\ lmfuser_data.instruct_timeout dl = None
    /\ lmfuser_data.worker_timeout dl = None
    /\ lmfuser_data.indexes dl
       = lmfuser_data.given [[lmfuser_data.mkIndex (Some 2) (Some 5) (Some 7)]].
Proof.
  destruct (proj1 C9_init_dataloader_forwards_the_fields ["C4Scanner"]
              (apply_edits [edit_worker_index 0 0 at_epoch (Some 2);
                            edit_worker_index 0 0 at_part (Some 5);
                            edit_worker_index 0 0 at_row (Some 7)] DataLoaderConf_new)
              None None None)
    as (dl & Hrun & Hbs & _ & Hw & _ & _ & _ & _ & Hq & Hi & Hwt & _ & _ & _ & Hidx & _).
  { apply (reachable_edit _ (edit_worker_index 0 0 at_row (Some 7))).
    apply (reachable_edit _ (edit_worker_index 0 0 at_part (Some 5))).
    apply (reachable_edit _ (edit_worker_index 0 0 at_epoch (Some 2))).
    apply reachable_new. }
  { by apply list_elem_of_singleton. }
  exists dl. by repeat split.
Defined.

End DataLoaderConfClaims.

(** ** [TaskBase], [TaskSelector], [Tasks]: facts *)

Section TaskFacts.
Import task.

Lemma length_slice_to_same {A B} n (l1 : list A) (l2 : list B) :
  length l1 = length l2 -> length (slice_to n l1) = length (slice_to n l2).
Proof.
  intros Hlen. unfold slice_to, len. rewrite Hlen.
  destruct (0 <=? n); rewrite !length_take; lia.
Qed.

(** The two train lists have one length, and so have the two eval lists. *)
Definition paired (t : TaskBase) : Prop :=
  length (train_data_path_list t) = length (train_data_weights t)
  /\ length (eval_data_path_list t) = length (eval_data_weights t).

Lemma set_train_path_list_paired t : paired t -> paired (snd (set_train_path_list t)).
Proof.
  intros [Htrain Heval]. unfold set_train_path_list, assert_isinstance_int.
  unfold assign_train_data_path_list, assign_train_data_weights. unfold_M.
  destruct (int_value (num_train_data_path t)) as [num |]; cbn; [| done].
  destruct (len (train_data_path_list t) >? num); cbn.
  { split; [by apply length_slice_to_same | done]. }
  destruct (len (train_data_path_list t) <? num); cbn; [| done].
  split; [cbn | done].
  rewrite !length_app, !length_list_mul. unfold len. rewrite Htrain. done.
Qed.

Lemma set_eval_path_list_paired t : paired t -> paired (snd (set_eval_path_list t)).
Proof.
  intros [Htrain Heval]. unfold set_eval_path_list, assert_isinstance_int.
  unfold assign_eval_data_path_list, assign_eval_data_weights. unfold_M.
  destruct (int_value (num_eval_data_path t)) as [num |]; cbn; [| done].
  destruct (len (eval_data_path_list t) >? num); cbn.
  { split; [done | by apply length_slice_to_same]. }
  destruct (len (eval_data_path_list t) <? num); cbn; [| done].
  split; [done | cbn].
  rewrite !length_app, !length_list_mul. unfold len. rewrite Htrain, Heval. done.
Qed.

Lemma store_field_paired reg e t : paired t -> paired (snd (store_field reg e t)).
Proof.
  intros [Htrain Heval]. destruct t. cbn in *.
  destruct e; cbn;
    repeat match goal with
    | |- context [stored _ ?x _] => destruct x eqn:?; cbn
    | |- context [match ?x !! ?i with _ => _ end] => destruct (x !! i) eqn:?; cbn
    end;
    split; cbn; rewrite ?length_insert; done.
Qed.

Lemma apply_edit_paired reg e t : paired t -> paired (snd (apply_edit reg e t)).
Proof.
  intros Hp. unfold apply_edit. rewrite run_bind.
  pose proof (store_field_paired reg e t Hp) as Hp1.
  destruct (store_field reg e t) as [[[] | err] t1]; cbn [snd] in *; [| done].
  destruct e; cbn [monitors]; try done.
  - by apply set_train_path_list_paired.
  - by apply set_eval_path_list_paired.
Qed.

(** In every instance an editor can reach, the two lists governed by
    [num_train_data_path] have one length, and so have the two governed by
    [num_eval_data_path]. *)
Lemma reachable_paired reg t : reachable reg t -> paired t.
Proof.
  induction 1 as [cls | t e _ IH]; [by split | by apply apply_edit_paired].
Qed.

(** A name is among [task_list()] exactly when the map has it. *)
Lemma elem_of_all_subclass_names reg name :
  name ∈ all_subclass_names reg <-> is_Some (all_subclass_map reg !! name).
Proof. unfold all_subclass_names. by rewrite elem_of_elements, elem_of_dom. Qed.

(** [change_conf] when the stored name is the class of the child: nothing
    is assigned. *)
Lemma change_conf_same_class reg s :
  opt_value (task_name s) = Some (class_name (conf s)) ->
  change_conf reg s = (Ret tt, s).
Proof.
  intros Hname. unfold change_conf. unfold_M. rewrite Hname.
  by rewrite bool_decide_false by (intros Hne; by apply Hne).
Qed.

(** [change_conf] when the stored name is not in the map and is not the
    class of the child: the subscript raises before [conf] is assigned. *)
Lemma change_conf_unregistered reg s name :
  opt_value (task_name s) = Some name ->
  name <> class_name (conf s) ->
  all_subclass_map reg !! name = None ->
  change_conf reg s = (Raise (KeyError name), s).
Proof.
  intros Hname Hne Hnone. unfold change_conf, construct. unfold_M.
  rewrite Hname, bool_decide_true by done. by rewrite Hnone.
Qed.

(** *** The loader getters *)

(** What the claim says of one getter [get], keyed on the count field
    [count] and caching in the slot [slot]: [None] is returned exactly when
    the count is 0; otherwise, from an empty slot, the first call builds
    the loader from its own arguments and the lists [paths] and [weights],
    stores it, and any later call, whatever its arguments, returns that
    loader and changes nothing; a loader already in the slot is returned
    as it is. *)
Definition built_once_then_cached
    (get : loader_args -> M TaskBase (option lmfuser_data.DataLoader))
    (count : TaskBase -> IntArg)
    (slot : TaskBase -> option lmfuser_data.DataLoader)
    (paths : TaskBase -> list StrArg) (weights : TaskBase -> list FloatArg)
    (scanner : string) (t : TaskBase) : Prop :=
  (forall a, fst (get a t) = Ret None <-> int_value (count t) = Some 0)
  /\ (int_value (count t) <> Some 0 -> slot t = None ->
      forall a1,
        get a1 t =
          (Ret (Some (new_DataLoader t a1 (map str_value (paths t))
                        (map float_value (weights t))
                        (lmfuser_data.scanner_class scanner))),
           snd (get a1 t))
        /\ slot (snd (get a1 t)) =
             Some (new_DataLoader t a1 (map str_value (paths t))
                     (map float_value (weights t))
                     (lmfuser_data.scanner_class scanner))
        /\ forall a2,
             get a2 (snd (get a1 t)) =
               (Ret (Some (new_DataLoader t a1 (map str_value (paths t))
                             (map float_value (weights t))
                             (lmfuser_data.scanner_class scanner))),
                snd (get a1 t)))
  /\ (int_value (count t) <> Some 0 ->
      forall dl, slot t = Some dl -> forall a, get a t = (Ret (Some dl), t)).

Lemma _get_train_dataloader_cached reg t scanner :
  opt_value (scanner_type t) = Some scanner ->
  scanner ∈ scanner_names reg ->
  built_once_then_cached (_get_train_dataloader reg) num_train_data_path
    _train_dataloader train_data_path_list train_data_weights scanner t.
Proof.
  intros Hsc Hreg. unfold built_once_then_cached, _get_train_dataloader.
  unfold assign__train_dataloader, lmfuser_data.get_subclass. unfold_M.
  cbn beta. split; [| split].
  - intros a. case_bool_decide as H0; cbn; [done |].
    destruct (_train_dataloader t); cbn; [split; intros; congruence |].
    rewrite Hsc. cbn. rewrite (bool_decide_true _ Hreg). cbn.
    split; intros; congruence.
  - intros Hne Hslot a1. rewrite (bool_decide_false _ Hne), Hslot, Hsc. cbn.
    rewrite (bool_decide_true _ Hreg). cbn.
    split; [done |]. split; [done |].
    intros a2. by rewrite (bool_decide_false _ Hne).
  - intros Hne dl Hslot a. by rewrite (bool_decide_false _ Hne), Hslot.
Qed.

Lemma _get_eval_dataloader_cached reg t scanner :
  opt_value (scanner_type t) = Some scanner ->
  scanner ∈ scanner_names reg ->
  built_once_then_cached (_get_eval_dataloader reg) num_eval_data_path
    _eval_dataloader eval_data_path_list eval_data_weights scanner t.
Proof.
  intros Hsc Hreg. unfold built_once_then_cached, _get_eval_dataloader.
  unfold assign__eval_dataloader, lmfuser_data.get_subclass. unfold_M.
  cbn beta. split; [| split].
  - intros a. case_bool_decide as H0; cbn; [done |].
    destruct (_eval_dataloader t); cbn; [split; intros; congruence |].
    rewrite Hsc. cbn. rewrite (bool_decide_true _ Hreg). cbn.
    split; intros; congruence.
  - intros Hne Hslot a1. rewrite (bool_decide_false _ Hne), Hslot, Hsc. cbn.
    rewrite (bool_decide_true _ Hreg). cbn.
    split; [done |]. split; [done |].
    intros a2. by rewrite (bool_decide_false _ Hne).
  - intros Hne dl Hslot a. by rewrite (bool_decide_false _ Hne), Hslot.
Qed.

End TaskFacts.

(** ** [TaskBase], [TaskSelector], [Tasks]: the claims *)

Section TaskClaims.
Import lmfuser_data task.

(** C2 (the code departs from the claim).  On a fresh [Tasks], the edit
    [num_tasks = 2] is stored and [change_task_list] extends [tasks] to two
    selectors; it then reads [self.task_weight], an attribute the class
    does not declare (the field is [task_weights]), and raises.
    [task_weights] is left with one element beside two [tasks]. *)
Theorem C2_tasks_and_task_weights_differ :
  fst (set_num_tasks (Some 2) Tasks_new) = Raise (AttributeError "task_weight")
  /\ int_value (num_tasks (snd (set_num_tasks (Some 2) Tasks_new))) = Some 2
  /\ length (tasks (snd (set_num_tasks (Some 2) Tasks_new))) = 2%nat
  /\ length (task_weights (snd (set_num_tasks (Some 2) Tasks_new))) = 1%nat.
Proof. vm_compute. repeat split. Qed.

(** C5.  When the class of the current child already has the name that
    [task_name] is set to, the child is afterwards the very instance it
    was, with every field value it had; and when that name is registered,
    the edit succeeds and changes nothing but the stored name. *)
Theorem C5_selecting_the_active_class_keeps_the_child
    (reg : Registry) (s : TaskSelector) (name : string) :
  class_name (conf s) = name ->
  conf (snd (set_task_name reg (Some name) s)) = conf s
  /\ (name ∈ option_set (option_names reg) (task_name s) ->
      set_task_name reg (Some name) s
      = (Ret tt, mkTaskSelector (mkOptionArg (Some name) (opt_source (task_name s)))
                   (conf s))).
Proof.
  intros Hcls. unfold set_task_name. rewrite run_bind.
  unfold store_task_name, OptionArg_set, OptionArg_accepts.
  case_bool_decide as Hin.
  - rewrite change_conf_same_class by (cbn; by rewrite Hcls). done.
  - done.
Qed.

Lemma C5_reselecting_Task_keeps_an_edited_child :
  conf (snd (set_task_name (mkRegistry ["C4Scanner"] {["Task" := Task_new]}) (Some "Task")
          (mkTaskSelector (task_name TaskSelector_new)
             (snd (apply_edit (mkRegistry ["C4Scanner"] {["Task" := Task_new]})
                     (edit_num_train_data_path (Some 3)) Task_new)))))
  = snd (apply_edit (mkRegistry ["C4Scanner"] {["Task" := Task_new]})
           (edit_num_train_data_path (Some 3)) Task_new).
Proof.
  apply (C5_selecting_the_active_class_keeps_the_child
           (mkRegistry ["C4Scanner"] {["Task" := Task_new]})
           (mkTaskSelector (task_name TaskSelector_new)
              (snd (apply_edit (mkRegistry ["C4Scanner"] {["Task" := Task_new]})
                      (edit_num_train_data_path (Some 3)) Task_new)))
           "Task").
  reflexivity.
Defined.

(** C6.  For a selector whose [task_name] takes its options from
    [task_list], setting [task_name] to a name that the map of task
    classes does not have raises, and the selector (the stored name, the
    child and every field of the child) is as it was. *)
Theorem C6_unregistered_name_leaves_the_selector
    (reg : Registry) (s : TaskSelector) (name : string) :
  opt_source (task_name s) = by_fn task_list ->
  all_subclass_map reg !! name = None ->
  set_task_name reg (Some name) s = (Raise (ValidationError "task_name"), s).
Proof.
  intros Hsrc Hnone. unfold set_task_name. rewrite run_bind.
  unfold store_task_name, OptionArg_set, OptionArg_accepts, option_set.
  rewrite Hsrc. cbn [option_names].
  rewrite bool_decide_false; [done |].
  rewrite elem_of_all_subclass_names, Hnone. by intros [? ?].
Qed.

Lemma C6_unknown_name_on_a_fresh_selector :
  set_task_name (mkRegistry ["C4Scanner"] {["Task" := Task_new]}) (Some "Nope")
    TaskSelector_new
  = (Raise (ValidationError "task_name"), TaskSelector_new).
Proof.
  apply (C6_unregistered_name_leaves_the_selector
           (mkRegistry ["C4Scanner"] {["Task" := Task_new]}) TaskSelector_new "Nope").
  - reflexivity.
  - vm_compute. reflexivity.
Defined.

(** C10.  For a task whose [scanner_type] holds a registered scanner
    name: [_get_train_dataloader] returns [None] exactly when
    [num_train_data_path] holds 0; otherwise the first call builds the
    loader from its arguments and stores it in [_train_dataloader], and
    every later call returns that same loader and leaves the task as it
    is, whatever arguments it is given; [_get_eval_dataloader] does the
    same on [num_eval_data_path] and [_eval_dataloader]. *)
Theorem C10_loaders_are_built_once_and_cached
    (reg : Registry) (t : TaskBase) (scanner : string) :
  opt_value (scanner_type t) = Some scanner ->
  scanner ∈ scanner_names reg ->
  built_once_then_cached (_get_train_dataloader reg) num_train_data_path
    _train_dataloader train_data_path_list train_data_weights scanner t
  /\ built_once_then_cached (_get_eval_dataloader reg) num_eval_data_path
       _eval_dataloader eval_data_path_list eval_data_weights scanner t.
Proof.
  intros Hsc Hreg. split.
  - by apply _get_train_dataloader_cached.
  - by apply _get_eval_dataloader_cached.
Qed.

Lemma C10_fresh_Task_builds_once :
  built_once_then_cached
    (_get_train_dataloader (mkRegistry ["C4Scanner"] {["Task" := Task_new]}))
    num_train_data_path _train_dataloader train_data_path_list train_data_weights
    "C4Scanner" Task_new
  /\ built_once_then_cached
       (_get_eval_dataloader (mkRegistry ["C4Scanner"] {["Task" := Task_new]}))
       num_eval_data_path _eval_dataloader eval_data_path_list eval_data_weights
       "C4Scanner" Task_new.
Proof.
  apply (C10_loaders_are_built_once_and_cached
           (mkRegistry ["C4Scanner"] {["Task" := Task_new]}) Task_new "C4Scanner").
  - reflexivity.
  - cbn. apply list_elem_of_here.
Defined.

End TaskClaims.

(** ** Assembly on a tree with a field left at [None] *)

Section AssemblyClaims.
Import lmfuser_data.

(** [needle] occurs in [hay]. *)
Fixpoint occurs_in (needle hay : string) : bool :=
  String.prefix needle hay ||
  match hay with
  | EmptyString => false
  | String _ rest => occurs_in needle rest
  end.

(** The text an exception carries. *)
Definition message (e : exn) : string :=
  match e with
  | AssertionError (Some msg) => msg
  | AssertionError None => ""
  | AttributeError attr => attr
  | KeyError key => key
  | IndexError => ""
  | ValidationError field => field
  end.

(** The error names the field. *)
Definition names_field (e : exn) (field : string) : bool :=
  occurs_in field (message e).

Definition unset_int (name : string) (a : IntArg) : list string :=
  if bool_decide (int_value a = None) && negb (int_allow_none a) then [name] else [].

Definition unset_bool (name : string) (a : BoolArg) : list string :=
  if bool_decide (bool_value a = None) then [name] else [].

Definition unset_option (name : string) (a : OptionArg) : list string :=
  if bool_decide (opt_value a = None) then [name] else [].

(** The scalar fields of a [DataLoaderConf] that hold [None] though their
    declaration does not allow it. *)
Definition unset_required_fields (c : dataloader_config.DataLoaderConf) : list string :=
  unset_int "batch_size" (dataloader_config.batch_size c)
  ++ unset_int "num_path" (dataloader_config.num_path c)
  ++ unset_option "scanner_type" (dataloader_config.scanner_type c)
  ++ unset_int "seed" (dataloader_config.seed c)
  ++ unset_bool "shuffle" (dataloader_config.shuffle c)
  ++ unset_int "prefetch_factor" (dataloader_config.prefetch_factor c)
  ++ unset_bool "ignore_error" (dataloader_config.ignore_error c)
  ++ unset_int "num_workers" (dataloader_config.num_workers c)
  ++ unset_int "num_ranks" (dataloader_config.num_ranks c)
  ++ unset_int "rank_idx" (dataloader_config.rank_idx c).

(** A fresh tree in which [batch_size] and [seed] hold [None]. *)
Definition tree_without_batch_size_and_seed : dataloader_config.Mem :=
  let m := dataloader_config.DataLoaderConf_new in
  let c := dataloader_config.self m in
  dataloader_config.mkMem (dataloader_config.objs m)
    (dataloader_config.mkDataLoaderConf
       (mkIntArg None (Some 1) None false)
       (dataloader_config.num_path c) (dataloader_config.path_list c)
       (dataloader_config.path_weight c) (dataloader_config.scanner_type c)
       (mkIntArg None None None false)
       (dataloader_config.shuffle c) (dataloader_config.prefetch_factor c)
       (dataloader_config.ignore_error c) (dataloader_config.qps c)
       (dataloader_config.instruct_timeout c) (dataloader_config.worker_timeout c)
       (dataloader_config.num_workers c) (dataloader_config.num_ranks c)
       (dataloader_config.rank_idx c) (dataloader_config.worker_indexes c)).

(** A fresh tree in which only [seed] holds [None]. *)
Definition tree_without_seed : dataloader_config.Mem :=
  let m := dataloader_config.DataLoaderConf_new in
  let c := dataloader_config.self m in
  dataloader_config.mkMem (dataloader_config.objs m)
    (dataloader_config.mkDataLoaderConf
       (dataloader_config.batch_size c)
       (dataloader_config.num_path c) (dataloader_config.path_list c)
       (dataloader_config.path_weight c) (dataloader_config.scanner_type c)
       (mkIntArg None None None false)
       (dataloader_config.shuffle c) (dataloader_config.prefetch_factor c)
       (dataloader_config.ignore_error c) (dataloader_config.qps c)
       (dataloader_config.instruct_timeout c) (dataloader_config.worker_timeout c)
       (dataloader_config.num_workers c) (dataloader_config.num_ranks c)
       (dataloader_config.rank_idx c) (dataloader_config.worker_indexes c)).

(** C7, as stated, fails.  With [batch_size] and [seed] both at [None],
    [init_dataloader] raises the bare [AssertionError] of its one
    [assert]: it names neither field.  With only [seed] at [None] it does
    not fail at all: the loader is built, with [seed=None]. *)
Lemma C7_no_aggregated_error :
  unset_required_fields (dataloader_config.self tree_without_batch_size_and_seed)
  = ["batch_size"; "seed"]
  /\ dataloader_config.init_dataloader ["C4Scanner"] None None None
       tree_without_batch_size_and_seed
     = (Raise (AssertionError None), tree_without_batch_size_and_seed)
  /\ names_field (AssertionError None) "batch_size" = false
  /\ names_field (AssertionError None) "seed" = false
  /\ unset_required_fields (dataloader_config.self tree_without_seed) = ["seed"]
  /\ (exists dl,
        dataloader_config.init_dataloader ["C4Scanner"] None None None tree_without_seed
        = (Ret dl, tree_without_seed)
        /\ seed dl = None).
Proof.
  repeat split; try reflexivity.
  eexists. split; reflexivity.
Qed.

(** C7, amended.  [init_dataloader] on a tree whose [batch_size] holds
    [None] raises a bare [AssertionError], builds no loader and leaves the
    tree as it was.  A getter of a task that has to build a loader (count
    not 0, nothing cached) while [scanner_type] holds [None] raises
    [AssertionError] with the message scanner_type is None, and
    caches nothing. *)
Theorem C7_assembly_stops_at_its_assert :
  (forall registered f g h (m : dataloader_config.Mem),
     int_value (dataloader_config.batch_size (dataloader_config.self m)) = None ->
     dataloader_config.init_dataloader registered f g h m
     = (Raise (AssertionError None), m))
  /\ (forall reg a (t : task.TaskBase),
        opt_value (task.scanner_type t) = None ->
        (int_value (task.num_train_data_path t) <> Some 0 ->
         task._train_dataloader t = None ->
         task._get_train_dataloader reg a t
         = (Raise (AssertionError (Some "scanner_type is None")), t))
        /\ (int_value (task.num_eval_data_path t) <> Some 0 ->
            task._eval_dataloader t = None ->
            task._get_eval_dataloader reg a t
            = (Raise (AssertionError (Some "scanner_type is None")), t))).
Proof.
  split.
  - intros registered f g h m Hbs.
    unfold dataloader_config.init_dataloader. unfold_M. by rewrite Hbs.
  - intros reg a t Hsc. split; intros Hne Hslot.
    + unfold task._get_train_dataloader. unfold_M.
      by rewrite (bool_decide_false _ Hne), Hslot, Hsc.
    + unfold task._get_eval_dataloader. unfold_M.
      by rewrite (bool_decide_false _ Hne), Hslot, Hsc.
Qed.

Lemma C7_tree_without_batch_size_raises :
  dataloader_config.init_dataloader ["C4Scanner"] None None None
    tree_without_batch_size_and_seed
  = (Raise (AssertionError None), tree_without_batch_size_and_seed).
Proof.
  apply (proj1 C7_assembly_stops_at_its_assert ["C4Scanner"] None None None
           tree_without_batch_size_and_seed).
  reflexivity.
Defined.

End AssemblyClaims.

(** ** Further properties of the count edits *)

Section CountEdits.
Import task.

(** The two counts of a task, as the class declares them
    ([IntArg(1, min_value=0)]). *)
Definition counts_declared (t : TaskBase) : Prop :=
  IntArg_declared 0 (num_train_data_path t)
  /\ IntArg_declared 0 (num_eval_data_path t).

Lemma counts_declared_new cls : counts_declared (TaskBase_new cls).
Proof.
  split; cbn; repeat split; try done; eexists; (split; [reflexivity | lia]).
Qed.

Lemma store_field_counts reg e t :
  counts_declared t -> counts_declared (snd (store_field reg e t)).
Proof.
  intros [Htrain Heval]. destruct t. cbn in *.
  destruct e; cbn;
    repeat match goal with
    | |- context [stored _ ?x _] => destruct x eqn:?; cbn
    | |- context [match ?x !! ?i with _ => _ end] => destruct (x !! i) eqn:?; cbn
    end;
    split; cbn; try done;
    match goal with
    | H : IntArg_set _ _ _ = Ret _ |- _ =>
        eapply IntArg_set_declared in H; [apply H | done]
    end.
Qed.

Lemma set_train_path_list_counts t :
  num_train_data_path (snd (set_train_path_list t)) = num_train_data_path t
  /\ num_eval_data_path (snd (set_train_path_list t)) = num_eval_data_path t.
Proof.
  unfold set_train_path_list, assert_isinstance_int.
  unfold assign_train_data_path_list, assign_train_data_weights. unfold_M.
  destruct (int_value (num_train_data_path t)) as [num |]; cbn; [| done].
  destruct (len (train_data_path_list t) >? num); cbn; [done |].
  by destruct (len (train_data_path_list t) <? num).
Qed.

Lemma set_eval_path_list_counts t :
  num_train_data_path (snd (set_eval_path_list t)) = num_train_data_path t
  /\ num_eval_data_path (snd (set_eval_path_list t)) = num_eval_data_path t.
Proof.
  unfold set_eval_path_list, assert_isinstance_int.
  unfold assign_eval_data_path_list, assign_eval_data_weights. unfold_M.
  destruct (int_value (num_eval_data_path t)) as [num |]; cbn; [| done].
  destruct (len (eval_data_path_list t) >? num); cbn; [done |].
  by destruct (len (eval_data_path_list t) <? num).
Qed.

Lemma apply_edit_counts reg e t :
  counts_declared t -> counts_declared (snd (apply_edit reg e t)).
Proof.
  intros Hc. unfold apply_edit. rewrite run_bind.
  pose proof (store_field_counts reg e t Hc) as Hc1.
  destruct (store_field reg e t) as [[[] | err] t1]; cbn [snd] in *; [| done].
  destruct Hc1 as [H1 H2].
  destruct e; cbn [monitors]; try (by split); unfold counts_declared.
  - destruct (set_train_path_list_counts t1) as [-> ->]. by split.
  - destruct (set_eval_path_list_counts t1) as [-> ->]. by split.
Qed.

Lemma reachable_counts reg t : reachable reg t -> counts_declared t.
Proof.
  induction 1 as [cls | t e _ IH];
    [apply counts_declared_new | by apply apply_edit_counts].
Qed.

(** [num_train_data_path] does govern its two lists: on every reachable
    task, an integer [n >= 0] is accepted and both train lists then have
    length [n]. *)
Theorem train_count_governs_both_train_lists (reg : Registry) (t : TaskBase) (n : Z) :
  reachable reg t -> 0 <= n ->
  exists t', apply_edit reg (edit_num_train_data_path (Some n)) t = (Ret tt, t')
             /\ int_value (num_train_data_path t') = Some n
             /\ len (train_data_path_list t') = n
             /\ len (train_data_weights t') = n.
Proof.
  intros Hr Hn.
  destruct (reachable_counts _ _ Hr) as [Htrain _].
  destruct (reachable_paired _ _ Hr) as [Hlen _].
  unfold apply_edit. rewrite run_bind.
  destruct t; cbn in *. rewrite (IntArg_set_accepts 0) by done.
  destruct (Z.leb_spec 0 n); [| lia]. cbn.
  unfold set_train_path_list, assert_isinstance_int.
  unfold assign_train_data_path_list, assign_train_data_weights. unfold_M. cbn.
  destruct (Z.gtb_spec (len train_data_path_list0) n); cbn.
  { eexists. split; [reflexivity |]. cbn.
    rewrite !length_slice_to by (unfold len in *; lia). done. }
  destruct (Z.ltb_spec (len train_data_path_list0) n); cbn.
  - eexists. split; [reflexivity |]. cbn. unfold len in *.
    rewrite !length_app, !length_list_mul. repeat split; lia.
  - eexists. split; [reflexivity |]. cbn. unfold len in *. repeat split; lia.
Qed.

Lemma train_count_three_on_a_fresh_Task :
  exists t', apply_edit (mkRegistry ["C4Scanner"] {["Task" := Task_new]})
               (edit_num_train_data_path (Some 3)) Task_new = (Ret tt, t')
             /\ int_value (num_train_data_path t') = Some 3
             /\ len (train_data_path_list t') = 3
             /\ len (train_data_weights t') = 3.
Proof.
  apply (train_count_governs_both_train_lists
           (mkRegistry ["C4Scanner"] {["Task" := Task_new]}) Task_new 3).
  - apply reachable_new.
  - lia.
Defined.

(** [set_eval_path_list] grows the two eval lists by the count minus the
    length of the train lists: on every reachable task, when the eval
    lists are shorter than an accepted count [n], what is appended is
    [n - len(train_data_path_list)] defaults (none, when that is not
    positive). *)
Theorem eval_lists_grow_by_the_train_length (reg : Registry) (t : TaskBase) (n : Z) :
  reachable reg t -> 0 <= n -> len (eval_data_path_list t) < n ->
  exists t', apply_edit reg (edit_num_eval_data_path (Some n)) t = (Ret tt, t')
             /\ int_value (num_eval_data_path t') = Some n
             /\ eval_data_path_list t' =
                  eval_data_path_list t ++
                  replicate (Z.to_nat (n - len (train_data_path_list t)))
                    dataloader_config.StrArg_path
             /\ eval_data_weights t' =
                  eval_data_weights t ++
                  replicate (Z.to_nat (n - len (train_data_weights t)))
                    dataloader_config.FloatArg_weight.
Proof.
  intros Hr Hn Hshort.
  destruct (reachable_counts _ _ Hr) as [_ Heval].
  unfold apply_edit. rewrite run_bind.
  destruct t; cbn in *. rewrite (IntArg_set_accepts 0) by done.
  destruct (Z.leb_spec 0 n); [| lia]. cbn.
  unfold set_eval_path_list, assert_isinstance_int.
  unfold assign_eval_data_path_list, assign_eval_data_weights. unfold_M. cbn.
  destruct (Z.gtb_spec (len eval_data_path_list0) n); [lia |].
  destruct (Z.ltb_spec (len eval_data_path_list0) n); [| lia]. cbn.
  eexists. split; [reflexivity |]. done.
Qed.

(** On a fresh task: [num_train_data_path = 3], then
    [num_eval_data_path = 2] is accepted and the eval lists stay at one
    element. *)
Lemma eval_lists_stay_short_after_longer_train_lists :
  exists t',
    apply_edit (mkRegistry ["C4Scanner"] {["Task" := Task_new]})
      (edit_num_eval_data_path (Some 2))
      (snd (apply_edit (mkRegistry ["C4Scanner"] {["Task" := Task_new]})
              (edit_num_train_data_path (Some 3)) Task_new))
    = (Ret tt, t')
    /\ int_value (num_eval_data_path t') = Some 2
    /\ eval_data_path_list t' = [dataloader_config.StrArg_path] ++ []
    /\ eval_data_weights t' = [dataloader_config.FloatArg_weight] ++ [].
Proof.
  apply (eval_lists_grow_by_the_train_length
           (mkRegistry ["C4Scanner"] {["Task" := Task_new]})
           (snd (apply_edit (mkRegistry ["C4Scanner"] {["Task" := Task_new]})
                   (edit_num_train_data_path (Some 3)) Task_new)) 2).
  - apply reachable_edit, reachable_new.
  - lia.
  - vm_compute. reflexivity.
Defined.

End CountEdits.

(** ** The shape of [worker_indexes] *)

Section WorkerIndexes.
Import dataloader_config.

(** An inner list after the loop of [set_worker_indexes] has seen it:
    extended with default entries up to [n] when it was shorter, and
    otherwise as it was. *)
Definition grown (n : Z) (l : list IndexConf) : list IndexConf :=
  if len l <? n then l ++ comprehension IndexConf_new (n - len l) else l.

(** The references of [worker_indexes] are distinct and point into the
    store. *)
Definition refs_ok (o : list (list IndexConf)) (wi : list ref) : Prop :=
  NoDup wi /\ forall r, r ∈ wi -> (r < length o)%nat.

Lemma for_worker_indexes_values n it m :
  refs_ok (objs m) it ->
  exists o',
    for_worker_indexes n it m = (Ret tt, mkMem o' (self m))
    /\ (forall r, r ∈ it -> o' !! r = grown n <$> objs m !! r)
    /\ (forall r, r ∉ it -> (r < length (objs m))%nat -> o' !! r = objs m !! r)
    /\ (length (objs m) <= length o')%nat.
Proof.
  revert m. induction it as [| r it IH]; intros m [Hnd Hin].
  - exists (objs m). split; [by destruct m |]. split; [| done].
    intros r Hr. by apply elem_of_nil in Hr.
  - apply NoDup_cons in Hnd as [Hr_notin Hnd].
    assert (Hr : (r < length (objs m))%nat) by (apply Hin; left).
    destruct (lookup_lt_is_Some_2 _ _ Hr) as [cur Hcur].
    cbn [for_worker_indexes]. unfold_M. unfold read, write, alloc. unfold_M.
    cbn beta. unfold ref in *. rewrite Hcur. cbn [default from_option id].
    (* the store after the body of the loop, for this element *)
    assert (Hstep : exists o1,
      (if len cur >? n
       then mkMem (objs m ++ [slice_to n cur]) (self m)
       else if len cur <? n
            then mkMem (<[r := cur ++ comprehension IndexConf_new (n - len cur)]> (objs m))
                   (self m)
            else m) = mkMem o1 (self m)
      /\ o1 !! r = Some (grown n cur)
      /\ (forall r', r' <> r -> (r' < length (objs m))%nat -> o1 !! r' = objs m !! r')
      /\ (length (objs m) <= length o1)%nat).
    { unfold grown.
      destruct (Z.gtb_spec (len cur) n) as [Hgt | Hle].
      - eexists. split; [reflexivity |].
        destruct (Z.ltb_spec (len cur) n); [lia |].
        split; [by apply lookup_app_l_Some |].
        split; [| rewrite length_app; lia].
        intros r' _ Hr'. by rewrite lookup_app_l.
      - destruct (Z.ltb_spec (len cur) n) as [Hlt | Hge].
        + eexists. split; [reflexivity |].
          split; [by apply list_lookup_insert_eq |].
          split; [| by rewrite length_insert].
          intros r' Hne _. by rewrite list_lookup_insert_ne.
        + exists (objs m). split; [by destruct m |]. done. }
    destruct Hstep as (o1 & Hm1 & Hr1 & Hother & Hlen1).
    destruct (IH (mkMem o1 (self m))) as (o' & Hrun & Hin' & Hout' & Hlen').
    { split; [done |]. intros r' Hr'. cbn.
      eapply Nat.lt_le_trans; [apply Hin; by right | done]. }
    exists o'. split.
    { destruct (len cur >? n); [| destruct (len cur <? n)]; cbn.
      - injection Hm1 as <-. exact Hrun.
      - injection Hm1 as <-. exact Hrun.
      - rewrite <- Hm1 in Hrun. exact Hrun. }
    cbn in Hin', Hout', Hlen'. split; [| split; [| lia]].
    + intros r' [-> | Hr']%elem_of_cons.
      * rewrite Hout' by (done || lia). by rewrite Hr1, Hcur.
      * rewrite Hin' by done. rewrite Hother; [done | | by apply Hin; right].
        intros ->. done.
    + intros r' Hr' Hlt. apply not_elem_of_cons in Hr' as [Hne Hr'].
      rewrite Hout' by (done || lia). by apply Hother.
Qed.

(** Following a reference. *)
Definition deref (o : list (list IndexConf)) (r : ref) : list IndexConf :=
  default [] (o !! r).

Lemma worker_indexes_value_deref m :
  worker_indexes_value m = map (deref (objs m)) (worker_indexes (self m)).
Proof. reflexivity. Qed.

Lemma map_deref_agree o o' (f : list IndexConf -> list IndexConf) wi :
  (forall r, r ∈ wi -> (r < length o)%nat) ->
  (forall r, r ∈ wi -> o' !! r = f <$> o !! r) ->
  map (deref o') wi = map f (map (deref o) wi).
Proof.
  intros Hvalid Hsame. rewrite map_map. apply map_ext_in.
  intros r Hr%list_elem_of_In. unfold deref. rewrite (Hsame r Hr).
  specialize (Hvalid r Hr).
  destruct (o !! r) as [l |] eqn:Hl; [done |].
  apply lookup_ge_None in Hl. lia.
Qed.

Lemma map_deref_fresh o k x :
  map (deref (o ++ replicate k x)) (seq (length o) k) = replicate k x.
Proof.
  apply list_eq. intros i. rewrite list_lookup_fmap.
  destruct (decide (i < k)%nat) as [Hlt | Hge].
  - rewrite lookup_seq_lt by done. cbn. unfold deref.
    rewrite lookup_app_r by lia.
    replace (length o + i - length o)%nat with i by lia.
    by rewrite !lookup_replicate_2.
  - rewrite lookup_seq_ge by lia. cbn. symmetry.
    apply lookup_replicate_None. lia.
Qed.

Lemma refs_ok_take o wi k : refs_ok o wi -> refs_ok o (take k wi).
Proof.
  intros [Hnd Hin]. split.
  - eapply sublist_NoDup; [exact Hnd | apply sublist_take].
  - intros r Hr. apply Hin. by eapply subseteq_take.
Qed.

Lemma refs_ok_fresh o wi k x :
  refs_ok o wi -> refs_ok (o ++ replicate k x) (wi ++ seq (length o) k).
Proof.
  intros [Hnd Hin]. split.
  - apply NoDup_app. split; [done |]. split; [| apply NoDup_seq].
    intros r Hr Hfresh%elem_of_seq. specialize (Hin r Hr). lia.
  - intros r [Hr | Hr%elem_of_seq]%elem_of_app;
      rewrite length_app, length_replicate; [specialize (Hin r Hr) |]; lia.
Qed.

Lemma refs_ok_mono o o' wi :
  (length o <= length o')%nat -> refs_ok o wi -> refs_ok o' wi.
Proof.
  intros Hle [Hnd Hin]. split; [done |].
  intros r Hr. specialize (Hin r Hr). lia.
Qed.

(** [set_worker_indexes], exactly: the outer list is resized to
    [num_path], a new entry being the one-element list [[IndexConf()]];
    then every inner list shorter than [num_workers] is extended to it, and
    no inner list is shortened. *)
Lemma set_worker_indexes_exact m np nw :
  int_value (num_path (self m)) = Some np ->
  int_value (num_workers (self m)) = Some nw ->
  0 <= np ->
  refs_ok (objs m) (worker_indexes (self m)) ->
  exists m',
    set_worker_indexes m = (Ret tt, m')
    /\ self m' = with_lists (self m) (path_list (self m)) (path_weight (self m))
                   (outer_resized np m)
    /\ refs_ok (objs m') (worker_indexes (self m'))
    /\ len (worker_indexes (self m')) = np
    /\ worker_indexes_value m' =
         map (grown nw)
           (Spec.resize (Z.to_nat np) [IndexConf_new] (worker_indexes_value m)).
Proof.
  intros Hnp Hnw H0 Hok.
  unfold set_worker_indexes, assign_worker_indexes. unfold_M.
  rewrite Hnp, Hnw. cbn.
  set (wi := worker_indexes (self m)) in *.
  rewrite worker_indexes_value_deref. fold wi.
  unfold outer_resized. fold wi.
  destruct (Z.gtb_spec (len wi) np) as [Hgt | Hle]; cbn.
  - (* the outer list is cut *)
    rewrite !slice_to_take by done.
    pose proof (refs_ok_take _ _ (Z.to_nat np) Hok) as Hok'.
    edestruct (for_worker_indexes_values nw (take (Z.to_nat np) wi)) as
      (o' & -> & Hin' & _ & Hlen'); [exact Hok' |].
    eexists. split; [reflexivity |]. cbn in *.
    split; [by destruct m as [o c]; destruct c |].
    split; [by eapply refs_ok_mono |].
    split; [unfold len in *; rewrite length_take; lia |].
    change (fun r : ref => default [] (o' !! r)) with (deref o').
    rewrite (map_deref_agree (objs m) o' (grown nw)); [| apply Hok' | done].
    rewrite resize_longer by (rewrite length_map; unfold len in *; lia).
    by rewrite (fmap_take (deref (objs m))).
  - destruct (Z.ltb_spec (len wi) np) as [Hlt | Hge]; cbn.
    + (* the outer list is extended by new one-element lists *)
      rewrite alloc_each_spec. cbn.
      set (k := Z.to_nat (np - len wi)).
      pose proof (refs_ok_fresh _ _ k [IndexConf_new] Hok) as Hok'.
      edestruct (for_worker_indexes_values nw (wi ++ seq (length (objs m)) k)) as
        (o' & -> & Hin' & _ & Hlen'); [exact Hok' |].
      eexists. split; [reflexivity |]. cbn in *.
      split; [by destruct m as [o c]; destruct c |].
      split; [by eapply refs_ok_mono |].
      split; [unfold len in *; rewrite length_app, length_seq; lia |].
      change (fun r : ref => default [] (o' !! r)) with (deref o').
      rewrite (map_deref_agree (objs m ++ replicate k [IndexConf_new]) o' (grown nw));
        [| apply Hok' | done].
      rewrite resize_shorter by (rewrite length_map; unfold len in *; lia).
      rewrite length_map.
      replace (Z.to_nat np - length wi)%nat with k by (unfold k, len; lia).
      f_equal. rewrite map_app, map_deref_fresh. f_equal.
      apply map_ext_in. intros r Hr%list_elem_of_In. unfold deref.
      rewrite lookup_app_l; [done | by apply Hok].
    + (* the outer list has the right length *)
      fold wi.
      edestruct (for_worker_indexes_values nw wi) as
        (o' & -> & Hin' & _ & Hlen'); [exact Hok |].
      eexists. split; [reflexivity |]. cbn in *.
      split; [symmetry; apply with_lists_id |].
      split; [by eapply refs_ok_mono |].
      split; [unfold len in *; fold wi; lia |].
      change (fun r : ref => default [] (o' !! r)) with (deref o').
      rewrite resize_same by (rewrite length_map; unfold len in *; lia).
      rewrite worker_indexes_value_deref. cbn [objs self]. fold wi.
      rewrite (map_deref_agree (objs m) o' (grown nw)); [done | apply Hok | done].
Qed.

(** *** The references stay sound along the edits *)

(** The references are sound, and the outer list is not empty.  Its
    length is [num_path] only after [set_worker_indexes] has run: an edit
    of [num_path] alone does not resize it. *)
Definition shape (m : Mem) : Prop :=
  refs_ok (objs m) (worker_indexes (self m))
  /\ 1 <= len (worker_indexes (self m)).

Lemma shape_new : shape DataLoaderConf_new.
Proof.
  split; [split |].
  - apply NoDup_singleton.
  - intros r ->%list_elem_of_singleton. cbn. lia.
  - done.
Qed.

Lemma store_field_raise e m err :
  fst (store_field e m) = Raise err -> snd (store_field e m) = m.
Proof.
  destruct m as [o c]; destruct c; cbn.
  destruct e; cbn;
    repeat match goal with
    | |- context [stored _ ?x _] => destruct x eqn:?; cbn
    | |- context [match ?x !! ?i with _ => _ end] => destruct (x !! i) eqn:?; cbn
    end; done.
Qed.

(** What storing a value leaves alone. *)
Lemma store_field_frame e m :
  worker_indexes (self (snd (store_field e m))) = worker_indexes (self m)
  /\ length (objs (snd (store_field e m))) = length (objs m)
  /\ match e with
     | edit_num_path _ => True
     | _ => num_path (self (snd (store_field e m))) = num_path (self m)
     end.
Proof.
  destruct m as [o c]; destruct c; cbn.
  destruct e; cbn;
    repeat match goal with
    | |- context [stored _ ?x _] => destruct x eqn:?; cbn
    | |- context [match ?x !! ?i with _ => _ end] => destruct (x !! i) eqn:?; cbn
    end; rewrite ?length_insert; done.
Qed.

(** An edit of [num_path] leaves [worker_indexes] and the store of its
    inner lists as they were, whatever the value offered and whether or not
    it is accepted. *)
Lemma edit_num_path_frame v m :
  worker_indexes (self (snd (apply_edit (edit_num_path v) m))) = worker_indexes (self m)
  /\ objs (snd (apply_edit (edit_num_path v) m)) = objs m.
Proof.
  unfold apply_edit. rewrite run_bind.
  destruct m as [o c]; destruct c; cbn [store_field self objs].
  destruct (IntArg_set "num_path" v _) as [a | err]; cbn [stored fst snd monitors]; [| done].
  unfold set_path_weight, assign_path_list, assign_path_weight. unfold_M. cbn.
  destruct (int_value a) as [n |]; cbn; [| done].
  repeat (match goal with |- context [if ?b then _ else _] => destruct b end; cbn);
    done.
Qed.

Lemma edit_num_path_or_not e :
  {v | e = edit_num_path v} + {forall v, e <> edit_num_path v}.
Proof. destruct e; try (right; discriminate). left. by eexists. Qed.

Lemma apply_edit_shape e m :
  valid (self m) -> shape m -> shape (snd (apply_edit e m)).
Proof.
  intros Hv [Hok Hlen].
  destruct (edit_num_path_or_not e) as [[v ->] | Hother].
  { destruct (edit_num_path_frame v m) as [Hwi Hobjs].
    unfold shape. by rewrite Hwi, Hobjs. }
  unfold apply_edit. rewrite run_bind.
  pose proof (store_field_valid e m Hv) as Hv1.
  pose proof (store_field_raise e m) as Hraise.
  destruct (store_field_frame e m) as (Hwi & Hobjs & Hkeep).
  destruct (store_field e m) as [[[] | err] m1]; cbn [fst snd] in *.
  2: { by rewrite (Hraise err eq_refl). }
  assert (Hok1 : refs_ok (objs m1) (worker_indexes (self m1))).
  { rewrite Hwi. eapply refs_ok_mono; [| exact Hok]. lia. }
  destruct (valid_num_path _ Hv1) as (_ & _ & _ & np1 & Hnp1 & Hge1).
  destruct (valid_num_workers _ Hv1) as (_ & _ & _ & nw & Hnw & _).
  assert (Hsame : forall e', monitors e' = mret tt -> shape (snd (monitors e' m1))).
  { intros e' ->. change (shape m1). split; [done |]. by rewrite Hwi. }
  destruct e; try (apply Hsame; reflexivity); cbn [monitors].
  - (* num_path *)
    by edestruct Hother.
  - (* num_workers *)
    destruct (set_worker_indexes_exact m1 np1 nw) as (m' & Hrun & Hself & Hok' & Hlen' & _);
      [exact Hnp1 | exact Hnw | lia | exact Hok1 |].
    rewrite Hrun. cbn [snd]. split; [done | lia].
Qed.

Lemma reachable_shape m : reachable m -> shape m.
Proof.
  induction 1 as [| m e Hr IH]; [apply shape_new |].
  apply apply_edit_shape; [by apply reachable_valid | done].
Qed.

Lemma store_field_num_workers m n :
  valid (self m) ->
  store_field (edit_num_workers (Some n)) m =
    if 1 <=? n then
      (Ret tt, mkMem (objs m)
         (let c := self m in
          mkDataLoaderConf (batch_size c) (num_path c) (path_list c) (path_weight c)
            (scanner_type c) (seed c) (shuffle c) (prefetch_factor c) (ignore_error c)
            (qps c) (instruct_timeout c) (worker_timeout c)
            (mkIntArg (Some n) (Some 1) None false) (num_ranks c) (rank_idx c)
            (worker_indexes c)))
    else (Raise (ValidationError "num_workers"), m).
Proof.
  intros Hv. pose proof (valid_num_workers _ Hv) as Hnw.
  destruct m as [o c]; destruct c; cbn in *.
  rewrite (IntArg_set_accepts 1) by done. by destruct (1 <=? n).
Qed.

(** On every reachable tree, an edit of [num_workers] to [n >= 1] is
    accepted, and [set_worker_indexes] then resizes the outer list of
    [worker_indexes] to the [num_path] of the tree by the rule of the
    specification, a new entry starting as the one-element list
    [[IndexConf()]]; afterwards each inner list is the list it was,
    extended with default entries up to [n] when it was shorter: a longer
    inner list keeps all its elements. *)
Theorem num_workers_edit_only_extends (m : Mem) (n : Z) :
  reachable m -> 1 <= n ->
  exists np m',
    int_value (num_path (self m)) = Some np
    /\ apply_edit (edit_num_workers (Some n)) m = (Ret tt, m')
    /\ int_value (num_workers (self m')) = Some n
    /\ length (worker_indexes_value m') = Z.to_nat np
    /\ worker_indexes_value m' =
         map (grown n)
           (Spec.resize (Z.to_nat np) [IndexConf_new] (worker_indexes_value m)).
Proof.
  intros Hr Hn. pose proof (reachable_valid _ Hr) as Hv.
  destruct (reachable_shape _ Hr) as [Hok _].
  destruct (valid_num_path _ Hv) as (_ & _ & _ & np & Hnp & Hge).
  exists np.
  unfold apply_edit. rewrite run_bind, store_field_num_workers by done.
  destruct (Z.leb_spec 1 n); [| lia]. cbn [monitors].
  edestruct (set_worker_indexes_exact) as (m' & -> & Hself & _ & _ & Hval);
    [exact Hnp | reflexivity | lia | exact Hok |].
  exists m'. split; [done |]. split; [done |]. split; [by rewrite Hself |].
  rewrite Hval. split; [| done].
  by rewrite length_map, length_resize.
Qed.

Lemma num_workers_one_after_two_keeps_pairs :
  exists np m',
    int_value
      (num_path
         (self (apply_edits [edit_num_path (Some 3); edit_num_workers (Some 2)]
                  DataLoaderConf_new))) = Some np
    /\ apply_edit (edit_num_workers (Some 1))
         (apply_edits [edit_num_path (Some 3); edit_num_workers (Some 2)] DataLoaderConf_new)
       = (Ret tt, m')
    /\ int_value (num_workers (self m')) = Some 1
    /\ length (worker_indexes_value m') = Z.to_nat np
    /\ worker_indexes_value m' =
         map (grown 1)
           (Spec.resize (Z.to_nat np) [IndexConf_new]
              (worker_indexes_value
                 (apply_edits [edit_num_path (Some 3); edit_num_workers (Some 2)]
                    DataLoaderConf_new))).
Proof.
  apply (num_workers_edit_only_extends
           (apply_edits [edit_num_path (Some 3); edit_num_workers (Some 2)]
              DataLoaderConf_new) 1).
  - apply (reachable_edit _ (edit_num_workers (Some 2))).
    apply (reachable_edit _ (edit_num_path (Some 3))).
    apply reachable_new.
  - lia.
Defined.

(** An edit of [num_path] does not touch [worker_indexes]: on every
    reachable tree an edit to [n >= 1] is accepted and resizes [path_list]
    and [path_weight] to [n], while the outer list of [worker_indexes], its
    inner lists and their entries stay as they were, so the tree can hold
    fewer or more inner lists than paths.  The outer list follows only at
    the next edit of [num_workers]: on a fresh tree, [num_path = 3] leaves
    the one inner list [[IndexConf()]] beside three paths, and
    [num_workers = 2] after it gives three inner lists of two. *)
Theorem num_path_edit_leaves_worker_indexes (m : Mem) (n : Z) :
  reachable m -> 1 <= n ->
  (exists m',
     apply_edit (edit_num_path (Some n)) m = (Ret tt, m')
     /\ int_value (num_path (self m')) = Some n
     /\ length (path_list (self m')) = Z.to_nat n
     /\ length (path_weight (self m')) = Z.to_nat n
     /\ worker_indexes (self m') = worker_indexes (self m)
     /\ objs m' = objs m
     /\ worker_indexes_value m' = worker_indexes_value m)
  /\ worker_indexes_value (apply_edits [edit_num_path (Some 3)] DataLoaderConf_new)
     = [[IndexConf_new]]
  /\ worker_indexes_value
       (apply_edits [edit_num_path (Some 3); edit_num_workers (Some 2)] DataLoaderConf_new)
     = [[IndexConf_new; IndexConf_new]; [IndexConf_new; IndexConf_new];
        [IndexConf_new; IndexConf_new]].
Proof.
  intros Hr Hn. pose proof (reachable_valid _ Hr) as Hv.
  split; [| split; vm_compute; reflexivity].
  destruct (apply_edit_num_path_accepted m n Hv Hn) as (o' & Hrun & _).
  destruct (edit_num_path_frame (Some n) m) as [Hwi Hobjs].
  rewrite Hrun in Hwi, Hobjs. cbn [snd] in Hwi, Hobjs.
  eexists. split; [exact Hrun |]. cbn [self objs] in *.
  split; [done |].
  split; [cbn [after_num_path path_list]; apply length_resize |].
  split; [cbn [after_num_path path_weight]; apply length_resize |].
  split; [exact Hwi |]. split; [exact Hobjs |].
  unfold worker_indexes_value. cbn [self objs]. by rewrite Hwi, Hobjs.
Qed.

Lemma num_path_three_on_a_fresh_tree_keeps_one_list :
  (exists m',
     apply_edit (edit_num_path (Some 3)) DataLoaderConf_new = (Ret tt, m')
     /\ int_value (num_path (self m')) = Some 3
     /\ length (path_list (self m')) = Z.to_nat 3
     /\ length (path_weight (self m')) = Z.to_nat 3
     /\ worker_indexes (self m') = worker_indexes (self DataLoaderConf_new)
     /\ objs m' = objs DataLoaderConf_new
     /\ worker_indexes_value m' = worker_indexes_value DataLoaderConf_new)
  /\ worker_indexes_value (apply_edits [edit_num_path (Some 3)] DataLoaderConf_new)
     = [[IndexConf_new]]
  /\ worker_indexes_value
       (apply_edits [edit_num_path (Some 3); edit_num_workers (Some 2)] DataLoaderConf_new)
     = [[IndexConf_new; IndexConf_new]; [IndexConf_new; IndexConf_new];
        [IndexConf_new; IndexConf_new]].
Proof.
  apply (num_path_edit_leaves_worker_indexes DataLoaderConf_new 3).
  - apply reachable_new.
  - lia.
Defined.

End WorkerIndexes.

(** ** Further properties of the selector and of the task lists *)

Section Selection.
Import task.

(** Selecting a registered class other than that of the current child
    succeeds, and the child is then the instance the constructor of that
    class returns: the previous child is dropped. *)
Theorem selecting_another_class_replaces_the_child
    (reg : Registry) (s : TaskSelector) (name : string) (instance : TaskBase) :
  opt_source (task_name s) = by_fn task_list ->
  all_subclass_map reg !! name = Some instance ->
  name <> class_name (conf s) ->
  set_task_name reg (Some name) s
  = (Ret tt, mkTaskSelector (mkOptionArg (Some name) (by_fn task_list)) instance).
Proof.
  intros Hsrc Hreg Hne. unfold set_task_name. rewrite run_bind.
  unfold store_task_name, OptionArg_set, OptionArg_accepts, option_set.
  rewrite Hsrc. cbn [option_names].
  rewrite bool_decide_true by (apply elem_of_all_subclass_names; by rewrite Hreg).
  unfold change_conf, construct, assign_conf. unfold_M. cbn.
  by rewrite bool_decide_true, Hreg by done.
Qed.

Lemma selecting_Other_on_a_fresh_selector :
  set_task_name
    (mkRegistry ["C4Scanner"]
       (<["Other" := TaskBase_new "Other"]> {["Task" := Task_new]}))
    (Some "Other") TaskSelector_new
  = (Ret tt, mkTaskSelector (mkOptionArg (Some "Other") (by_fn task_list))
               (TaskBase_new "Other")).
Proof.
  apply (selecting_another_class_replaces_the_child
           (mkRegistry ["C4Scanner"]
              (<["Other" := TaskBase_new "Other"]> {["Task" := Task_new]}))
           TaskSelector_new "Other" (TaskBase_new "Other")).
  - reflexivity.
  - vm_compute. reflexivity.
  - cbn. discriminate.
Defined.

(** In every task an editor can reach, the two train lists have one
    length and the two eval lists have one length. *)
Theorem lists_of_one_count_have_one_length (reg : Registry) (t : TaskBase) :
  reachable reg t ->
  length (train_data_path_list t) = length (train_data_weights t)
  /\ length (eval_data_path_list t) = length (eval_data_weights t).
Proof. intros Hr. exact (reachable_paired reg t Hr). Qed.

Lemma lists_of_one_count_after_two_edits :
  length (train_data_path_list
            (snd (apply_edit (mkRegistry ["C4Scanner"] {["Task" := Task_new]})
                    (edit_num_eval_data_path (Some 4))
                    (snd (apply_edit (mkRegistry ["C4Scanner"] {["Task" := Task_new]})
                            (edit_num_train_data_path (Some 0)) Task_new)))))
  = length (train_data_weights
              (snd (apply_edit (mkRegistry ["C4Scanner"] {["Task" := Task_new]})
                      (edit_num_eval_data_path (Some 4))
                      (snd (apply_edit (mkRegistry ["C4Scanner"] {["Task" := Task_new]})
                              (edit_num_train_data_path (Some 0)) Task_new)))))
  /\ length (eval_data_path_list
              (snd (apply_edit (mkRegistry ["C4Scanner"] {["Task" := Task_new]})
                      (edit_num_eval_data_path (Some 4))
                      (snd (apply_edit (mkRegistry ["C4Scanner"] {["Task" := Task_new]})
                              (edit_num_train_data_path (Some 0)) Task_new)))))
    = length (eval_data_weights
                (snd (apply_edit (mkRegistry ["C4Scanner"] {["Task" := Task_new]})
                        (edit_num_eval_data_path (Some 4))
                        (snd (apply_edit (mkRegistry ["C4Scanner"] {["Task" := Task_new]})
                                (edit_num_train_data_path (Some 0)) Task_new))))).
Proof.
  apply (lists_of_one_count_have_one_length
           (mkRegistry ["C4Scanner"] {["Task" := Task_new]})).
  apply reachable_edit, reachable_edit, reachable_new.
Defined.

End Selection.

(** ** [task.py]: the loaders of all the tasks *)

Module task_loaders.
Import lmfuser_data task.

(** [[task.conf.get(...) for task in self.tasks]]: the getter runs on the
    child of each selector in turn and may store a loader in it; when one
    call raises, the children before it keep what their calls stored and
    the selectors after it are not visited. *)
Fixpoint for_tasks (get : M TaskBase (option DataLoader)) (ts : list TaskSelector)
    : outcome (list (option DataLoader)) * list TaskSelector :=
  match ts with
  | [] => (Ret [], [])
  | task :: rest =>
      match get (conf task) with
      | (Ret dl, c) =>
          match for_tasks get rest with
          | (Ret dls, rest') => (Ret (dl :: dls), mkTaskSelector (task_name task) c :: rest')
          | (Raise e, rest') => (Raise e, mkTaskSelector (task_name task) c :: rest')
          end
      | (Raise e, c) => (Raise e, mkTaskSelector (task_name task) c :: rest)
      end
  end.

(** The comprehension, on the [tasks] of [self]. *)
Definition over_tasks (get : M TaskBase (option DataLoader))
    : M Tasks (list (option DataLoader)) :=
  fun s =>
    let (o, ts) := for_tasks get (tasks s) in
    (o, mkTasks (num_tasks s) ts (task_weights s) (task_weight s)).

(** [Tasks.get_train_dataloaders(self, batch_size, ..., world_size)] *)
Definition get_train_dataloaders (reg : Registry) (a : loader_args)
    : M Tasks (list (option DataLoader)) :=
  over_tasks (_get_train_dataloader reg a).


End task_loaders.

(** ** The loaders of all the tasks: facts *)

Section TaskLoaders.
Import lmfuser_data task task_loaders.

(** The task can build its loaders: [scanner_type] holds a registered
    scanner name. *)
Definition loadable (reg : Registry) (t : TaskBase) : Prop :=
  exists scanner, opt_value (scanner_type t) = Some scanner
                  /\ scanner ∈ scanner_names reg.

(** [t'] is [t] but for the two cache slots. *)
Definition same_config (t t' : TaskBase) : Prop :=
  class_name t' = class_name t
  /\ num_train_data_path t' = num_train_data_path t
  /\ train_data_path_list t' = train_data_path_list t
  /\ train_data_weights t' = train_data_weights t
  /\ num_eval_data_path t' = num_eval_data_path t
  /\ eval_data_path_list t' = eval_data_path_list t
  /\ eval_data_weights t' = eval_data_weights t
  /\ scanner_type t' = scanner_type t.

Lemma same_config_refl t : same_config t t.
Proof. by repeat split. Qed.

Lemma same_config_loadable reg t t' : same_config t t' -> loadable reg t -> loadable reg t'.
Proof.
  intros (_ & _ & _ & _ & _ & _ & _ & Hsc) (scanner & Hv & Hin).
  exists scanner. by rewrite Hsc.
Qed.

(** One call of the train getter on a loadable task: it returns, [None]
    exactly for a count of 0; it changes at most the train slot; and a
    further call, with any arguments, returns the same and changes
    nothing. *)
Lemma _get_train_dataloader_runs reg a t :
  loadable reg t ->
  exists dl t',
    _get_train_dataloader reg a t = (Ret dl, t')
    /\ (dl = None <-> int_value (num_train_data_path t) = Some 0)
    /\ same_config t t'
    /\ _eval_dataloader t' = _eval_dataloader t
    /\ (forall a2, _get_train_dataloader reg a2 t' = (Ret dl, t')).
Proof.
  intros (scanner & Hsc & Hreg).
  unfold _get_train_dataloader, assign__train_dataloader, get_subclass. unfold_M.
  cbn beta. case_bool_decide as H0.
  { exists None, t. split; [done |]. split; [done |].
    split; [apply same_config_refl |]. split; [done |].
    intros a2. by rewrite bool_decide_true. }
  destruct (_train_dataloader t) as [dl |] eqn:Hslot.
  { exists (Some dl), t. split; [done |]. split; [split; congruence |].
    split; [apply same_config_refl |]. split; [done |].
    intros a2. by rewrite bool_decide_false, Hslot. }
  rewrite Hsc. cbn. rewrite (bool_decide_true _ Hreg). cbn.
  eexists _, _. split; [reflexivity |]. split; [split; congruence |].
  split; [by repeat split |]. split; [done |].
  intros a2. cbn. by rewrite bool_decide_false.
Qed.


(** The comprehension over two stretches of tasks, one after the other. *)
Lemma for_tasks_app get l1 l2 :
  for_tasks get (l1 ++ l2) =
    match for_tasks get l1 with
    | (Ret d1, l1') =>
        match for_tasks get l2 with
        | (Ret d2, l2') => (Ret (d1 ++ d2), l1' ++ l2')
        | (Raise e, l2') => (Raise e, l1' ++ l2')
        end
    | (Raise e, l1') => (Raise e, l1' ++ l2)
    end.
Proof.
  induction l1 as [| task l1 IH]; cbn.
  - by destruct (for_tasks get l2) as [[] ?].
  - destruct (get (conf task)) as [[dl | e] c]; [| done].
    rewrite IH. destruct (for_tasks get l1) as [[d1 | e] l1']; [| done].
    by destruct (for_tasks get l2) as [[d2 | e] l2'].
Qed.

(** Each selector keeps its name, and its child keeps its configuration. *)
Definition same_tasks (ts ts' : list TaskSelector) : Prop :=
  Forall2 (fun s s' => task_name s' = task_name s /\ same_config (conf s) (conf s')) ts ts'.

Section OneGetter.
Variable reg : Registry.
Variable get : loader_args -> M TaskBase (option DataLoader).
Variable count : TaskBase -> IntArg.
Hypothesis get_runs : forall a t,
  loadable reg t ->
  exists dl t',
    get a t = (Ret dl, t')
    /\ (dl = None <-> int_value (count t) = Some 0)
    /\ same_config t t'
    /\ (forall a2, get a2 t' = (Ret dl, t')).

Lemma for_tasks_runs a ts :
  Forall (fun s => loadable reg (conf s)) ts ->
  exists dls ts',
    for_tasks (get a) ts = (Ret dls, ts')
    /\ Forall2 (fun s dl => dl = None <-> int_value (count (conf s)) = Some 0) ts dls
    /\ same_tasks ts ts'
    /\ (forall a2, for_tasks (get a2) ts' = (Ret dls, ts')).
Proof.
  induction 1 as [| task ts Hgood _ IH].
  - exists [], []. repeat split; constructor.
  - destruct IH as (dls & ts' & Hrun & Hnone & Hsame & Hagain).
    destruct (get_runs a (conf task) Hgood) as (dl & c & Hget & Hdl & Hcfg & Hget2).
    exists (dl :: dls), (mkTaskSelector (task_name task) c :: ts').
    cbn. rewrite Hget, Hrun. split; [done |].
    split; [by constructor |]. split; [by constructor |].
    intros a2. cbn. by rewrite Hget2, Hagain.
Qed.

End OneGetter.


(** Arguments for a call of the getters. *)
Definition some_loader_args : loader_args :=
  mkLoaderArgs 8 42 true 2 true None 1.0%float 1.0%float 1 0 1.

Definition C4_registry : Registry :=
  mkRegistry ["C4Scanner"] {["Task" := Task_new]}.

Lemma Task_new_loadable : loadable C4_registry Task_new.
Proof. exists "C4Scanner". split; [reflexivity | apply list_elem_of_here]. Qed.


(** A task that has to build its train loader while its [scanner_type]
    holds [None] stops [get_train_dataloaders]: the call raises and
    returns no list, the tasks after it are not visited, and the loaders
    built for the tasks before it stay stored in them. *)
Theorem a_task_without_scanner_stops_the_loaders
    (reg : Registry) (a : loader_args) (s : Tasks)
    (before after : list TaskSelector) (bad : TaskSelector) :
  tasks s = before ++ bad :: after ->
  Forall (fun ts => loadable reg (conf ts)) before ->
  opt_value (scanner_type (conf bad)) = None ->
  int_value (num_train_data_path (conf bad)) <> Some 0 ->
  _train_dataloader (conf bad) = None ->
  exists dls before',
    for_tasks (_get_train_dataloader reg a) before = (Ret dls, before')
    /\ (forall a2, for_tasks (_get_train_dataloader reg a2) before' = (Ret dls, before'))
    /\ get_train_dataloaders reg a s
       = (Raise (AssertionError (Some "scanner_type is None")),
          mkTasks (num_tasks s) (before' ++ bad :: after) (task_weights s) (task_weight s)).
Proof.
  intros Htasks Hgood Hsc Hne Hslot.
  destruct (for_tasks_runs reg (_get_train_dataloader reg) num_train_data_path)
    with (a := a) (ts := before) as (dls & before' & Hrun & _ & _ & Hagain); [| done |].
  { intros a' t Ht.
    destruct (_get_train_dataloader_runs reg a' t Ht) as (dl & t' & ? & ? & ? & _ & ?).
    by exists dl, t'. }
  exists dls, before'. split; [done |]. split; [done |].
  unfold get_train_dataloaders, over_tasks. rewrite Htasks, for_tasks_app, Hrun.
  cbn [for_tasks].
  assert (Hbad : _get_train_dataloader reg a (conf bad)
                 = (Raise (AssertionError (Some "scanner_type is None")), conf bad)).
  { unfold _get_train_dataloader. unfold_M.
    by rewrite (bool_decide_false _ Hne), Hslot, Hsc. }
  rewrite Hbad. by destruct bad.
Qed.

(** A task whose [scanner_type] holds [None]. *)
Definition Task_without_scanner : TaskBase :=
  mkTaskBase "Task"
    (mkIntArg (Some 1) (Some 0) None false) [dataloader_config.StrArg_path]
    [dataloader_config.FloatArg_weight]
    (mkIntArg (Some 1) (Some 0) None false) [dataloader_config.StrArg_path]
    [dataloader_config.FloatArg_weight]
    (mkOptionArg None (by_fn scanner_type_list)) None None.

Lemma second_task_without_scanner_stops_the_loaders :
  exists dls before',
    for_tasks (_get_train_dataloader C4_registry some_loader_args) [TaskSelector_new]
    = (Ret dls, before')
    /\ (forall a2, for_tasks (_get_train_dataloader C4_registry a2) before'
                   = (Ret dls, before'))
    /\ get_train_dataloaders C4_registry some_loader_args
         (mkTasks (mkIntArg (Some 3) (Some 1) None false)
            ([TaskSelector_new]
             ++ mkTaskSelector (task_name TaskSelector_new) Task_without_scanner
             :: [TaskSelector_new])
            [dataloader_config.FloatArg_weight] None)
       = (Raise (AssertionError (Some "scanner_type is None")),
          mkTasks (mkIntArg (Some 3) (Some 1) None false)
            (before'
             ++ mkTaskSelector (task_name TaskSelector_new) Task_without_scanner
             :: [TaskSelector_new])
            [dataloader_config.FloatArg_weight] None).
Proof.
  apply (a_task_without_scanner_stops_the_loaders C4_registry some_loader_args
           (mkTasks (mkIntArg (Some 3) (Some 1) None false)
              ([TaskSelector_new]
               ++ mkTaskSelector (task_name TaskSelector_new) Task_without_scanner
               :: [TaskSelector_new])
              [dataloader_config.FloatArg_weight] None)
           [TaskSelector_new] [TaskSelector_new]
           (mkTaskSelector (task_name TaskSelector_new) Task_without_scanner)).
  - reflexivity.
  - repeat constructor. apply Task_new_loadable.
  - reflexivity.
  - cbn. discriminate.
  - reflexivity.
Defined.

End TaskLoaders.

(** ** The cached loaders and the edits *)

Section CachedLoaders.
Import lmfuser_data task.

Lemma set_train_path_list_slots t :
  _train_dataloader (snd (set_train_path_list t)) = _train_dataloader t
  /\ _eval_dataloader (snd (set_train_path_list t)) = _eval_dataloader t.
Proof.
  unfold set_train_path_list, assert_isinstance_int.
  unfold assign_train_data_path_list, assign_train_data_weights. unfold_M.
  destruct (int_value (num_train_data_path t)) as [num |]; cbn; [| done].
  destruct (len (train_data_path_list t) >? num); cbn; [done |].
  by destruct (len (train_data_path_list t) <? num).
Qed.

Lemma set_eval_path_list_slots t :
  _train_dataloader (snd (set_eval_path_list t)) = _train_dataloader t
  /\ _eval_dataloader (snd (set_eval_path_list t)) = _eval_dataloader t.
Proof.
  unfold set_eval_path_list, assert_isinstance_int.
  unfold assign_eval_data_path_list, assign_eval_data_weights. unfold_M.
  destruct (int_value (num_eval_data_path t)) as [num |]; cbn; [| done].
  destruct (len (eval_data_path_list t) >? num); cbn; [done |].
  by destruct (len (eval_data_path_list t) <? num).
Qed.

Lemma store_field_slots reg e t :
  _train_dataloader (snd (store_field reg e t)) = _train_dataloader t
  /\ _eval_dataloader (snd (store_field reg e t)) = _eval_dataloader t.
Proof.
  destruct t. cbn.
  destruct e; cbn;
    repeat match goal with
    | |- context [stored _ ?x _] => destruct x eqn:?; cbn
    | |- context [match ?x !! ?i with _ => _ end] => destruct (x !! i) eqn:?; cbn
    end; done.
Qed.

Lemma apply_edit_slots reg e t :
  _train_dataloader (snd (apply_edit reg e t)) = _train_dataloader t
  /\ _eval_dataloader (snd (apply_edit reg e t)) = _eval_dataloader t.
Proof.
  unfold apply_edit. rewrite run_bind.
  destruct (store_field_slots reg e t) as [Ht He].
  destruct (store_field reg e t) as [[[] | err] t1]; cbn [snd] in *; [| done].
  destruct e; cbn [monitors]; try done.
  - destruct (set_train_path_list_slots t1) as [-> ->]. done.
  - destruct (set_eval_path_list_slots t1) as [-> ->]. done.
Qed.

(** A loader, once built, outlives the edits: after any edit of the task
    (a path, a weight, the scanner, a count), a getter whose count is not
    0 returns the loader that was stored before the edit, built from the
    lists as they were then, and builds nothing. *)
Theorem cached_loaders_outlive_edits
    (reg : Registry) (e : edit) (t : TaskBase) (a : loader_args) :
  (forall dl,
     _train_dataloader t = Some dl ->
     int_value (num_train_data_path (snd (apply_edit reg e t))) <> Some 0 ->
     _get_train_dataloader reg a (snd (apply_edit reg e t))
     = (Ret (Some dl), snd (apply_edit reg e t)))
  /\ (forall dl,
       _eval_dataloader t = Some dl ->
       int_value (num_eval_data_path (snd (apply_edit reg e t))) <> Some 0 ->
       _get_eval_dataloader reg a (snd (apply_edit reg e t))
       = (Ret (Some dl), snd (apply_edit reg e t))).
Proof.
  destruct (apply_edit_slots reg e t) as [Htrain Heval].
  split; intros dl Hslot Hne.
  - unfold _get_train_dataloader. unfold_M.
    by rewrite (bool_decide_false _ Hne), Htrain, Hslot.
  - unfold _get_eval_dataloader. unfold_M.
    by rewrite (bool_decide_false _ Hne), Heval, Hslot.
Qed.

Lemma a_path_edit_does_not_rebuild_the_loader :
  _get_train_dataloader C4_registry some_loader_args
    (snd (apply_edit C4_registry (edit_train_data_path_list 0 (Some "b.jsonl"))
            (snd (_get_train_dataloader C4_registry some_loader_args Task_new))))
  = (Ret (Some (new_DataLoader Task_new some_loader_args
                  [Some dataloader_config.path_prompt] [Some 1.0%float]
                  (scanner_class "C4Scanner"))),
     snd (apply_edit C4_registry (edit_train_data_path_list 0 (Some "b.jsonl"))
            (snd (_get_train_dataloader C4_registry some_loader_args Task_new)))).
Proof.
  apply (proj1 (cached_loaders_outlive_edits C4_registry
                  (edit_train_data_path_list 0 (Some "b.jsonl"))
                  (snd (_get_train_dataloader C4_registry some_loader_args Task_new))
                  some_loader_args)).
  - reflexivity.
  - cbn. discriminate.
Defined.

End CachedLoaders.

(** ** [Tasks]: every edit of [num_tasks] *)

Section TasksEdits.
Import task.

(** The [Tasks] an editor can reach by edits of [num_tasks]; an edit that
    raises leaves whatever it had done. *)
Inductive reachable_tasks : Tasks -> Prop :=
| reachable_tasks_new : reachable_tasks Tasks_new
| reachable_tasks_edit s v : reachable_tasks s -> reachable_tasks (snd (set_num_tasks v s)).

(** What every reachable [Tasks] satisfies: [num_tasks] is as declared,
    [tasks] is as long as it says, [task_weights] is the one default
    weight, and no attribute [task_weight] exists. *)
Definition tasks_inv (s : Tasks) : Prop :=
  IntArg_declared 1 (num_tasks s)
  /\ int_value (num_tasks s) = Some (len (tasks s))
  /\ task_weights s = [dataloader_config.FloatArg_weight]
  /\ task_weight s = None.

(** One edit of [num_tasks] under the invariant, case by case. *)
Lemma set_num_tasks_cases s n :
  tasks_inv s ->
  set_num_tasks (Some n) s =
    if n <? 1 then (Raise (ValidationError "num_tasks"), s)
    else if len (tasks s) >? n then
      (Raise (AttributeError "task_weight"),
       mkTasks (mkIntArg (Some n) (Some 1) None false) (take (Z.to_nat n) (tasks s))
         (task_weights s) None)
    else if len (tasks s) <? n then
      (Raise (AttributeError "task_weight"),
       mkTasks (mkIntArg (Some n) (Some 1) None false)
         (tasks s ++ replicate (Z.to_nat (n - len (tasks s))) TaskSelector_new)
         (task_weights s) None)
    else (Ret tt, s).
Proof.
  intros (Hdecl & Hlen & Hw & Hattr).
  unfold set_num_tasks. rewrite run_bind. unfold store_num_tasks.
  rewrite (IntArg_set_accepts 1) by done.
  destruct (Z.ltb_spec n 1) as [Hlt | Hge].
  { destruct (Z.leb_spec 1 n); [lia | done]. }
  destruct (Z.leb_spec 1 n); [| lia].
  unfold change_task_list, assign_tasks, get_task_weight. unfold_M. cbn.
  destruct (Z.gtb_spec (len (tasks s)) n) as [Hgt | Hle]; cbn.
  { rewrite Hattr. by rewrite slice_to_take by lia. }
  destruct (Z.ltb_spec (len (tasks s)) n) as [Hlt | Hge']; cbn.
  { by rewrite Hattr. }
  destruct s as [nt ts tw attr]. cbn in *. subst attr.
  destruct Hdecl as (Hmin & Hmax & Hnone & _).
  destruct nt; cbn in *. subst. do 3 f_equal. f_equal. lia.
Qed.

Lemma set_num_tasks_inv s v : tasks_inv s -> tasks_inv (snd (set_num_tasks v s)).
Proof.
  intros Hinv. pose proof Hinv as (Hdecl & Hlen & Hw & Hattr).
  destruct v as [n |].
  - rewrite (set_num_tasks_cases s n Hinv).
    destruct (Z.ltb_spec n 1) as [Hlt | Hge]; [done |].
    destruct (Z.gtb_spec (len (tasks s)) n) as [Hgt | Hle]; cbn.
    { split; [| split; [| by split]].
      - repeat split; try done. eexists. split; [reflexivity | lia].
      - cbn. unfold len in *. rewrite length_take. f_equal. lia. }
    destruct (Z.ltb_spec (len (tasks s)) n) as [Hlt | Hge']; cbn; [| done].
    split; [| split; [| by split]].
    + repeat split; try done. eexists. split; [reflexivity | lia].
    + cbn. unfold len in *. rewrite length_app, length_replicate. f_equal. lia.
  - unfold set_num_tasks. rewrite run_bind. unfold store_num_tasks, IntArg_set. cbn.
    destruct Hdecl as (_ & _ & -> & _). done.
Qed.

Lemma reachable_tasks_inv s : reachable_tasks s -> tasks_inv s.
Proof.
  induction 1 as [| s v _ IH]; [| by apply set_num_tasks_inv].
  repeat split; try done. eexists. split; [reflexivity | lia].
Qed.

(** On every reachable [Tasks], an edit of [num_tasks] to [n >= 1] stores
    [n] and resizes [tasks] to [n] (its first [n] selectors, or all of
    them and fresh [TaskSelector()] after); [task_weights] is never
    resized: it is the one default weight before and after.  The edit
    returns only when [n] is the length [tasks] already has, and raises
    [AttributeError] on [task_weight] otherwise. *)
Theorem num_tasks_resizes_tasks_only (s : Tasks) (n : Z) :
  reachable_tasks s -> 1 <= n ->
  int_value (num_tasks (snd (set_num_tasks (Some n) s))) = Some n
  /\ tasks (snd (set_num_tasks (Some n) s))
     = Spec.resize (Z.to_nat n) TaskSelector_new (tasks s)
  /\ task_weights s = [dataloader_config.FloatArg_weight]
  /\ task_weights (snd (set_num_tasks (Some n) s)) = [dataloader_config.FloatArg_weight]
  /\ fst (set_num_tasks (Some n) s)
     = if bool_decide (n = len (tasks s)) then Ret tt
       else Raise (AttributeError "task_weight").
Proof.
  intros Hinv%reachable_tasks_inv Hn. pose proof Hinv as (Hdecl & Hlen & Hw & Hattr).
  rewrite (set_num_tasks_cases s n Hinv).
  destruct (Z.ltb_spec n 1) as [Hlt | Hge]; [lia |].
  destruct (Z.gtb_spec (len (tasks s)) n) as [Hgt | Hle]; cbn.
  { rewrite bool_decide_false by lia.
    rewrite resize_longer by (unfold len in *; lia). done. }
  destruct (Z.ltb_spec (len (tasks s)) n) as [Hlt | Hge']; cbn.
  { rewrite bool_decide_false by lia.
    rewrite resize_shorter by (unfold len in *; lia).
    repeat split; try done. do 2 f_equal. unfold len. lia. }
  rewrite bool_decide_true by lia.
  rewrite resize_same by (unfold len in *; lia).
  repeat split; try done. rewrite Hlen. f_equal. lia.
Qed.

Lemma num_tasks_three_then_two :
  int_value (num_tasks (snd (set_num_tasks (Some 2)
                               (snd (set_num_tasks (Some 3) Tasks_new))))) = Some 2
  /\ tasks (snd (set_num_tasks (Some 2) (snd (set_num_tasks (Some 3) Tasks_new))))
     = Spec.resize (Z.to_nat 2) TaskSelector_new
         (tasks (snd (set_num_tasks (Some 3) Tasks_new)))
  /\ task_weights (snd (set_num_tasks (Some 3) Tasks_new))
     = [dataloader_config.FloatArg_weight]
  /\ task_weights (snd (set_num_tasks (Some 2) (snd (set_num_tasks (Some 3) Tasks_new))))
     = [dataloader_config.FloatArg_weight]
  /\ fst (set_num_tasks (Some 2) (snd (set_num_tasks (Some 3) Tasks_new)))
     = if bool_decide (2 = len (tasks (snd (set_num_tasks (Some 3) Tasks_new))))
       then Ret tt else Raise (AttributeError "task_weight").
Proof.
  apply (num_tasks_resizes_tasks_only (snd (set_num_tasks (Some 3) Tasks_new)) 2).
  - apply reachable_tasks_edit, reachable_tasks_new.
  - lia.
Defined.

End TasksEdits.

(** ** [ddp/task_config_base.py] *)

Module task_config_base.
Import dataloader_config.

Section Instances.

(** The [DataLoaderConf] instances of a program are objects, and not
    independent of each other: the inner lists of the class-level
    [worker_indexes] are shared by the instances, and
    [set_worker_indexes] extends them in place, so that an edit of one
    instance shows in another, and in an instance built later.  What the
    constructor and the edit of a field do to the objects is decided by
    [hyperargs.Conf], which is not part of the sources.  The node
    therefore holds its children by reference: [Heap] is the state of
    every object the children are made of, [Inst] a reference to a
    [DataLoaderConf], and the two operations are taken as they are. *)
Variables Heap Inst : Type.

(** [DataLoaderConf()]: the new instance, and the heap with it. *)
Variable new_DataLoaderConf : Heap -> Inst * Heap.

(** An edit of a field of the instance referred to: validation, storing
    and the monitors of [DataLoaderConf], acting on the heap. *)
Variable edit_DataLoaderConf :
  Inst -> dataloader_config.edit -> Heap -> outcome unit * Heap.

Record TaskConfigBase : Type := mkTaskConfigBase {
  is_trainable : BoolArg;
  is_evaluatable : BoolArg;
  train_dataset_config : list Inst;
  eval_dataset_config : list Inst;
  heap : Heap }.

(** [TaskConfigBase()], [t] and [e] being the two instances the class
    body built. *)
Definition TaskConfigBase_new (t e : Inst) (h : Heap) : TaskConfigBase :=
  mkTaskConfigBase (mkBoolArg (Some true)) (mkBoolArg (Some true)) [t] [e] h.

(** The truth value of a [value()] in a condition: [None] and [False]
    are false. *)
Definition truthy (v : option bool) : bool :=
  match v with Some true => true | _ => false end.

Definition assign_train_dataset_config (v : list Inst) : M TaskConfigBase unit :=
  modify (fun c => mkTaskConfigBase (is_trainable c) (is_evaluatable c) v
                     (eval_dataset_config c) (heap c)).

Definition assign_eval_dataset_config (v : list Inst) : M TaskConfigBase unit :=
  modify (fun c => mkTaskConfigBase (is_trainable c) (is_evaluatable c)
                     (train_dataset_config c) v (heap c)).

(** The call [DataLoaderConf()] inside a method of the node. *)
Definition DataLoaderConf_call : M TaskConfigBase Inst := fun c =>
  let (d, h) := new_DataLoaderConf (heap c) in
  (Ret d, mkTaskConfigBase (is_trainable c) (is_evaluatable c)
            (train_dataset_config c) (eval_dataset_config c) h).

(** [@monitor_on('is_trainable') def set_train_config(self)];
    [append] extends the list in place. *)
Definition set_train_config : M TaskConfigBase unit :=
  v ← gets (fun c => bool_value (is_trainable c));
  l ← gets train_dataset_config;
  if truthy v && (len l =? 0) then
    d ← DataLoaderConf_call;
    assign_train_dataset_config (l ++ [d])
  else if negb (truthy v) then
    assign_train_dataset_config []
  else mret tt.

(** [@monitor_on('is_evaluatable') def set_eval_config(self)] *)
Definition set_eval_config : M TaskConfigBase unit :=
  v ← gets (fun c => bool_value (is_evaluatable c));
  l ← gets eval_dataset_config;
  if truthy v && (len l =? 0) then
    d ← DataLoaderConf_call;
    assign_eval_dataset_config (l ++ [d])
  else if negb (truthy v) then
    assign_eval_dataset_config []
  else mret tt.

(** An edit of the node: one of its two switches, or a field of one of
    its [DataLoaderConf] children. *)
Inductive edit : Type :=
| edit_is_trainable (v : option bool)
| edit_is_evaluatable (v : option bool)
| edit_train_dataset_config (i : nat) (e : dataloader_config.edit)
| edit_eval_dataset_config (i : nat) (e : dataloader_config.edit).

(** Modelled from the spec: the editing entry point of [hyperargs.Conf] is
    not part of the sources.  Validation and storing of the value offered
    (spec 4.1); an edit of a child is the edit of the instance the list
    refers to, and an index outside the list raises [IndexError]. *)
Definition store_field (e : edit) : M TaskConfigBase unit := fun c =>
  match e with
  | edit_is_trainable v =>
      match BoolArg_set "is_trainable" v (is_trainable c) with
      | Ret a => (Ret tt, mkTaskConfigBase a (is_evaluatable c)
                            (train_dataset_config c) (eval_dataset_config c) (heap c))
      | Raise err => (Raise err, c)
      end
  | edit_is_evaluatable v =>
      match BoolArg_set "is_evaluatable" v (is_evaluatable c) with
      | Ret a => (Ret tt, mkTaskConfigBase (is_trainable c) a
                            (train_dataset_config c) (eval_dataset_config c) (heap c))
      | Raise err => (Raise err, c)
      end
  | edit_train_dataset_config i e =>
      match train_dataset_config c !! i with
      | Some d =>
          let (o, h) := edit_DataLoaderConf d e (heap c) in
          (o, mkTaskConfigBase (is_trainable c) (is_evaluatable c)
                (train_dataset_config c) (eval_dataset_config c) h)
      | None => (Raise IndexError, c)
      end
  | edit_eval_dataset_config i e =>
      match eval_dataset_config c !! i with
      | Some d =>
          let (o, h) := edit_DataLoaderConf d e (heap c) in
          (o, mkTaskConfigBase (is_trainable c) (is_evaluatable c)
                (train_dataset_config c) (eval_dataset_config c) h)
      | None => (Raise IndexError, c)
      end
  end.

Definition monitors (e : edit) : M TaskConfigBase unit :=
  match e with
  | edit_is_trainable _ => set_train_config
  | edit_is_evaluatable _ => set_eval_config
  | _ => mret tt
  end.

Definition apply_edit (e : edit) : M TaskConfigBase unit :=
  store_field e;; monitors e.

(** The nodes an editor can reach from a fresh one. *)
Inductive reachable : TaskConfigBase -> Prop :=
| reachable_new t e h : reachable (TaskConfigBase_new t e h)
| reachable_edit c e : reachable c -> reachable (snd (apply_edit e c)).

End Instances.

Arguments mkTaskConfigBase {Heap Inst}.
Arguments is_trainable {Heap Inst}.
Arguments is_evaluatable {Heap Inst}.
Arguments train_dataset_config {Heap Inst}.
Arguments eval_dataset_config {Heap Inst}.
Arguments heap {Heap Inst}.
Arguments TaskConfigBase_new {Heap Inst}.
Arguments set_train_config {Heap Inst}.
Arguments set_eval_config {Heap Inst}.
Arguments store_field {Heap Inst}.
Arguments monitors {Heap Inst}.
Arguments apply_edit {Heap Inst}.
Arguments reachable {Heap Inst}.

End task_config_base.

(** ** [TaskConfigBase]: the two switches *)

Section TaskConfigBaseFacts.
Import task_config_base.

Context {Heap Inst : Type}.
Variable new_DataLoaderConf : Heap -> Inst * Heap.
Variable edit_DataLoaderConf :
  Inst -> dataloader_config.edit -> Heap -> outcome unit * Heap.

Local Abbreviation apply_edit :=
  (task_config_base.apply_edit new_DataLoaderConf edit_DataLoaderConf).
Local Abbreviation reachable :=
  (task_config_base.reachable new_DataLoaderConf edit_DataLoaderConf).

(** A list follows its switch: one child when the switch is on, none
    when it is off. *)
Definition follows (a : BoolArg) (l : list Inst) : Prop :=
  (bool_value a = Some true /\ length l = 1%nat)
  \/ (bool_value a = Some false /\ l = []).

Lemma set_train_config_follows (c : TaskConfigBase Heap Inst) :
  is_Some (bool_value (is_trainable c)) ->
  (length (train_dataset_config c) <= 1)%nat ->
  exists l h, set_train_config new_DataLoaderConf c
              = (Ret tt, mkTaskConfigBase (is_trainable c) (is_evaluatable c) l
                           (eval_dataset_config c) h)
              /\ follows (is_trainable c) l.
Proof.
  intros [b Hb] Hlen.
  unfold set_train_config, assign_train_dataset_config, DataLoaderConf_call.
  unfold_M. rewrite Hb. unfold follows. rewrite Hb.
  destruct b; cbn.
  - destruct (train_dataset_config c) as [| d l] eqn:Hl; cbn.
    + change (len (@nil Inst) =? 0) with true. cbv beta iota.
      destruct (new_DataLoaderConf (heap c)) as [d h]. cbn.
      eexists _, _. split; [reflexivity |]. by left.
    + exists (d :: l), (heap c). split; [destruct c; cbn in *; by subst |].
      left. split; [done |]. cbn in *. lia.
  - exists [], (heap c). split; [done | by right].
Qed.

Lemma set_eval_config_follows (c : TaskConfigBase Heap Inst) :
  is_Some (bool_value (is_evaluatable c)) ->
  (length (eval_dataset_config c) <= 1)%nat ->
  exists l h, set_eval_config new_DataLoaderConf c
              = (Ret tt, mkTaskConfigBase (is_trainable c) (is_evaluatable c)
                           (train_dataset_config c) l h)
              /\ follows (is_evaluatable c) l.
Proof.
  intros [b Hb] Hlen.
  unfold set_eval_config, assign_eval_dataset_config, DataLoaderConf_call.
  unfold_M. rewrite Hb. unfold follows. rewrite Hb.
  destruct b; cbn.
  - destruct (eval_dataset_config c) as [| d l] eqn:Hl; cbn.
    + change (len (@nil Inst) =? 0) with true. cbv beta iota.
      destruct (new_DataLoaderConf (heap c)) as [d h]. cbn.
      eexists _, _. split; [reflexivity |]. by left.
    + exists (d :: l), (heap c). split; [destruct c; cbn in *; by subst |].
      left. split; [done |]. cbn in *. lia.
  - exists [], (heap c). split; [done | by right].
Qed.

Lemma follows_length a l : follows a l -> (length l <= 1)%nat.
Proof. intros [[_ ->] | [_ ->]]; cbn; lia. Qed.

Lemma apply_edit_switches e (c : TaskConfigBase Heap Inst) :
  follows (is_trainable c) (train_dataset_config c) ->
  follows (is_evaluatable c) (eval_dataset_config c) ->
  follows (is_trainable (snd (apply_edit e c)))
    (train_dataset_config (snd (apply_edit e c)))
  /\ follows (is_evaluatable (snd (apply_edit e c)))
       (eval_dataset_config (snd (apply_edit e c))).
Proof.
  intros Htrain Heval.
  unfold task_config_base.apply_edit. rewrite run_bind.
  destruct e as [v | v | i e | i e]; cbn.
  - destruct v as [b |]; cbn; [| done].
    edestruct (set_train_config_follows) as (l & h & -> & Hl);
      [by eexists | by eapply follows_length |].
    cbn. done.
  - destruct v as [b |]; cbn; [| done].
    edestruct (set_eval_config_follows) as (l & h & -> & Hl);
      [by eexists | by eapply follows_length |].
    cbn. done.
  - destruct (train_dataset_config c !! i) as [d |]; cbn; [| done].
    by destruct (edit_DataLoaderConf d e (heap c)) as [[[] | err] h].
  - destruct (eval_dataset_config c !! i) as [d |]; cbn; [| done].
    by destruct (edit_DataLoaderConf d e (heap c)) as [[[] | err] h].
Qed.

(** On every reachable [TaskConfigBase], each list follows its switch:
    [train_dataset_config] holds one [DataLoaderConf] when [is_trainable]
    is true and none when it is false, and so for [eval_dataset_config]
    and [is_evaluatable]; whatever the constructor [DataLoaderConf()]
    returns and whatever the edits of the children do to the objects
    they share. *)
Theorem dataset_configs_follow_the_switches (c : TaskConfigBase Heap Inst) :
  reachable c ->
  follows (is_trainable c) (train_dataset_config c)
  /\ follows (is_evaluatable c) (eval_dataset_config c).
Proof.
  induction 1 as [| c e _ [IH1 IH2]]; [| by apply apply_edit_switches].
  split; left; done.
Qed.

(** Switching [is_trainable] off and on again leaves in
    [train_dataset_config] exactly the instance that the call
    [DataLoaderConf()] returns at that moment, on the heap as the edits so
    far have left it: the child that was there is not brought back.
    Switching it on when it is on and the list is not empty changes
    nothing and builds no instance.  Neither touches
    [eval_dataset_config]. *)
Theorem switching_off_and_on_builds_a_new_child (c : TaskConfigBase Heap Inst) :
  apply_edit (edit_is_trainable (Some true))
    (snd (apply_edit (edit_is_trainable (Some false)) c))
  = (Ret tt,
     mkTaskConfigBase (mkBoolArg (Some true)) (is_evaluatable c)
       [fst (new_DataLoaderConf (heap c))] (eval_dataset_config c)
       (snd (new_DataLoaderConf (heap c))))
  /\ (bool_value (is_trainable c) = Some true ->
      train_dataset_config c <> [] ->
      apply_edit (edit_is_trainable (Some true)) c = (Ret tt, c)).
Proof.
  split.
  - unfold task_config_base.apply_edit. rewrite !run_bind. cbn.
    unfold set_train_config, assign_train_dataset_config, DataLoaderConf_call.
    unfold_M. cbn. change (len (@nil Inst) =? 0) with true. cbv beta iota.
    cbn [heap]. by destruct (new_DataLoaderConf (heap c)).
  - intros Hon Hne. unfold task_config_base.apply_edit. rewrite run_bind. cbn.
    unfold set_train_config, assign_train_dataset_config. unfold_M. cbn.
    destruct c as [[v] ev tr el h]. cbn in *. subst v.
    destruct tr; [done |]. done.
Qed.

End TaskConfigBaseFacts.

(** The instances numbered in the order they are built: the heap is the
    number of instances built so far, and an edit of a child leaves it. *)
Definition numbered_new (h : nat) : nat * nat := (h, S h).

Definition numbered_edit (d : nat) (e : dataloader_config.edit) (h : nat)
    : outcome unit * nat := (Ret tt, h).

Lemma dataset_configs_after_switching_off :
  follows
    (task_config_base.is_trainable
       (snd (task_config_base.apply_edit numbered_new numbered_edit
               (task_config_base.edit_is_trainable (Some false))
               (task_config_base.TaskConfigBase_new 0%nat 1%nat 2%nat))))
    (task_config_base.train_dataset_config
       (snd (task_config_base.apply_edit numbered_new numbered_edit
               (task_config_base.edit_is_trainable (Some false))
               (task_config_base.TaskConfigBase_new 0%nat 1%nat 2%nat))))
  /\ follows
       (task_config_base.is_evaluatable
          (snd (task_config_base.apply_edit numbered_new numbered_edit
                  (task_config_base.edit_is_trainable (Some false))
                  (task_config_base.TaskConfigBase_new 0%nat 1%nat 2%nat))))
       (task_config_base.eval_dataset_config
          (snd (task_config_base.apply_edit numbered_new numbered_edit
                  (task_config_base.edit_is_trainable (Some false))
                  (task_config_base.TaskConfigBase_new 0%nat 1%nat 2%nat)))).
Proof.
  apply (dataset_configs_follow_the_switches numbered_new numbered_edit
           (snd (task_config_base.apply_edit numbered_new numbered_edit
                   (task_config_base.edit_is_trainable (Some false))
                   (task_config_base.TaskConfigBase_new 0%nat 1%nat 2%nat)))).
  apply task_config_base.reachable_edit, task_config_base.reachable_new.
Defined.

Lemma switching_off_and_on_with_numbered_instances :
  task_config_base.apply_edit numbered_new numbered_edit
    (task_config_base.edit_is_trainable (Some true))
    (snd (task_config_base.apply_edit numbered_new numbered_edit
            (task_config_base.edit_is_trainable (Some false))
            (task_config_base.TaskConfigBase_new 0%nat 1%nat 2%nat)))
  = (Ret tt,
     task_config_base.mkTaskConfigBase (mkBoolArg (Some true)) (mkBoolArg (Some true))
       [2%nat] [1%nat] 3%nat)
  /\ task_config_base.apply_edit numbered_new numbered_edit
       (task_config_base.edit_is_trainable (Some true))
       (task_config_base.TaskConfigBase_new 0%nat 1%nat 2%nat)
     = (Ret tt, task_config_base.TaskConfigBase_new 0%nat 1%nat 2%nat).
Proof.
  destruct (switching_off_and_on_builds_a_new_child numbered_new numbered_edit
              (task_config_base.TaskConfigBase_new 0%nat 1%nat 2%nat)) as [Hnew Hsame].
  split; [exact Hnew |]. apply Hsame; [reflexivity | discriminate].
Defined.

(** ** [DataLoaderConf]: how the monitors and the edits compose *)

Section Composition.
Import dataloader_config.

(** The store after the loop of [set_worker_indexes], as a function of
    the store before. *)
Fixpoint loop_objs (n : Z) (it : list ref) (o : list (list IndexConf))
    : list (list IndexConf) :=
  match it with
  | [] => o
  | r :: rest =>
      let cur := default [] (o !! r) in
      loop_objs n rest
        (if len cur >? n then o ++ [slice_to n cur]
         else if len cur <? n then
           <[r := cur ++ comprehension IndexConf_new (n - len cur)]> o
         else o)
  end.

Lemma for_worker_indexes_objs n it m :
  for_worker_indexes n it m = (Ret tt, mkMem (loop_objs n it (objs m)) (self m)).
Proof.
  revert m. induction it as [| r it IH]; intros m.
  - by destruct m.
  - cbn [for_worker_indexes loop_objs]. unfold_M. unfold read, write, alloc. unfold_M.
    cbn beta.
    destruct (len (default [] (objs m !! r)) >? n); [by rewrite IH |].
    destruct (len (default [] (objs m !! r)) <? n); by rewrite IH.
Qed.

(** The store before the loop: with the new one-element lists, when the
    outer list grows. *)
Definition objs_resized (np : Z) (m : Mem) : list (list IndexConf) :=
  let wi := worker_indexes (self m) in
  if len wi >? np then objs m
  else if len wi <? np then
    objs m ++ replicate (Z.to_nat (np - len wi)) [IndexConf_new]
  else objs m.

(** [set_worker_indexes] as a function of the store and of the three
    attributes it reads. *)
Lemma set_worker_indexes_fun m np nw :
  int_value (num_path (self m)) = Some np ->
  int_value (num_workers (self m)) = Some nw ->
  set_worker_indexes m =
    (Ret tt,
     mkMem (loop_objs nw (outer_resized np m) (objs_resized np m))
       (with_lists (self m) (path_list (self m)) (path_weight (self m))
          (outer_resized np m))).
Proof.
  intros Hnp Hnw.
  unfold set_worker_indexes, outer_resized, objs_resized, assign_worker_indexes.
  unfold_M. rewrite Hnp, Hnw. cbn.
  destruct (len (worker_indexes (self m)) >? np); cbn.
  - rewrite for_worker_indexes_objs. by destruct m as [o c]; destruct c.
  - destruct (len (worker_indexes (self m)) <? np); cbn.
    + rewrite alloc_each_spec. cbn. rewrite for_worker_indexes_objs.
      by destruct m as [o c]; destruct c.
    + rewrite for_worker_indexes_objs. by destruct m as [o c]; destruct c.
Qed.

(** The two methods decorated for [num_path] write different attributes:
    run in either order on a tree whose two counts are there, they give
    the same result and the same tree. *)
Theorem monitors_of_num_path_commute (m : Mem) (np nw : Z) :
  int_value (num_path (self m)) = Some np ->
  int_value (num_workers (self m)) = Some nw ->
  (set_path_weight;; set_worker_indexes) m = (set_worker_indexes;; set_path_weight) m.
Proof.
  intros Hnp Hnw. rewrite !run_bind.
  rewrite (set_worker_indexes_fun m np nw) by done.
  unfold set_path_weight at 2. unfold assign_path_list, assign_path_weight. unfold_M.
  cbn. rewrite Hnp. cbn.
  unfold set_path_weight, assign_path_list, assign_path_weight. unfold_M.
  rewrite Hnp. cbn.
  destruct m as [o c]; destruct c; cbn in *.
  repeat match goal with
         | |- context [if (len ?l >? np) then _ else _] =>
             destruct (len l >? np) eqn:?; cbn
         | |- context [if (len ?l <? np) then _ else _] =>
             destruct (len l <? np) eqn:?; cbn
         end;
    match goal with
    | |- set_worker_indexes ?m1 = _ =>
        rewrite (set_worker_indexes_fun m1 np nw) by done; reflexivity
    end.
Qed.

Lemma monitors_commute_after_storing_num_path :
  (set_path_weight;; set_worker_indexes)
    (snd (store_field (edit_num_path (Some 3)) DataLoaderConf_new))
  = (set_worker_indexes;; set_path_weight)
      (snd (store_field (edit_num_path (Some 3)) DataLoaderConf_new)).
Proof.
  apply (monitors_of_num_path_commute
           (snd (store_field (edit_num_path (Some 3)) DataLoaderConf_new)) 3 1);
    reflexivity.
Defined.

(** [self] with [num_workers] holding [n]. *)
Definition with_num_workers (n : Z) (c : DataLoaderConf) : DataLoaderConf :=
  mkDataLoaderConf (batch_size c) (num_path c) (path_list c) (path_weight c)
    (scanner_type c) (seed c) (shuffle c) (prefetch_factor c) (ignore_error c)
    (qps c) (instruct_timeout c) (worker_timeout c)
    (mkIntArg (Some n) (Some 1) None false) (num_ranks c) (rank_idx c)
    (worker_indexes c).

Lemma edit_num_workers_exact m n :
  valid (self m) -> shape m -> 1 <= n ->
  exists np m',
    int_value (num_path (self m)) = Some np
    /\ apply_edit (edit_num_workers (Some n)) m = (Ret tt, m')
    /\ self m' = with_lists (with_num_workers n (self m)) (path_list (self m))
                   (path_weight (self m)) (outer_resized np m)
    /\ len (worker_indexes (self m')) = np
    /\ worker_indexes_value m' =
         map (grown n)
           (Spec.resize (Z.to_nat np) [IndexConf_new] (worker_indexes_value m)).
Proof.
  intros Hv [Hok _] Hn.
  destruct (valid_num_path _ Hv) as (_ & _ & _ & np & Hnp & Hge).
  exists np.
  unfold apply_edit. rewrite run_bind, store_field_num_workers by done.
  destruct (Z.leb_spec 1 n); [| lia]. cbn [monitors].
  edestruct (set_worker_indexes_exact) as (m' & -> & Hself & _ & Hlen & Hval);
    [exact Hnp | reflexivity | lia | exact Hok |].
  exists m'. split; [done |]. split; [done |]. split; [exact Hself |].
  split; [exact Hlen | exact Hval].
Qed.

Lemma edit_num_path_exact m n :
  valid (self m) -> 1 <= n ->
  apply_edit (edit_num_path (Some n)) m = (Ret tt, mkMem (objs m) (after_num_path n m)).
Proof.
  intros Hv Hn.
  unfold apply_edit. rewrite run_bind, store_field_num_path by done.
  destruct (Z.leb_spec 1 n); [| lia]. cbn [monitors].
  by rewrite (set_path_weight_spec _ n) by (reflexivity || lia).
Qed.

Lemma grown_length n l : n <= len (grown n l).
Proof.
  unfold grown. destruct (Z.ltb_spec (len l) n); [| done].
  unfold len in *. rewrite length_app, length_comprehension. lia.
Qed.

Lemma grown_long n l : n <= len l -> grown n l = l.
Proof. intros Hl. unfold grown. destruct (Z.ltb_spec (len l) n); [lia | done]. Qed.

Lemma grown_grown n l : grown n (grown n l) = grown n l.
Proof. apply grown_long, grown_length. Qed.

Lemma resize_le {A} (k : nat) (d : A) l : (k <= length l)%nat -> Spec.resize k d l = take k l.
Proof.
  intros Hk. unfold Spec.resize. case_decide; [done |].
  rewrite decide_False by lia. by rewrite take_ge by lia.
Qed.

Lemma resize_ge {A} (k : nat) (d : A) l :
  (length l <= k)%nat -> Spec.resize k d l = l ++ replicate (k - length l) d.
Proof.
  intros Hk. unfold Spec.resize. rewrite decide_False by lia. case_decide; [done |].
  replace (k - length l)%nat with 0%nat by lia. by rewrite app_nil_r.
Qed.

Lemma resize_resize {A} (k : nat) (d : A) l :
  Spec.resize k d (Spec.resize k d l) = Spec.resize k d l.
Proof. apply resize_same, length_resize. Qed.

(** Cutting [num_path] down to [k] and raising it to [n] afterwards keeps
    the first [k] paths and weights and fills the rest with defaults:
    what was cut off does not come back. *)
Theorem cut_then_grown_lists_get_defaults (m : Mem) (k n : Z) :
  reachable m -> 1 <= k -> k <= n ->
  k <= len (path_list (self m)) -> k <= len (path_weight (self m)) ->
  path_list (self (apply_edits [edit_num_path (Some k); edit_num_path (Some n)] m))
  = take (Z.to_nat k) (path_list (self m))
    ++ replicate (Z.to_nat (n - k)) StrArg_path
  /\ path_weight (self (apply_edits [edit_num_path (Some k); edit_num_path (Some n)] m))
    = take (Z.to_nat k) (path_weight (self m))
      ++ replicate (Z.to_nat (n - k)) FloatArg_weight.
Proof.
  intros Hr Hk Hkn Hpl Hpw. pose proof (reachable_valid _ Hr) as Hv.
  unfold apply_edits. cbn [fold_left].
  destruct (apply_edit_num_path_accepted m k Hv Hk) as (o1 & Hrun1 & _).
  pose proof (apply_edit_valid (edit_num_path (Some k)) m Hv) as Hv1.
  rewrite Hrun1 in *. cbn [snd] in *.
  destruct (apply_edit_num_path_accepted _ n Hv1 ltac:(lia)) as (o2 & -> & _).
  cbn [snd self after_num_path path_list path_weight]. unfold len in *.
  rewrite (resize_le _ _ (path_list (self m))) by lia.
  rewrite (resize_le _ _ (path_weight (self m))) by lia.
  rewrite !resize_ge by (rewrite length_take; lia).
  rewrite !length_take.
  split; do 2 f_equal; lia.
Qed.

Lemma three_paths_cut_to_one_then_grown_to_three :
  path_list (self (apply_edits [edit_num_path (Some 1); edit_num_path (Some 3)]
                     (apply_edits [edit_num_path (Some 3);
                                   edit_path_list 2 (Some "c.jsonl")]
                        DataLoaderConf_new)))
  = take (Z.to_nat 1)
      (path_list (self (apply_edits [edit_num_path (Some 3);
                                     edit_path_list 2 (Some "c.jsonl")]
                          DataLoaderConf_new)))
    ++ replicate (Z.to_nat (3 - 1)) StrArg_path
  /\ path_weight (self (apply_edits [edit_num_path (Some 1); edit_num_path (Some 3)]
                         (apply_edits [edit_num_path (Some 3);
                                       edit_path_list 2 (Some "c.jsonl")]
                            DataLoaderConf_new)))
    = take (Z.to_nat 1)
        (path_weight (self (apply_edits [edit_num_path (Some 3);
                                         edit_path_list 2 (Some "c.jsonl")]
                              DataLoaderConf_new)))
      ++ replicate (Z.to_nat (3 - 1)) FloatArg_weight.
Proof.
  apply (cut_then_grown_lists_get_defaults
           (apply_edits [edit_num_path (Some 3); edit_path_list 2 (Some "c.jsonl")]
              DataLoaderConf_new) 1 3).
  - apply (reachable_edit _ (edit_path_list 2 (Some "c.jsonl"))).
    apply (reachable_edit _ (edit_num_path (Some 3))).
    apply reachable_new.
  - lia.
  - lia.
  - vm_compute. discriminate.
  - vm_compute. discriminate.
Defined.

Lemma outer_resized_same np m :
  len (worker_indexes (self m)) = np -> outer_resized np m = worker_indexes (self m).
Proof.
  intros Hlen. unfold outer_resized.
  destruct (Z.gtb_spec (len (worker_indexes (self m))) np); [lia |].
  by destruct (Z.ltb_spec (len (worker_indexes (self m))) np); [lia |].
Qed.

Lemma length_worker_indexes_value m :
  length (worker_indexes_value m) = length (worker_indexes (self m)).
Proof. unfold worker_indexes_value. apply length_map. Qed.

(** An accepted count edit reaches a fixed point at once: the same edit
    again is accepted and leaves every field, every list and every inner
    list of [worker_indexes] as the first one left them.  For [num_path]
    the lists that settle are [path_list] and [path_weight], resized by
    [set_path_weight]; for [num_workers] it is [worker_indexes], resized
    and extended by [set_worker_indexes]. *)
Theorem a_repeated_count_edit_changes_nothing (m : Mem) (n : Z) :
  reachable m -> 1 <= n ->
  (exists m2,
     apply_edit (edit_num_path (Some n)) (snd (apply_edit (edit_num_path (Some n)) m))
     = (Ret tt, m2)
     /\ self m2 = self (snd (apply_edit (edit_num_path (Some n)) m))
     /\ worker_indexes_value m2
        = worker_indexes_value (snd (apply_edit (edit_num_path (Some n)) m)))
  /\ (exists m2,
       apply_edit (edit_num_workers (Some n))
         (snd (apply_edit (edit_num_workers (Some n)) m))
       = (Ret tt, m2)
       /\ self m2 = self (snd (apply_edit (edit_num_workers (Some n)) m))
       /\ worker_indexes_value m2
          = worker_indexes_value (snd (apply_edit (edit_num_workers (Some n)) m))).
Proof.
  intros Hr Hn. pose proof (reachable_valid _ Hr) as Hv.
  pose proof (reachable_shape _ Hr) as Hs. split.
  - pose proof (apply_edit_valid (edit_num_path (Some n)) m Hv) as Hv1.
    rewrite (edit_num_path_exact m n Hv Hn) in *. cbn [snd] in *.
    rewrite (edit_num_path_exact _ n Hv1 Hn).
    eexists. split; [reflexivity |]. split; [| reflexivity].
    cbn [self objs]. unfold after_num_path. cbn [self batch_size num_path path_list
      path_weight scanner_type seed shuffle prefetch_factor ignore_error qps
      instruct_timeout worker_timeout num_workers num_ranks rank_idx worker_indexes].
    by rewrite !resize_resize.
  - pose proof (apply_edit_valid (edit_num_workers (Some n)) m Hv) as Hv1.
    pose proof (apply_edit_shape (edit_num_workers (Some n)) m Hv Hs) as Hs1.
    destruct (edit_num_workers_exact m n Hv Hs Hn)
      as (np & m1 & Hnp & Hrun1 & Hself1 & Hlen1 & Hval1).
    rewrite Hrun1 in *. cbn [snd] in *.
    destruct (edit_num_workers_exact m1 n Hv1 Hs1 Hn)
      as (np' & m2 & Hnp' & -> & Hself2 & _ & Hval2).
    assert (np' = np) as ->.
    { rewrite Hself1 in Hnp'. cbn in Hnp'. congruence. }
    exists m2. split; [done |]. split.
    + rewrite Hself2, (outer_resized_same np m1 Hlen1), Hself1.
      by destruct (self m).
    + rewrite Hval2.
      rewrite resize_same by (rewrite length_worker_indexes_value; unfold len in *; lia).
      rewrite Hval1, map_map. apply map_ext. intros l. apply grown_grown.
Qed.

Lemma num_path_three_twice_on_a_fresh_tree :
  (exists m2,
     apply_edit (edit_num_path (Some 3))
       (snd (apply_edit (edit_num_path (Some 3)) DataLoaderConf_new))
     = (Ret tt, m2)
     /\ self m2 = self (snd (apply_edit (edit_num_path (Some 3)) DataLoaderConf_new))
     /\ worker_indexes_value m2
        = worker_indexes_value (snd (apply_edit (edit_num_path (Some 3))
                                       DataLoaderConf_new)))
  /\ (exists m2,
       apply_edit (edit_num_workers (Some 3))
         (snd (apply_edit (edit_num_workers (Some 3)) DataLoaderConf_new))
       = (Ret tt, m2)
       /\ self m2 = self (snd (apply_edit (edit_num_workers (Some 3)) DataLoaderConf_new))
       /\ worker_indexes_value m2
          = worker_indexes_value (snd (apply_edit (edit_num_workers (Some 3))
                                         DataLoaderConf_new))).
Proof.
  apply (a_repeated_count_edit_changes_nothing DataLoaderConf_new 3).
  - apply reachable_new.
  - lia.
Defined.

End Composition.

(** ** [DataLoaderConf]: the shape of the loader that is built *)

Section LoaderShape.
Import dataloader_config.

(** The lists are as long as [num_path] says, and every inner list of
    [worker_indexes] has at least [num_workers] entries. *)
Definition lengths_inv (m : Mem) : Prop :=
  exists np nw,
    int_value (num_path (self m)) = Some np
    /\ int_value (num_workers (self m)) = Some nw
    /\ len (path_list (self m)) = np
    /\ len (path_weight (self m)) = np
    /\ Forall (fun k => nw <= Z.of_nat k) (map length (worker_indexes_value m)).

Definition is_count_edit (e : edit) : bool :=
  match e with
  | edit_num_path _ | edit_num_workers _ => true
  | _ => false
  end.

(** An edit of a field that is not a count leaves the counts and every
    length alone. *)
Lemma other_edits_keep_lengths e m :
  is_count_edit e = false ->
  num_path (self (snd (apply_edit e m))) = num_path (self m)
  /\ num_workers (self (snd (apply_edit e m))) = num_workers (self m)
  /\ length (path_list (self (snd (apply_edit e m)))) = length (path_list (self m))
  /\ length (path_weight (self (snd (apply_edit e m)))) = length (path_weight (self m))
  /\ map length (worker_indexes_value (snd (apply_edit e m)))
     = map length (worker_indexes_value m).
Proof.
  intros He. unfold apply_edit. rewrite run_bind.
  destruct m as [o c]; destruct c.
  destruct e; try discriminate He; cbn;
    repeat match goal with
    | |- context [stored _ ?x _] => destruct x eqn:?; cbn
    | |- context [match ?x !! ?i with _ => _ end] => destruct (x !! i) eqn:?; cbn
    end; rewrite ?length_insert; try done.
  (* one entry of one inner list *)
  repeat split. unfold worker_indexes_value. cbn.
  rewrite !map_map. apply map_ext. intros r'.
  match goal with H : worker_indexes0 !! _ = Some ?r |- _ => rename r into r0 end.
  destruct (decide (r0 = r')) as [<- | Hne].
  - destruct (o !! r0) as [inner |] eqn:Hinner; cbn in *; [| done].
    rewrite list_lookup_insert_eq by (by eapply lookup_lt_Some).
    cbn. by rewrite length_insert.
  - by rewrite list_lookup_insert_ne.
Qed.

Lemma apply_edit_lengths e m :
  valid (self m) -> shape m -> lengths_inv m -> lengths_inv (snd (apply_edit e m)).
Proof.
  intros Hv Hs (np & nw & Hnp & Hnw & Hpl & Hpw & Hin).
  destruct (is_count_edit e) eqn:He.
  2: { destruct (other_edits_keep_lengths e m He) as (H1 & H2 & H3 & H4 & H5).
       exists np, nw. unfold len. rewrite H1, H2, H3, H4, H5. done. }
  assert (Hsame : lengths_inv m) by (exists np, nw; done).
  destruct e as [| v | | | | | | | | | | | v | | |]; try discriminate He.
  - (* num_path *)
    destruct v as [n |].
    2: { unfold apply_edit. rewrite run_bind. destruct m as [o c]; destruct c. cbn.
         destruct (valid_num_path _ Hv) as (_ & _ & Hnone & _). cbn in Hnone.
         unfold IntArg_set. cbn. rewrite Hnone. exact Hsame. }
    destruct (Z.lt_ge_cases n 1) as [Hlt | Hge].
    { by rewrite apply_edit_num_path_rejected. }
    rewrite (edit_num_path_exact m n Hv Hge). cbn [snd].
    exists n, nw. cbn [self after_num_path num_path num_workers path_list path_weight
                       int_value].
    unfold len. rewrite !length_resize. repeat split; try done; try lia.
  - (* num_workers *)
    destruct v as [n |].
    2: { unfold apply_edit. rewrite run_bind. destruct m as [o c]; destruct c. cbn.
         destruct (valid_num_workers _ Hv) as (_ & _ & Hnone & _). cbn in Hnone.
         unfold IntArg_set. cbn. rewrite Hnone. exact Hsame. }
    destruct (Z.lt_ge_cases n 1) as [Hlt | Hge].
    { unfold apply_edit. rewrite run_bind, store_field_num_workers by done.
      destruct (Z.leb_spec 1 n); [lia | exact Hsame]. }
    destruct (edit_num_workers_exact m n Hv Hs Hge)
      as (np' & m' & Hnp' & -> & Hself & _ & Hval).
    assert (np' = np) as -> by congruence.
    exists np, n. cbn [snd]. rewrite Hself, Hval. cbn.
    repeat split; try done.
    rewrite map_map. apply Forall_forall. intros k [l [-> _]]%list_elem_of_fmap.
    apply grown_length.
Qed.

Lemma reachable_lengths m : reachable m -> lengths_inv m.
Proof.
  induction 1 as [| m e Hr IH].
  - exists 1, 1. repeat split. repeat constructor. done.
  - apply apply_edit_lengths;
      [by apply reachable_valid | by apply reachable_shape | done].
Qed.

(** On every reachable tree, with the scanner class registered,
    [init_dataloader] builds a loader with as many paths and as many
    weights as [num_path] says, at least one inner list of indexes, and at
    least [num_workers] indexes in every inner list.  The number of inner
    lists is not tied to [num_path]: it is what [num_path] was when
    [num_workers] was last edited, so after [num_path = 3] alone on a fresh
    tree the loader gets three paths and one inner list of indexes. *)
Theorem the_loader_has_one_weight_per_path
    (registered : list string) (m : Mem) (f g h : option lmfuser_data.callable) :
  reachable m -> "C4Scanner" ∈ registered ->
  (exists dl np nw idx,
     init_dataloader registered f g h m = (Ret dl, m)
     /\ int_value (num_path (self m)) = Some np
     /\ int_value (num_workers (self m)) = Some nw
     /\ len (lmfuser_data.path_list dl) = np
     /\ len (lmfuser_data.distributor_weights dl) = np
     /\ lmfuser_data.indexes dl = lmfuser_data.given idx
     /\ 1 <= len idx
     /\ Forall (fun l => nw <= len l) idx)
  /\ (exists dl,
        init_dataloader ["C4Scanner"] None None None
          (apply_edits [edit_num_path (Some 3)] DataLoaderConf_new)
        = (Ret dl, apply_edits [edit_num_path (Some 3)] DataLoaderConf_new)
        /\ len (lmfuser_data.path_list dl) = 3
        /\ len (lmfuser_data.distributor_weights dl) = 3
        /\ lmfuser_data.indexes dl
           = lmfuser_data.given [[lmfuser_data.mkIndex (Some 0) (Some 0) (Some 0)]]).
Proof.
  intros Hr Hreg. pose proof (reachable_valid _ Hr) as Hv.
  split; [| eexists; vm_compute; repeat split; reflexivity].
  destruct (reachable_shape _ Hr) as [_ Hwi].
  destruct (reachable_lengths _ Hr) as (np & nw & Hnp & Hnw & Hpl & Hpw & Hin).
  destruct (valid_batch_size _ Hv) as (_ & _ & _ & bs & Hbs & _).
  pose proof (valid_scanner_type _ Hv) as Hsc.
  unfold init_dataloader. unfold_M. rewrite Hbs, Hsc. cbn.
  unfold lmfuser_data.get_subclass. rewrite bool_decide_true by done.
  eexists _, np, nw, (map (map to_index) (worker_indexes_value m)).
  split; [reflexivity |]. cbn [lmfuser_data.path_list lmfuser_data.distributor_weights
                               lmfuser_data.indexes].
  unfold len in *. rewrite !length_map, length_worker_indexes_value.
  repeat split; try done.
  apply Forall_forall. intros l [inner [-> Hinner]]%list_elem_of_fmap.
  rewrite length_map. eapply Forall_forall in Hin; [exact Hin |].
  apply list_elem_of_fmap. by exists inner.
Qed.

Lemma the_loader_after_three_edits :
  (exists dl np nw idx,
     init_dataloader ["C4Scanner"] None None None
       (apply_edits [edit_num_path (Some 3); edit_num_workers (Some 2);
                     edit_num_path (Some 4)] DataLoaderConf_new)
     = (Ret dl,
        apply_edits [edit_num_path (Some 3); edit_num_workers (Some 2);
                     edit_num_path (Some 4)] DataLoaderConf_new)
     /\ int_value (num_path (self
          (apply_edits [edit_num_path (Some 3); edit_num_workers (Some 2);
                        edit_num_path (Some 4)] DataLoaderConf_new))) = Some np
     /\ int_value (num_workers (self
          (apply_edits [edit_num_path (Some 3); edit_num_workers (Some 2);
                        edit_num_path (Some 4)] DataLoaderConf_new))) = Some nw
     /\ len (lmfuser_data.path_list dl) = np
     /\ len (lmfuser_data.distributor_weights dl) = np
     /\ lmfuser_data.indexes dl = lmfuser_data.given idx
     /\ 1 <= len idx
     /\ Forall (fun l => nw <= len l) idx)
  /\ (exists dl,
        init_dataloader ["C4Scanner"] None None None
          (apply_edits [edit_num_path (Some 3)] DataLoaderConf_new)
        = (Ret dl, apply_edits [edit_num_path (Some 3)] DataLoaderConf_new)
        /\ len (lmfuser_data.path_list dl) = 3
        /\ len (lmfuser_data.distributor_weights dl) = 3
        /\ lmfuser_data.indexes dl
           = lmfuser_data.given [[lmfuser_data.mkIndex (Some 0) (Some 0) (Some 0)]]).
Proof.
  apply (the_loader_has_one_weight_per_path ["C4Scanner"]
           (apply_edits [edit_num_path (Some 3); edit_num_workers (Some 2);
                         edit_num_path (Some 4)] DataLoaderConf_new)
           None None None).
  - apply (reachable_edit _ (edit_num_path (Some 4))).
    apply (reachable_edit _ (edit_num_workers (Some 2))).
    apply (reachable_edit _ (edit_num_path (Some 3))).
    apply reachable_new.
  - apply list_elem_of_here.
Defined.

End LoaderShape.

(** ** [TaskSelector]: the name and the class of the child *)

Section SelectorInvariant.
Import task.

(** Every class of the registry builds instances of its own name. *)
Definition registry_named (reg : Registry) : Prop :=
  forall name instance,
    all_subclass_map reg !! name = Some instance -> class_name instance = name.

(** The selectors an editor can reach: by selecting a name, and by
    editing the child. *)
Inductive reachable_selector (reg : Registry) : TaskSelector -> Prop :=
| reachable_selector_new : reachable_selector reg TaskSelector_new
| reachable_selector_select s v :
    reachable_selector reg s -> reachable_selector reg (snd (set_task_name reg v s))
| reachable_selector_child s e :
    reachable_selector reg s ->
    reachable_selector reg
      (mkTaskSelector (task_name s) (snd (apply_edit reg e (conf s)))).

Lemma set_train_path_list_class_name t :
  class_name (snd (set_train_path_list t)) = class_name t.
Proof.
  unfold set_train_path_list, assert_isinstance_int.
  unfold assign_train_data_path_list, assign_train_data_weights. unfold_M.
  destruct (int_value (num_train_data_path t)) as [num |]; cbn; [| done].
  destruct (len (train_data_path_list t) >? num); cbn; [done |].
  by destruct (len (train_data_path_list t) <? num).
Qed.

Lemma set_eval_path_list_class_name t :
  class_name (snd (set_eval_path_list t)) = class_name t.
Proof.
  unfold set_eval_path_list, assert_isinstance_int.
  unfold assign_eval_data_path_list, assign_eval_data_weights. unfold_M.
  destruct (int_value (num_eval_data_path t)) as [num |]; cbn; [| done].
  destruct (len (eval_data_path_list t) >? num); cbn; [done |].
  by destruct (len (eval_data_path_list t) <? num).
Qed.

Lemma apply_edit_class_name reg e t :
  class_name (snd (apply_edit reg e t)) = class_name t.
Proof.
  unfold apply_edit. rewrite run_bind.
  assert (Hstore : class_name (snd (store_field reg e t)) = class_name t).
  { destruct t. cbn.
    destruct e; cbn;
      repeat match goal with
      | |- context [stored _ ?x _] => destruct x eqn:?; cbn
      | |- context [match ?x !! ?i with _ => _ end] => destruct (x !! i) eqn:?; cbn
      end; done. }
  destruct (store_field reg e t) as [[[] | err] t1]; cbn [snd] in *; [| done].
  destruct e; cbn [monitors]; try done.
  - by rewrite set_train_path_list_class_name.
  - by rewrite set_eval_path_list_class_name.
Qed.

(** Selecting a name, case by case, for a selector whose options are
    [task_list()]. *)
Lemma set_task_name_cases reg s name :
  opt_source (task_name s) = by_fn task_list ->
  set_task_name reg (Some name) s =
    match all_subclass_map reg !! name with
    | None => (Raise (ValidationError "task_name"), s)
    | Some instance =>
        (Ret tt,
         mkTaskSelector (mkOptionArg (Some name) (by_fn task_list))
           (if bool_decide (name = class_name (conf s)) then conf s else instance))
    end.
Proof.
  intros Hsrc. unfold set_task_name. rewrite run_bind.
  unfold store_task_name, OptionArg_set, OptionArg_accepts, option_set.
  rewrite Hsrc. cbn [option_names].
  destruct (all_subclass_map reg !! name) as [instance |] eqn:Hreg.
  - rewrite bool_decide_true by (apply elem_of_all_subclass_names; by rewrite Hreg).
    unfold change_conf, construct, assign_conf. unfold_M. cbn.
    destruct (decide (name = class_name (conf s))) as [Hsame | Hdiff].
    + rewrite (bool_decide_true _ Hsame).
      by rewrite bool_decide_false by (intros Hne; by apply Hne).
    + rewrite (bool_decide_false _ Hdiff).
      by rewrite bool_decide_true, Hreg by done.
  - rewrite bool_decide_false; [done |].
    rewrite elem_of_all_subclass_names, Hreg. by intros [? ?].
Qed.

(** With a registry whose classes build instances of their own name, on
    every reachable selector [task_name] holds the name of the class of
    the current child, and its options are [task_list()]. *)
Theorem the_name_is_the_class_of_the_child (reg : Registry) (s : TaskSelector) :
  registry_named reg ->
  reachable_selector reg s ->
  opt_value (task_name s) = Some (class_name (conf s))
  /\ opt_source (task_name s) = by_fn task_list.
Proof.
  intros Hnamed. induction 1 as [| s v _ [IHv IHs] | s e _ [IHv IHs]].
  - done.
  - destruct v as [name |].
    + rewrite (set_task_name_cases reg s name IHs).
      destruct (all_subclass_map reg !! name) as [instance |] eqn:Hreg; [| done].
      cbn. split; [| done]. case_bool_decide as Hsame; [by rewrite Hsame |].
      by rewrite (Hnamed name instance Hreg).
    + unfold set_task_name. rewrite run_bind. cbn. done.
  - cbn. by rewrite apply_edit_class_name.
Qed.

Lemma C4_registry_named : registry_named C4_registry.
Proof.
  intros name instance. unfold C4_registry. cbn.
  intros [<- <-]%lookup_singleton_Some. reflexivity.
Qed.

Lemma the_name_after_an_edit_and_a_selection :
  opt_value (task_name
               (snd (set_task_name C4_registry (Some "Task")
                       (mkTaskSelector (task_name TaskSelector_new)
                          (snd (apply_edit C4_registry (edit_num_train_data_path (Some 2))
                                  (conf TaskSelector_new)))))))
  = Some (class_name
            (conf (snd (set_task_name C4_registry (Some "Task")
                          (mkTaskSelector (task_name TaskSelector_new)
                             (snd (apply_edit C4_registry
                                     (edit_num_train_data_path (Some 2))
                                     (conf TaskSelector_new))))))))
  /\ opt_source (task_name
                  (snd (set_task_name C4_registry (Some "Task")
                          (mkTaskSelector (task_name TaskSelector_new)
                             (snd (apply_edit C4_registry
                                     (edit_num_train_data_path (Some 2))
                                     (conf TaskSelector_new)))))))
     = by_fn task_list.
Proof.
  apply (the_name_is_the_class_of_the_child C4_registry).
  - apply C4_registry_named.
  - apply reachable_selector_select, reachable_selector_child, reachable_selector_new.
Defined.

(** Selecting another registered class and then the first one again
    gives the instance the constructor of the first class returns: the
    child that was there before, with its edits, does not come back. *)
Theorem selecting_away_and_back_resets_the_child
    (reg : Registry) (s : TaskSelector) (first other : string)
    (first_instance other_instance : TaskBase) :
  opt_source (task_name s) = by_fn task_list ->
  class_name (conf s) = first ->
  all_subclass_map reg !! first = Some first_instance ->
  all_subclass_map reg !! other = Some other_instance ->
  class_name other_instance = other ->
  first <> other ->
  set_task_name reg (Some first) (snd (set_task_name reg (Some other) s))
  = (Ret tt, mkTaskSelector (mkOptionArg (Some first) (by_fn task_list)) first_instance).
Proof.
  intros Hsrc Hcls Hfirst Hother Hname Hne.
  rewrite (set_task_name_cases reg s other Hsrc), Hother. cbn [snd].
  rewrite set_task_name_cases by done. rewrite Hfirst. cbn.
  rewrite (bool_decide_false (other = class_name (conf s))) by congruence.
  by rewrite bool_decide_false by congruence.
Qed.

Lemma selecting_Other_and_Task_again :
  set_task_name
    (mkRegistry ["C4Scanner"]
       (<["Other" := TaskBase_new "Other"]> {["Task" := Task_new]}))
    (Some "Task")
    (snd (set_task_name
            (mkRegistry ["C4Scanner"]
               (<["Other" := TaskBase_new "Other"]> {["Task" := Task_new]}))
            (Some "Other")
            (mkTaskSelector (task_name TaskSelector_new)
               (snd (apply_edit
                       (mkRegistry ["C4Scanner"]
                          (<["Other" := TaskBase_new "Other"]> {["Task" := Task_new]}))
                       (edit_num_train_data_path (Some 5)) Task_new)))))
  = (Ret tt, mkTaskSelector (mkOptionArg (Some "Task") (by_fn task_list)) Task_new).
Proof.
  apply (selecting_away_and_back_resets_the_child
           (mkRegistry ["C4Scanner"]
              (<["Other" := TaskBase_new "Other"]> {["Task" := Task_new]}))
           (mkTaskSelector (task_name TaskSelector_new)
              (snd (apply_edit
                      (mkRegistry ["C4Scanner"]
                         (<["Other" := TaskBase_new "Other"]> {["Task" := Task_new]}))
                      (edit_num_train_data_path (Some 5)) Task_new)))
           "Task" "Other" Task_new (TaskBase_new "Other")).
  - reflexivity.
  - reflexivity.
  - vm_compute. reflexivity.
  - vm_compute. reflexivity.
  - reflexivity.
  - discriminate.
Defined.

End SelectorInvariant.

(** ** [DataLoaderConf]: the values handed to the loader stay in bounds *)

Section LoaderBounds.
Import dataloader_config.

(** A weight, as the class and [set_path_weight] declare it
    ([FloatArg(1.0, min_value=0.0, max_value=1.0)]), holding a value
    between the two bounds. *)
Definition weight_ok (a : FloatArg) : Prop :=
  float_min_value a = Some 0.0%float /\ float_max_value a = Some 1.0%float
  /\ float_allow_none a = false
  /\ exists x, float_value a = Some x
               /\ PrimFloat.leb 0.0%float x = true /\ PrimFloat.leb x 1.0%float = true.

(** [qps] and the two timeouts
    ([FloatArg(None, min_value=0.1, allow_none=True)]): no value, or one
    from the bound up. *)
Definition rate_ok (a : FloatArg) : Prop :=
  float_min_value a = Some 0.1%float /\ float_max_value a = None
  /\ (float_value a = None
      \/ exists x, float_value a = Some x /\ PrimFloat.leb 0.1%float x = true).

(** An [IndexConf] whose three fields are as declared. *)
Definition index_ok (ic : IndexConf) : Prop :=
  IntArg_declared 0 (epoch ic) /\ IntArg_declared 0 (part ic) /\ IntArg_declared 0 (row ic).

Definition bounds_inv (m : Mem) : Prop :=
  Forall weight_ok (path_weight (self m))
  /\ rate_ok (qps (self m))
  /\ rate_ok (instruct_timeout (self m))
  /\ rate_ok (worker_timeout (self m))
  /\ Forall (Forall index_ok) (objs m).

Lemma weight_ok_default : weight_ok FloatArg_weight.
Proof. repeat split. by exists 1.0%float. Qed.

Lemma index_ok_default : index_ok IndexConf_new.
Proof. repeat split; eexists; (split; [reflexivity | lia]). Qed.

Lemma FloatArg_set_weight name v a a' :
  weight_ok a -> FloatArg_set name v a = Ret a' -> weight_ok a'.
Proof.
  intros (Hmin & Hmax & Hnone & _). unfold FloatArg_set, FloatArg_accepts.
  destruct v as [x |]; [| by rewrite Hnone].
  rewrite Hmin, Hmax. unfold in_range_float.
  destruct (PrimFloat.leb 0.0%float x) eqn:Hlo; cbn; [| done].
  destruct (PrimFloat.leb x 1.0%float) eqn:Hhi; cbn; [| done].
  intros [= <-]. cbn. repeat split; try done. by exists x.
Qed.

Lemma FloatArg_set_rate name v a a' :
  rate_ok a -> FloatArg_set name v a = Ret a' -> rate_ok a'.
Proof.
  intros (Hmin & Hmax & _). unfold FloatArg_set, FloatArg_accepts.
  destruct v as [x |].
  - rewrite Hmin, Hmax. unfold in_range_float.
    destruct (PrimFloat.leb 0.1%float x) eqn:Hlo; cbn; [| done].
    intros [= <-]. cbn. repeat split; try done. right. by exists x.
  - destruct (float_allow_none a); [| done].
    intros [= <-]. cbn. repeat split; try done. by left.
Qed.

Lemma IndexConf_set_ok f v ic ic' :
  index_ok ic -> IndexConf_set f v ic = Ret ic' -> index_ok ic'.
Proof.
  intros (He & Hp & Hr). unfold IndexConf_set.
  destruct f;
    match goal with
    | |- context [IntArg_set ?n v ?a] => destruct (IntArg_set n v a) as [a' | err] eqn:Hset
    end; try done; intros [= <-];
    eapply IntArg_set_declared in Hset; try done; destruct Hset as [Hset _];
    (split; [| split]); cbn; done.
Qed.

Lemma loop_objs_ok n it o :
  Forall (Forall index_ok) o -> Forall (Forall index_ok) (loop_objs n it o).
Proof.
  revert o. induction it as [| r it IH]; intros o Ho; [done |].
  cbn [loop_objs]. apply IH.
  assert (Hcur : Forall index_ok (default [] (o !! r))).
  { destruct (o !! r) as [l |] eqn:Hl; cbn; [| constructor].
    eapply Forall_lookup_1; [exact Ho | exact Hl]. }
  destruct (len (default [] (o !! r)) >? n).
  - apply Forall_app. split; [done |]. constructor; [| constructor].
    unfold slice_to. destruct (0 <=? n); by apply Forall_take.
  - destruct (len (default [] (o !! r)) <? n); [| done].
    apply Forall_insert; [done |]. apply Forall_app. split; [done |].
    apply Forall_replicate, index_ok_default.
Qed.

Ltac split_bounds := refine (conj _ (conj _ (conj _ (conj _ _)))); try done.

Lemma store_field_bounds e m : bounds_inv m -> bounds_inv (snd (store_field e m)).
Proof.
  intros Hb. pose proof Hb as (Hw & Hq & Hi & Ht & Ho).
  destruct m as [o c]; destruct c. cbn in *.
  destruct e; cbn;
    repeat match goal with
    | |- context [stored _ ?x _] => destruct x eqn:?; cbn
    | |- context [match ?x !! ?i with _ => _ end] => destruct (x !! i) eqn:?; cbn
    end; try exact Hb; unfold bounds_inv; cbn; split_bounds.
  - (* path_weight[i] *)
    apply Forall_insert; [done |].
    eapply FloatArg_set_weight; [| eassumption].
    eapply Forall_lookup_1; [exact Hw | eassumption].
  - eapply FloatArg_set_rate; [| eassumption]; done.
  - eapply FloatArg_set_rate; [| eassumption]; done.
  - eapply FloatArg_set_rate; [| eassumption]; done.
  - (* worker_indexes[i][j] *)
    match goal with H : worker_indexes0 !! _ = Some ?r |- _ => rename r into r0 end.
    assert (Hinner : Forall index_ok (default [] (o !! r0))).
    { destruct (o !! r0) as [l |] eqn:Hl; cbn; [| constructor].
      eapply Forall_lookup_1; [exact Ho | exact Hl]. }
    apply Forall_insert; [done |]. apply Forall_insert; [done |].
    eapply IndexConf_set_ok; [| eassumption].
    eapply Forall_lookup_1; [exact Hinner | eassumption].
Qed.

Lemma monitors_bounds e m :
  valid (self m) -> bounds_inv m -> bounds_inv (snd (monitors e m)).
Proof.
  intros Hv Hb. pose proof Hb as (Hw & Hq & Hi & Ht & Ho).
  destruct (valid_num_path _ Hv) as (_ & _ & _ & np & Hnp & Hge).
  destruct (valid_num_workers _ Hv) as (_ & _ & _ & nw & Hnw & _).
  assert (Hresized : forall m', Forall (Forall index_ok) (objs m') ->
                                Forall (Forall index_ok) (objs_resized np m')).
  { intros m' Hm'. unfold objs_resized.
    repeat match goal with |- context [if ?b then _ else _] => destruct b end;
      try done.
    apply Forall_app. split; [done |].
    apply Forall_replicate. constructor; [apply index_ok_default | constructor]. }
  destruct e; try exact Hb; cbn [monitors].
  - rewrite (set_path_weight_spec m np) by (done || lia).
    cbn [snd]. unfold bounds_inv. cbn [self objs with_lists path_weight qps
                                      instruct_timeout worker_timeout].
    split_bounds.
    apply Forall_resize; [apply weight_ok_default | done].
  - rewrite (set_worker_indexes_fun m np nw) by done.
    cbn [snd]. unfold bounds_inv. cbn [self objs with_lists path_weight qps
                                      instruct_timeout worker_timeout].
    split_bounds.
    apply loop_objs_ok. by apply Hresized.
Qed.

Lemma apply_edit_bounds e m :
  valid (self m) -> bounds_inv m -> bounds_inv (snd (apply_edit e m)).
Proof.
  intros Hv Hb. unfold apply_edit. rewrite run_bind.
  pose proof (store_field_valid e m Hv) as Hv1.
  pose proof (store_field_bounds e m Hb) as Hb1.
  destruct (store_field e m) as [[[] | err] m1]; cbn [snd] in *; [| done].
  by apply monitors_bounds.
Qed.

Lemma reachable_bounds m : reachable m -> bounds_inv m.
Proof.
  induction 1 as [| m e Hr IH].
  - unfold bounds_inv. cbn.
    refine (conj _ (conj _ (conj _ (conj _ _)))).
    + constructor; [apply weight_ok_default | constructor].
    + repeat split. by left.
    + repeat split. by left.
    + repeat split. by left.
    + constructor; [| constructor]. constructor; [apply index_ok_default | constructor].
  - apply apply_edit_bounds; [by apply reachable_valid | done].
Qed.

(** A weight between 0.0 and 1.0. *)
Definition in_unit_interval (w : option float) : Prop :=
  exists x, w = Some x
            /\ PrimFloat.leb 0.0%float x = true /\ PrimFloat.leb x 1.0%float = true.

(** No value, or one from 0.1 up. *)
Definition none_or_from_a_tenth (v : option float) : Prop :=
  v = None \/ exists x, v = Some x /\ PrimFloat.leb 0.1%float x = true.

(** An index whose three components are integers from 0 up. *)
Definition index_from_zero (ix : lmfuser_data.Index) : Prop :=
  exists e p r, ix = lmfuser_data.mkIndex (Some e) (Some p) (Some r)
                /\ 0 <= e /\ 0 <= p /\ 0 <= r.

Lemma to_index_from_zero ic : index_ok ic -> index_from_zero (to_index ic).
Proof.
  intros ((_ & _ & _ & e & He & ?) & (_ & _ & _ & p & Hp & ?) & (_ & _ & _ & r & Hr & ?)).
  exists e, p, r. unfold to_index. by rewrite He, Hp, Hr.
Qed.

(** On every reachable tree, with the scanner class registered, the
    loader that [init_dataloader] builds gets values within the declared
    bounds: a batch size of at least 1, a prefetch factor of at least 0,
    weights between 0.0 and 1.0, [qps] and the two timeouts absent or at
    least 0.1, and indexes whose components are at least 0. *)
Theorem the_loader_gets_values_in_bounds
    (registered : list string) (m : Mem) (f g h : option lmfuser_data.callable) :
  reachable m -> "C4Scanner" ∈ registered ->
  exists dl idx,
    init_dataloader registered f g h m = (Ret dl, m)
    /\ 1 <= lmfuser_data.batch_size dl
    /\ (exists pf, lmfuser_data.pre_fetch_factor dl = Some pf /\ 0 <= pf)
    /\ Forall in_unit_interval (lmfuser_data.distributor_weights dl)
    /\ none_or_from_a_tenth (lmfuser_data.qps dl)
    /\ none_or_from_a_tenth (lmfuser_data.instruct_timeout dl)
    /\ none_or_from_a_tenth (lmfuser_data.worker_timeout dl)
    /\ lmfuser_data.indexes dl = lmfuser_data.given idx
    /\ Forall (Forall index_from_zero) idx.
Proof.
  intros Hr Hreg. pose proof (reachable_valid _ Hr) as Hv.
  destruct (reachable_bounds _ Hr) as (Hw & Hq & Hi & Ht & Ho).
  destruct (valid_batch_size _ Hv) as (_ & _ & _ & bs & Hbs & Hbs1).
  destruct (valid_prefetch_factor _ Hv) as (_ & _ & _ & pf & Hpf & Hpf0).
  pose proof (valid_scanner_type _ Hv) as Hsc.
  unfold init_dataloader. unfold_M. rewrite Hbs, Hsc. cbn.
  unfold lmfuser_data.get_subclass. rewrite bool_decide_true by done.
  eexists _, (map (map to_index) (worker_indexes_value m)).
  split; [reflexivity |].
  cbn [lmfuser_data.batch_size lmfuser_data.pre_fetch_factor
       lmfuser_data.distributor_weights lmfuser_data.qps
       lmfuser_data.instruct_timeout lmfuser_data.worker_timeout
       lmfuser_data.indexes].
  split; [done |]. split; [by exists pf |].
  split.
  { apply Forall_fmap. eapply Forall_impl; [exact Hw |].
    intros a (_ & _ & _ & x & Hx & Hlo & Hhi). by exists x. }
  split; [by destruct Hq as (_ & _ & Hq) |].
  split; [by destruct Hi as (_ & _ & Hi) |].
  split; [by destruct Ht as (_ & _ & Ht) |].
  split; [done |].
  apply Forall_fmap. unfold worker_indexes_value.
  apply Forall_fmap, Forall_forall. intros r _. cbn.
  apply Forall_fmap.
  assert (Hinner : Forall index_ok (default [] (objs m !! r))).
  { destruct (objs m !! r) as [l |] eqn:Hl; cbn; [| constructor].
    eapply Forall_lookup_1; [exact Ho | exact Hl]. }
  eapply Forall_impl; [exact Hinner |]. intros ic. apply to_index_from_zero.
Qed.

Lemma the_loader_values_after_four_edits :
  exists dl idx,
    init_dataloader ["C4Scanner"] None None None
      (apply_edits [edit_num_path (Some 2); edit_path_weight 1 (Some 0.5%float);
                    edit_qps (Some 2.0%float); edit_worker_index 0 0 at_row (Some 7)]
         DataLoaderConf_new)
    = (Ret dl,
       apply_edits [edit_num_path (Some 2); edit_path_weight 1 (Some 0.5%float);
                    edit_qps (Some 2.0%float); edit_worker_index 0 0 at_row (Some 7)]
         DataLoaderConf_new)
    /\ 1 <= lmfuser_data.batch_size dl
    /\ (exists pf, lmfuser_data.pre_fetch_factor dl = Some pf /\ 0 <= pf)
    /\ Forall in_unit_interval (lmfuser_data.distributor_weights dl)
    /\ none_or_from_a_tenth (lmfuser_data.qps dl)
    /\ none_or_from_a_tenth (lmfuser_data.instruct_timeout dl)
    /\ none_or_from_a_tenth (lmfuser_data.worker_timeout dl)
    /\ lmfuser_data.indexes dl = lmfuser_data.given idx
    /\ Forall (Forall index_from_zero) idx.
Proof.
  apply (the_loader_gets_values_in_bounds ["C4Scanner"]
           (apply_edits [edit_num_path (Some 2); edit_path_weight 1 (Some 0.5%float);
                         edit_qps (Some 2.0%float);
                         edit_worker_index 0 0 at_row (Some 7)]
              DataLoaderConf_new)
           None None None).
  - apply (reachable_edit _ (edit_worker_index 0 0 at_row (Some 7))).
    apply (reachable_edit _ (edit_qps (Some 2.0%float))).
    apply (reachable_edit _ (edit_path_weight 1 (Some 0.5%float))).
    apply (reachable_edit _ (edit_num_path (Some 2))).
    apply reachable_new.
  - apply list_elem_of_here.
Defined.

End LoaderBounds.

(** ** Edits that fail *)

Section FailedEdits.

Lemma dl_store_field_errors e m err :
  fst (dataloader_config.store_field e m) = Raise err ->
  err = IndexError \/ exists field, err = ValidationError field.
Proof.
  destruct m as [o c]; destruct c; cbn.
  unfold IntArg_set, FloatArg_set, StrArg_set, BoolArg_set, OptionArg_set,
    dataloader_config.IndexConf_set, IntArg_set.
  destruct e; cbn;
    repeat match goal with
    | |- context [match ?x !! ?i with _ => _ end] => destruct (x !! i) eqn:?; cbn
    | |- context [if ?b then _ else _] => destruct b eqn:?; cbn
    | |- context [match ?v with Some _ => _ | None => _ end] => destruct v eqn:?; cbn
    | |- context [match ?f with dataloader_config.at_epoch => _ | _ => _ end] =>
        destruct f; cbn
    end; intros [= <-]; eauto.
Qed.

Lemma task_store_field_errors reg e t err :
  fst (task.store_field reg e t) = Raise err ->
  (err = IndexError \/ exists field, err = ValidationError field)
  /\ snd (task.store_field reg e t) = t.
Proof.
  destruct t; cbn.
  unfold IntArg_set, FloatArg_set, StrArg_set, OptionArg_set.
  destruct e; cbn;
    repeat match goal with
    | |- context [match ?x !! ?i with _ => _ end] => destruct (x !! i) eqn:?; cbn
    | |- context [if ?b then _ else _] => destruct b eqn:?; cbn
    | |- context [match ?v with Some _ => _ | None => _ end] => destruct v eqn:?; cbn
    end; intros [= <-]; eauto.
Qed.

Lemma task_monitors_return e t :
  counts_declared t -> fst (task.monitors e t) = Ret tt.
Proof.
  intros [(_ & _ & _ & n1 & Hn1 & _) (_ & _ & _ & n2 & Hn2 & _)].
  destruct e; try done; cbn [task.monitors].
  - unfold task.set_train_path_list, task.assert_isinstance_int.
    unfold task.assign_train_data_path_list, task.assign_train_data_weights. unfold_M.
    rewrite Hn1. cbn.
    destruct (len (task.train_data_path_list t) >? n1); cbn; [done |].
    by destruct (len (task.train_data_path_list t) <? n1).
  - unfold task.set_eval_path_list, task.assert_isinstance_int.
    unfold task.assign_eval_data_path_list, task.assign_eval_data_weights. unfold_M.
    rewrite Hn2. cbn.
    destruct (len (task.eval_data_path_list t) >? n2); cbn; [done |].
    by destruct (len (task.eval_data_path_list t) <? n2).
Qed.

(** On a reachable [DataLoaderConf] and on a reachable [TaskBase], an
    edit that fails was rejected by the field or by an index outside a
    list, and the tree is then exactly as before: the assertions of the
    monitors ([assert num is not None], [assert isinstance(num, int)])
    never fail, and no monitor stops half-way. *)
Theorem a_failed_edit_changes_nothing :
  (forall (m : dataloader_config.Mem) (e : dataloader_config.edit) (err : exn),
     dataloader_config.reachable m ->
     fst (dataloader_config.apply_edit e m) = Raise err ->
     (err = IndexError \/ exists field, err = ValidationError field)
     /\ snd (dataloader_config.apply_edit e m) = m)
  /\ (forall (reg : task.Registry) (t : task.TaskBase) (e : task.edit) (err : exn),
       task.reachable reg t ->
       fst (task.apply_edit reg e t) = Raise err ->
       (err = IndexError \/ exists field, err = ValidationError field)
       /\ snd (task.apply_edit reg e t) = t).
Proof.
  split.
  - intros m e err Hv%reachable_valid.
    unfold dataloader_config.apply_edit. rewrite run_bind.
    pose proof (store_field_valid e m Hv) as Hv1.
    pose proof (store_field_raise e m) as Hsame.
    pose proof (dl_store_field_errors e m) as Herr.
    destruct (dataloader_config.store_field e m) as [[[] | err1] m1];
      cbn [fst snd] in *.
    + destruct (monitors_valid e m1 Hv1) as (o' & c' & -> & _). done.
    + intros [= <-]. split; [by apply Herr | by apply (Hsame err1)].
  - intros reg t e err Hc%reachable_counts.
    unfold task.apply_edit. rewrite run_bind.
    pose proof (store_field_counts reg e t Hc) as Hc1.
    pose proof (task_store_field_errors reg e t) as Herr.
    destruct (task.store_field reg e t) as [[[] | err1] t1]; cbn [fst snd] in *.
    + pose proof (task_monitors_return e t1 Hc1) as Hret.
      destruct (task.monitors e t1) as [[[] | err2] t2]; cbn in *; done.
    + intros [= <-]. by apply Herr.
Qed.

Lemma a_count_of_zero_and_a_missing_index_change_nothing :
  ((ValidationError "num_path" = IndexError
    \/ exists field, ValidationError "num_path" = ValidationError field)
   /\ snd (dataloader_config.apply_edit (dataloader_config.edit_num_path (Some 0))
             dataloader_config.DataLoaderConf_new)
      = dataloader_config.DataLoaderConf_new)
  /\ ((IndexError = IndexError \/ exists field, IndexError = ValidationError field)
      /\ snd (task.apply_edit C4_registry (task.edit_train_data_path_list 5 (Some "x"))
                task.Task_new)
         = task.Task_new).
Proof.
  split.
  - apply (proj1 a_failed_edit_changes_nothing dataloader_config.DataLoaderConf_new
             (dataloader_config.edit_num_path (Some 0)) (ValidationError "num_path")).
    + apply dataloader_config.reachable_new.
    + reflexivity.
  - apply (proj2 a_failed_edit_changes_nothing C4_registry task.Task_new
             (task.edit_train_data_path_list 5 (Some "x")) IndexError).
    + apply task.reachable_new.
    + reflexivity.
Defined.

End FailedEdits.
